(** * Flower Shop API: the order engine

    A shallow embedding of the order routes of the Flower Shop API
    ([src/routes/shop.js], [src/routes/orders.js]) over the Sequelize models
    of [models/index.js], and the properties of order placement.

    - JavaScript numbers are [num]: a rational or [NaN].  Arithmetic is
      exact; the rounding of IEEE doubles is not represented.
    - The fields of a cart item are JSON [null], booleans and numbers, or are
      missing.  Strings in their place, which [Number] would parse, are not
      represented.
    - The tables are lists of rows and hold the numbers they are given, as
      SQLite does.  A transaction is the list of its pending writes; a query
      inside it sees the committed rows with those writes applied; [Commit]
      applies them to the committed rows and [Rollback] drops them.  The two
      auto-increment counters live beside the tables; a rollback gives back
      the ids that its transaction had drawn, as SQLite does.
    - A route handler is a program [prog] with one node per awaited database
      call, so that it can be run alone ([run]) or interleaved with other
      handlers at its awaits ([interleave]), over the locks of SQLite.
    - The handlers are taken after their middleware ([auth], then
      [requireCustomer] or [staff]): they start from the principal.
    - Logging has no effect on the response or on the tables and is left
      out. *)

From Stdlib Require Import ZArith QArith List String Ascii Bool Lia Lqa.
Import ListNotations.

Set Implicit Arguments.

(** ** JavaScript numbers and request values *)

Inductive num : Type :=
| NaN
| Fin (q : Q).

Definition nadd (a b : num) : num :=
  match a, b with Fin x, Fin y => Fin (x + y) | _, _ => NaN end.

Definition nsub (a b : num) : num :=
  match a, b with Fin x, Fin y => Fin (x - y) | _, _ => NaN end.

Definition nmul (a b : num) : num :=
  match a, b with Fin x, Fin y => Fin (x * y) | _, _ => NaN end.

(** [a < b]: false as soon as one side is [NaN]. *)
Definition nlt (a b : num) : bool :=
  match a, b with Fin x, Fin y => negb (Qle_bool y x) | _, _ => false end.

(** [!n] on a number: true for [0] and [NaN]. *)
Definition falsy (n : num) : bool :=
  match n with NaN => true | Fin q => Qeq_bool q 0 end.

(** SameValueZero, the key comparison of a JavaScript [Map]. *)
Definition same_value (a b : num) : bool :=
  match a, b with
  | NaN, NaN => true
  | Fin x, Fin y => Qeq_bool x y
  | _, _ => false
  end.

(** Numeric equality of two JavaScript numbers, as a proposition. *)
Definition num_eq (a b : num) : Prop :=
  match a, b with
  | NaN, NaN => True
  | Fin x, Fin y => x == y
  | _, _ => False
  end.

Definition of_Z (z : Z) : num := Fin (inject_Z z).

(** The JSON values an item field can carry; a missing property ([undefined])
    is [None] at the place where the property is read.  String-valued fields,
    which [Number] would parse, are outside this type. *)
Inductive value : Type :=
| VNull
| VBool (b : bool)
| VNum (q : Q).

Definition truthy (v : option value) : bool :=
  match v with
  | None | Some VNull => false
  | Some (VBool b) => b
  | Some (VNum q) => negb (Qeq_bool q 0)
  end.

(** [Number(v)]. *)
Definition Number (v : option value) : num :=
  match v with
  | None => NaN
  | Some VNull => Fin 0
  | Some (VBool b) => Fin (if b then 1 else 0)
  | Some (VNum q) => Fin q
  end.

(** [v || 0]. *)
Definition or_zero (v : option value) : option value :=
  if truthy v then v else Some (VNum 0).

(** An element of [items] after flattening: an object read through its two
    properties.  Anything without them (a deeper array, a scalar) reads as
    [undefined] twice. *)
Record item : Type := mkItem {
  flowerId : option value;
  quantity : option value
}.

(** An element of [items] as sent: an object, or an array of objects
    (accidental nesting). *)
Inductive entry : Type :=
| Single (raw : item)
| Nested (inner : list item).

(** [items.flat()]: one level of nesting is spliced in. *)
Definition flat (items : list entry) : list item :=
  flat_map (fun e => match e with Nested inner => inner | Single raw => [raw] end) items.

(** Strings: truthiness, [a || b], [a || null], and [email.split('@')[0]]. *)
Definition present (s : option string) : bool :=
  match s with
  | None => false
  | Some s => negb (String.eqb s EmptyString)
  end.

Definition or_else (s : option string) (d : string) : string :=
  match s with
  | Some s => if String.eqb s EmptyString then d else s
  | None => d
  end.

Definition or_null (s : option string) : option string :=
  if present s then s else None.

Fixpoint local_part (s : string) : string :=
  match s with
  | EmptyString => EmptyString
  | String c rest =>
      if Ascii.eqb c "@"%char then EmptyString else String c (local_part rest)
  end.

(** ** A JavaScript [Map] from numbers to numbers, in insertion order *)

Definition jsmap : Type := list (num * num).

Fixpoint map_get (m : jsmap) (k : num) : option num :=
  match m with
  | [] => None
  | (k', v) :: rest => if same_value k' k then Some v else map_get rest k
  end.

Fixpoint map_set (m : jsmap) (k v : num) : jsmap :=
  match m with
  | [] => [(k, v)]
  | (k', v') :: rest =>
      if same_value k' k then (k', v) :: rest else (k', v') :: map_set rest k v
  end.

(** [merged.get(fid) || 0]. *)
Definition get_or_zero (m : jsmap) (k : num) : num :=
  match map_get m k with
  | Some v => if falsy v then Fin 0 else v
  | None => Fin 0
  end.

(** ** The models ([models/index.js]) *)

Record Flower : Type := mkFlower {
  f_id : Z;
  f_name : string;
  f_price : num;
  f_stock : num;
  f_isActive : bool
}.

Record Customer : Type := mkCustomer {
  c_id : Z;
  c_name : string;
  c_email : string;
  c_isActive : bool
}.

(** What the shop route stashes in [notes] (the argument of
    [JSON.stringify]), or the plain notes of the staff route. *)
Record Extra : Type := mkExtra {
  x_fulfilment : string;
  x_deliveryAddress : option string;
  x_deliveryDate : option string;
  x_contactPhone : string;
  x_giftMessage : option string;
  x_clientNotes : option string
}.

Inductive notes : Type :=
| Stashed (e : Extra)
| Plain (s : option string).

Record Order : Type := mkOrder {
  o_id : Z;
  o_customerId : Z;
  o_status : string;
  o_total : num;
  o_notes : notes
}.

Record OrderItem : Type := mkOrderItem {
  oi_orderId : Z;
  oi_flowerId : num;
  oi_quantity : num;
  oi_price : num
}.

Record tables : Type := mkTables {
  flowers : list Flower;
  customers : list Customer;
  orders : list Order;
  orderItems : list OrderItem
}.

(** ** Writes, transactions and the store *)

Inductive write : Type :=
| InsertCustomer (c : Customer)
| ReactivateCustomer (id : Z) (name : string)
| InsertOrder (o : Order)
| InsertOrderItem (it : OrderItem)
| SetStock (id : Z) (stock : num)
| SetTotal (id : Z) (total : num).

Definition apply_write (t : tables) (w : write) : tables :=
  match w with
  | InsertCustomer c =>
      mkTables (flowers t) (customers t ++ [c]) (orders t) (orderItems t)
  | ReactivateCustomer id name =>
      mkTables (flowers t)
        (map (fun c => if Z.eqb (c_id c) id
                       then mkCustomer (c_id c) name (c_email c) true else c)
             (customers t))
        (orders t) (orderItems t)
  | InsertOrder o =>
      mkTables (flowers t) (customers t) (orders t ++ [o]) (orderItems t)
  | InsertOrderItem it =>
      mkTables (flowers t) (customers t) (orders t) (orderItems t ++ [it])
  | SetStock id stock =>
      mkTables
        (map (fun f => if Z.eqb (f_id f) id
                       then mkFlower (f_id f) (f_name f) (f_price f) stock (f_isActive f)
                       else f)
             (flowers t))
        (customers t) (orders t) (orderItems t)
  | SetTotal id total =>
      mkTables (flowers t) (customers t)
        (map (fun o => if Z.eqb (o_id o) id
                       then mkOrder (o_id o) (o_customerId o) (o_status o) total (o_notes o)
                       else o)
             (orders t))
        (orderItems t)
  end.

(** The committed tables and the two auto-increment counters. *)
Record store : Type := mkStore {
  committed : tables;
  next_customer : Z;
  next_order : Z
}.

(** The transaction [t] of a handler: [None] when none is open, otherwise its
    pending writes, oldest first. *)
Definition txn : Type := option (list write).

Definition pending (l : txn) : list write :=
  match l with Some ws => ws | None => [] end.

(** What a query sees: the committed rows with the pending writes applied. *)
Definition view (s : store) (l : txn) : tables :=
  fold_left apply_write (pending l) (committed s).

Definition do_write (w : write) (l : txn) (s : store) : txn * store :=
  match l with
  | Some ws => (Some (ws ++ [w]), s)
  | None => (None, mkStore (apply_write (committed s) w) (next_customer s) (next_order s))
  end.

(** The store after a rollback: the pending writes are dropped, and each
    insert among them gives back the id it had drawn. *)
Definition unwind (s : store) (w : write) : store :=
  match w with
  | InsertCustomer _ => mkStore (committed s) (next_customer s - 1) (next_order s)
  | InsertOrder _ => mkStore (committed s) (next_customer s) (next_order s - 1)
  | _ => s
  end.

Definition rolled_back (l : txn) (s : store) : store :=
  fold_left unwind (pending l) s.

(** ** Errors and responses *)

(** What a handler can catch: the error that [getOrCreateCustomerProfile]
    makes, with its [status]; the error of Sequelize for a row that breaks a
    unique index, with the messages of its [errors]; the error of Sequelize
    for a call that SQLite refused because the database was locked. *)
Inductive exn : Type :=
| HttpError (status : Z) (message : string)
| SequelizeUniqueConstraintError (message : string) (errors : list string)
| SequelizeTimeoutError (message : string).

(** [err.message], [err.errors.map(e => e.message)] and [err.status || 500]. *)
Definition message (err : exn) : string :=
  match err with
  | HttpError _ m => m
  | SequelizeUniqueConstraintError m _ => m
  | SequelizeTimeoutError m => m
  end.

Definition error_messages (err : exn) : list string :=
  match err with
  | SequelizeUniqueConstraintError _ errors => errors
  | HttpError _ m | SequelizeTimeoutError m => [m]
  end.

Definition status_or_500 (err : exn) : Z :=
  match err with
  | HttpError st _ => if Z.eqb st 0 then 500%Z else st
  | SequelizeUniqueConstraintError _ _ | SequelizeTimeoutError _ => 500%Z
  end.

(** The two errors of the database, with the texts that Sequelize gives
    them. *)
Definition not_unique (fields : list string) : exn :=
  SequelizeUniqueConstraintError "Validation error"
    (map (fun f => (f ++ " must be unique")%string) fields).

Definition database_locked : exn :=
  SequelizeTimeoutError "SQLITE_BUSY: database is locked".

Inductive jvalue : Type :=
| JString (s : string)
| JStrings (l : list string)
| JTemplate (before : string) (n : num) (after : string).

(** An order as [Order.findByPk(id, include Flower through OrderItem)] returns
    it: the row, and each flower of the order that is on sale with its
    line. *)
Definition hydrated : Type := (Order * list (Flower * OrderItem))%type.

Inductive payload : Type :=
| Object (fields : list (string * jvalue))
| OrderJson (full : option hydrated).

Record response : Type := mkResponse {
  status : Z;
  body : payload
}.

(** The top-level keys of a payload; an order is serialised with its
    columns, its timestamps and its flowers. *)
Definition order_keys : list string :=
  ["id"; "customerId"; "status"; "total"; "notes"; "createdAt"; "updatedAt"; "Flowers"]%string.

Definition has_key (k : string) (p : payload) : Prop :=
  match p with
  | Object fields => exists v, In (k, v) fields
  | OrderJson (Some _) => In k order_keys
  | OrderJson None => False
  end.

(** ** Database calls and handler programs *)

(** The awaited calls of the routes, each with the type of what it resolves
    to.  [Transaction] is [sequelize.transaction()]; [Commit] and [Rollback]
    end it.  [Customer_findOrCreate] and [Customer_findOne] search all the
    customer rows by email ([Customer.unscoped()]); [Customer_findByPk],
    [Flower_findByPk] and the flowers that [Order_findByPk] includes go
    through the default scope, which keeps the active rows only.
    [Customer_reactivate c name] is [c.update({ isActive: true, name })],
    [Order_updateTotal o total] is [o.update({ total })] and
    [Flower_updateStock f stock] is [f.update({ stock })].  [Order_create]
    inserts a pending order with total 0.  [OrderItem_create] throws when the
    order already has a line for the flower. *)
Inductive op : Type -> Type :=
| Transaction : op unit
| Commit : op unit
| Rollback : op unit
| Customer_findOrCreate (email name : string) : op (Customer * bool)
| Customer_reactivate (c : Customer) (name : string) : op unit
| Customer_findOne (email : string) : op (option Customer)
| Customer_findByPk (id : num) : op (option Customer)
| Order_create (customerId : Z) (n : notes) : op Order
| Order_updateTotal (o : Order) (total : num) : op unit
| Order_findByPk (id : num) : op (option hydrated)
| Flower_findByPk (id : num) (lock : bool) : op (option Flower)
| Flower_updateStock (f : Flower) (stock : num) : op unit
| OrderItem_create (it : OrderItem) : op (option exn).

(** A handler: it answers, or awaits a call and goes on with its result. *)
Inductive prog (R : Type) : Type :=
| Ret (r : R)
| Vis (X : Type) (o : op X) (k : X -> prog R).

Arguments Ret {R} r.
Arguments Vis {R X} o k.

Fixpoint bind {A B : Type} (p : prog A) (f : A -> prog B) : prog B :=
  match p with
  | Ret a => f a
  | Vis o k => Vis o (fun x => bind (k x) f)
  end.

Definition call {X : Type} (o : op X) : prog X := Vis o Ret.

Notation "x <- p ;; q" := (bind p (fun x => q))
  (at level 61, p at next level, right associativity).
Notation "p ;; q" := (bind p (fun _ => q))
  (at level 61, right associativity).

(** Row lookups: by primary key, by email, the lines of an order, and an
    order with the flowers of its lines.  The include of [Flower] is an inner
    join through the default scope of [Flower]: it yields one row per line
    whose flower is on sale, in the order of the primary key of the lines (by
    flower), and an order with no such line is not found. *)
Definition pk_matches (id : Z) (k : num) : bool := same_value (of_Z id) k.

Definition find_flower (t : tables) (k : num) : option Flower :=
  find (fun f => pk_matches (f_id f) k && f_isActive f) (flowers t).

Definition find_customer_pk (t : tables) (k : num) : option Customer :=
  find (fun c => pk_matches (c_id c) k && c_isActive c) (customers t).

Definition find_customer_email (t : tables) (email : string) : option Customer :=
  find (fun c => String.eqb (c_email c) email) (customers t).

Definition items_of (t : tables) (orderId : Z) : list OrderItem :=
  filter (fun it => Z.eqb (oi_orderId it) orderId) (orderItems t).

Fixpoint insert_by_flower (r : Flower * OrderItem) (rows : list (Flower * OrderItem))
  : list (Flower * OrderItem) :=
  match rows with
  | [] => [r]
  | r' :: rest =>
      if Z.leb (f_id (fst r)) (f_id (fst r')) then r :: r' :: rest
      else r' :: insert_by_flower r rest
  end.

Definition joined (t : tables) (orderId : Z) : list (Flower * OrderItem) :=
  fold_right insert_by_flower []
    (flat_map (fun it => match find_flower t (oi_flowerId it) with
                         | Some f => [(f, it)]
                         | None => []
                         end)
              (items_of t orderId)).

Definition hydrate (t : tables) (o : Order) : hydrated := (o, joined t (o_id o)).

Definition find_order (t : tables) (k : num) : option hydrated :=
  match find (fun o => pk_matches (o_id o) k) (orders t) with
  | Some o =>
      match joined t (o_id o) with
      | [] => None
      | _ :: _ => Some (hydrate t o)
      end
  | None => None
  end.

(** The composite primary key of [order_items]. *)
Definition line_exists (t : tables) (it : OrderItem) : bool :=
  existsb (fun r => Z.eqb (oi_orderId r) (oi_orderId it)
                    && same_value (oi_flowerId r) (oi_flowerId it))
          (orderItems t).

(** One database call, against the transaction [l] of the caller and the
    store [s]. *)
Definition exec {X : Type} (o : op X) (l : txn) (s : store) : X * txn * store :=
  match o in op X return X * txn * store with
  | Transaction => (tt, Some [], s)
  | Commit => (tt, None, mkStore (view s l) (next_customer s) (next_order s))
  | Rollback => (tt, None, rolled_back l s)
  | Customer_findOrCreate email name =>
      match find_customer_email (view s l) email with
      | Some c => ((c, false), l, s)
      | None =>
          let c := mkCustomer (next_customer s) name email true in
          let '(l', s') := do_write (InsertCustomer c) l s in
          ((c, true), l', mkStore (committed s') (next_customer s + 1) (next_order s'))
      end
  | Customer_reactivate c name =>
      let '(l', s') := do_write (ReactivateCustomer (c_id c) name) l s in (tt, l', s')
  | Customer_findOne email => (find_customer_email (view s l) email, l, s)
  | Customer_findByPk id => (find_customer_pk (view s l) id, l, s)
  | Order_create customerId n =>
      let o := mkOrder (next_order s) customerId "pending" (Fin 0) n in
      let '(l', s') := do_write (InsertOrder o) l s in
      (o, l', mkStore (committed s') (next_customer s') (next_order s + 1))
  | Order_updateTotal o total =>
      let '(l', s') := do_write (SetTotal (o_id o) total) l s in (tt, l', s')
  | Order_findByPk id => (find_order (view s l) id, l, s)
  | Flower_findByPk id _ => (find_flower (view s l) id, l, s)
  | Flower_updateStock f stock =>
      let '(l', s') := do_write (SetStock (f_id f) stock) l s in (tt, l', s')
  | OrderItem_create it =>
      if line_exists (view s l) it
      then (Some (not_unique ["order_id"; "flower_id"]%string), l, s)
      else let '(l', s') := do_write (InsertOrderItem it) l s in (None, l', s')
  end.

(** A handler run alone, from its first call to its response. *)
Fixpoint run {R : Type} (p : prog R) (l : txn) (s : store) : R * txn * store :=
  match p with
  | Ret r => (r, l, s)
  | Vis o k => let '(x, l', s') := exec o l s in run (k x) l' s'
  end.

(** ** Control flow inside a [try] block

    A step of a handler body goes on with a value ([Next]), leaves the handler
    with a response ([Return], the [return res.status(..).json(..)] of the
    source) or throws ([Throw]). *)

Inductive flow (A : Type) : Type :=
| Next (a : A)
| Return (r : response)
| Throw (e : exn).

Arguments Next {A} a.
Arguments Return {A} r.
Arguments Throw {A} e.

Definition bindF {A B : Type} (p : prog (flow A)) (f : A -> prog (flow B)) : prog (flow B) :=
  bind p (fun r =>
    match r with
    | Next a => f a
    | Return resp => Ret (Return resp)
    | Throw e => Ret (Throw e)
    end).

Definition await {X : Type} (o : op X) : prog (flow X) :=
  Vis o (fun x => Ret (Next x)).

Notation "x <~ p ;; q" := (bindF p (fun x => q))
  (at level 61, p at next level, right associativity).

Definition json (code : Z) (fields : list (string * jvalue)) : response :=
  mkResponse code (Object fields).

(** ** The principal and the request bodies *)

Record principal : Type := mkPrincipal {
  u_id : Z;
  u_email : option string;
  u_name : option string;
  u_role : string
}.

Record shop_request : Type := mkShopRequest {
  rq_items : option (list entry);       (* [None]: absent or not an array *)
  rq_fulfilment : option string;
  rq_deliveryAddress : option string;
  rq_deliveryDate : option string;
  rq_contactPhone : option string;
  rq_giftMessage : option string;
  rq_notes : option string
}.

(** ** [src/routes/shop.js] *)

Module Shop.

(** [isSeqValidation(err)]: a Sequelize validation error or unique
    constraint error.  The tables here raise the second only. *)
Definition isSeqValidation (err : exn) : bool :=
  match err with
  | SequelizeUniqueConstraintError _ _ => true
  | HttpError _ _ | SequelizeTimeoutError _ => false
  end.

(** [getOrCreateCustomerProfile(user, t)]: the profile under the email of
    the principal, looked up among all rows (unscoped), created when there
    is none, reactivated when it is soft-deleted. *)
Definition getOrCreateCustomerProfile (user : principal) : prog (flow Customer) :=
  if negb (present (u_email user)) then
    Ret (Throw (HttpError 400 "Authenticated user is missing an email"))
  else
    let email := or_else (u_email user) EmptyString in
    found <~ await (Customer_findOrCreate email (or_else (u_name user) (local_part email))) ;;
    let '(c, created) := found in
    if negb created && negb (c_isActive c) then
      let name := or_else (Some (c_name c)) (or_else (u_name user) (local_part email)) in
      _ <~ await (Customer_reactivate c name) ;;
      Ret (Next (mkCustomer (c_id c) name (c_email c) true))
    else
      Ret (Next c).

(** [fulfilment === 'delivery' ? 'delivery' : 'pickup']. *)
Definition fulfil (fulfilment : option string) : string :=
  match fulfilment with
  | Some s => if String.eqb s "delivery" then "delivery"%string else "pickup"%string
  | None => "pickup"%string
  end.

(** The normalising loop over [items.flat()]; [None] when it meets an item
    with [!fid || qty < 1]. *)
Fixpoint merge (raws : list item) (merged : jsmap) : option jsmap :=
  match raws with
  | [] => Some merged
  | raw :: rest =>
      let fid := Number (flowerId raw) in
      let qty := Number (or_zero (quantity raw)) in
      if falsy fid || nlt qty (Fin 1) then None
      else merge rest (map_set merged fid (nadd (get_or_zero merged fid) qty))
  end.

Definition unavailable (flowerId : num) : response :=
  json 400 [("msg"%string, JTemplate "Flower " flowerId " unavailable")].

Definition insufficient (flower : Flower) : response :=
  json 400 [("msg"%string, JString ("Insufficient stock for " ++ f_name flower))].

(** The loop over [merged.entries()]. *)
Fixpoint reserve (order : Order) (entries : jsmap) (total : num) : prog (flow num) :=
  match entries with
  | [] => Ret (Next total)
  | (flowerId, q) :: rest =>
      found <~ await (Flower_findByPk flowerId false) ;;
      match found with
      | None => _ <~ await Rollback ;; Ret (Return (unavailable flowerId))
      | Some flower =>
          if negb (f_isActive flower) then
            _ <~ await Rollback ;; Ret (Return (unavailable flowerId))
          else if nlt (f_stock flower) q then
            _ <~ await Rollback ;; Ret (Return (insufficient flower))
          else
            let price := f_price flower in
            let total := nadd total (nmul price q) in
            thrown <~ await (OrderItem_create (mkOrderItem (o_id order) flowerId q price)) ;;
            match thrown with
            | Some e => Ret (Throw e)
            | None =>
                _ <~ await (Flower_updateStock flower (nsub (f_stock flower) q)) ;;
                reserve order rest total
            end
      end
  end.

(** The object [extra] that is stashed in the notes of the order. *)
Definition extra (rq : shop_request) : Extra :=
  mkExtra (fulfil (rq_fulfilment rq))
          (or_null (rq_deliveryAddress rq))
          (or_null (rq_deliveryDate rq))
          (or_else (rq_contactPhone rq) EmptyString)
          (or_null (rq_giftMessage rq))
          (or_null (rq_notes rq)).

(** The [try] block of [POST /orders]. *)
Definition place (user : principal) (rq : shop_request) (items : list entry)
  : prog (flow response) :=
  customer <~ getOrCreateCustomerProfile user ;;
  order <~ await (Order_create (c_id customer) (Stashed (extra rq))) ;;
  match merge (flat items) [] with
  | None =>
      _ <~ await Rollback ;;
      Ret (Return (json 400 [("msg"%string,
                              JString "Each item needs flowerId and quantity >= 1")]))
  | Some merged =>
      total <~ reserve order merged (Fin 0) ;;
      _ <~ await (Order_updateTotal order total) ;;
      _ <~ await Commit ;;
      full <~ await (Order_findByPk (of_Z (o_id order))) ;;
      Ret (Return (mkResponse 201 (OrderJson full)))
  end.

(** The [catch] block. *)
Definition rescue (err : exn) : prog response :=
  call Rollback ;;
  if isSeqValidation err then
    Ret (json 400 [("msg"%string, JString "Validation error");
                   ("errors"%string, JStrings (error_messages err))])
  else
    let status := status_or_500 err in
    Ret (json status [("msg"%string,
                       JString (if Z.eqb status 500 then "Server error"%string
                                else message err));
                      ("error"%string, JString (message err))]).

(** [POST /api/v1/shop/orders], after [auth] and [requireCustomer]. *)
Definition post_orders (user : principal) (rq : shop_request) : prog response :=
  match rq_items rq with
  | None | Some [] => Ret (json 400 [("msg"%string, JString "items are required")])
  | Some items =>
      if negb (present (rq_contactPhone rq)) then
        Ret (json 400 [("msg"%string, JString "contactPhone is required")])
      else
        call Transaction ;;
        r <- place user rq items ;;
        match r with
        | Next resp | Return resp => Ret resp
        | Throw err => rescue err
        end
  end.

(** [GET /api/v1/shop/orders/:id], after [auth] and [requireCustomer], for
    a principal with an email and a path whose [:id] is the text of a finite
    number, so that [Number(req.params.id)] is that number.  Without them a query is not well
    formed, it throws, and the [catch] answers 500. *)
Definition get_order (email : string) (id : Q) : prog response :=
  customer <- call (Customer_findOne email) ;;
  match customer with
  | None => Ret (json 404 [("msg"%string, JString "Order not found")])
  | Some customer =>
      found <- call (Order_findByPk (Fin id)) ;;
      match found with
      | None => Ret (json 404 [("msg"%string, JString "Order not found")])
      | Some order =>
          if negb (Z.eqb (o_customerId (fst order)) (c_id customer)) then
            Ret (json 404 [("msg"%string, JString "Order not found")])
          else
            Ret (mkResponse 200 (OrderJson (Some order)))
      end
  end.

End Shop.

(** ** [src/routes/orders.js]: the staff route *)

(** An item of the staff route.  The route uses the two properties as they
    come, without [Number(..)]; they are taken to be JSON numbers, as the
    interface types them. *)
Record staff_item : Type := mkStaffItem {
  s_flowerId : Q;
  s_quantity : Q
}.

Record staff_request : Type := mkStaffRequest {
  sr_customerId : option Q;
  sr_items : option (list staff_item);  (* [None]: absent or not an array *)
  sr_notes : option string
}.

Module Orders.

Definition not_found (flowerId : num) : response :=
  json 400 [("msg"%string, JTemplate "Flower ID " flowerId " not found")].

Definition insufficient (flower : Flower) : response :=
  json 400 [("msg"%string, JString ("Insufficient stock for " ++ f_name flower))].

(** The loop [for (const { flowerId, quantity } of items)]. *)
Fixpoint reserve (order : Order) (items : list staff_item) (total : num) : prog (flow num) :=
  match items with
  | [] => Ret (Next total)
  | it :: rest =>
      let flowerId := Fin (s_flowerId it) in
      let quantity := Fin (s_quantity it) in
      found <~ await (Flower_findByPk flowerId true) ;;
      match found with
      | None => _ <~ await Rollback ;; Ret (Return (not_found flowerId))
      | Some flower =>
          if negb (f_isActive flower) then
            _ <~ await Rollback ;; Ret (Return (not_found flowerId))
          else if nlt (f_stock flower) quantity then
            _ <~ await Rollback ;; Ret (Return (insufficient flower))
          else
            let price := f_price flower in
            let total := nadd total (nmul price quantity) in
            thrown <~ await (OrderItem_create (mkOrderItem (o_id order) flowerId quantity price)) ;;
            match thrown with
            | Some e => Ret (Throw e)
            | None =>
                _ <~ await (Flower_updateStock flower (nsub (f_stock flower) quantity)) ;;
                reserve order rest total
            end
      end
  end.

(** The [try] block of [POST /orders].  The order row takes the id of the
    customer row found under [customerId], the same number. *)
Definition place (customerId : Q) (rq : staff_request) (items : list staff_item)
  : prog (flow response) :=
  found <~ await (Customer_findByPk (Fin customerId)) ;;
  match found with
  | None => _ <~ await Rollback ;; Ret (Return (json 400 [("msg"%string, JString "Invalid customer")]))
  | Some customer =>
      if negb (c_isActive customer) then
        _ <~ await Rollback ;; Ret (Return (json 400 [("msg"%string, JString "Invalid customer")]))
      else
        order <~ await (Order_create (c_id customer) (Plain (sr_notes rq))) ;;
        total <~ reserve order items (Fin 0) ;;
        _ <~ await (Order_updateTotal order total) ;;
        _ <~ await Commit ;;
        full <~ await (Order_findByPk (of_Z (o_id order))) ;;
        Ret (Return (mkResponse 201 (OrderJson full)))
  end.

(** The [catch] block. *)
Definition rescue (err : exn) : prog response :=
  call Rollback ;;
  Ret (json 500 [("msg"%string, JString "Server error");
                 ("error"%string, JString (message err))]).

(** [POST /api/v1/orders], after [auth] and [staff]. *)
Definition post (rq : staff_request) : prog response :=
  match sr_customerId rq, sr_items rq with
  | Some customerId, Some (first :: others) =>
      if falsy (Fin customerId) then
        Ret (json 400 [("msg"%string, JString "customerId and items are required")])
      else
        call Transaction ;;
        r <- place customerId rq (first :: others) ;;
        match r with
        | Next resp | Return resp => Ret resp
        | Throw err => rescue err
        end
  | _, _ => Ret (json 400 [("msg"%string, JString "customerId and items are required")])
  end.

End Orders.

(** ** Concurrent requests to the shop route

    Node runs one handler at a time and switches between handlers at their
    awaits, so a set of concurrent requests is a schedule: the list of the
    handlers that take the successive turns, one database call per turn.

    The database is one SQLite file, and Sequelize gives each transaction a
    connection of its own.  A connection that has read in its transaction
    keeps the shared lock until the transaction ends.  Its first write takes
    the reserved lock, which one connection holds at a time.  To commit its
    writes it needs every other reader gone; until then it holds the pending
    lock, under which no other connection may start to read.  A call that
    meets a lock is refused.  Sequelize tries a refused call again and, after
    some attempts, throws.  So in a schedule a handler whose call is refused
    either finds it refused once more ([Go]: its turn passes) or has it thrown
    ([GiveUp]), and the [catch] block of the route answers.  The option [lock]
    of a read adds nothing to the query on SQLite. *)

Inductive lock : Type :=
| Unlocked
| SharedLock
| ReservedLock
| PendingLock.

Record thread : Type := mkThread {
  code : prog response;
  tx : txn;
  held : lock
}.

Record world : Type := mkWorld {
  shared : store;
  threads : list thread
}.

Definition reading (t : thread) : bool :=
  match held t with Unlocked => false | _ => true end.

Definition writing (t : thread) : bool :=
  match held t with ReservedLock | PendingLock => true | _ => false end.

Definition committing (t : thread) : bool :=
  match held t with PendingLock => true | _ => false end.

(** Whether a call writes; [findOrCreate] does when it finds no row. *)
Definition writes {X : Type} (o : op X) (t : tables) : bool :=
  match o with
  | Customer_findOrCreate email _ =>
      match find_customer_email t email with Some _ => false | None => true end
  | Customer_reactivate _ _ | Order_create _ _ | Order_updateTotal _ _
  | Flower_updateStock _ _ | OrderItem_create _ => true
  | _ => false
  end.

(** What SQLite answers to a call: it is made, or it is refused; either way
    the connection is left with a lock. *)
Inductive answer : Type :=
| Granted (h : lock)
| Refused (h : lock).

(** The call [o] of a handler with the transaction [l], which sees the
    tables [t] and holds [h], beside the connections [rest].  Outside a
    transaction a call is a statement of its own, whose locks go when it
    ends. *)
Definition ask {X : Type} (o : op X) (l : txn) (t : tables) (h : lock) (rest : list thread)
  : answer :=
  let may_read := negb (existsb committing rest) in
  let may_write := negb (existsb writing rest) in
  let alone := negb (existsb reading rest) in
  match o with
  | Transaction => Granted h
  | Rollback => Granted Unlocked
  | Commit =>
      match h with
      | ReservedLock | PendingLock => if alone then Granted Unlocked else Refused PendingLock
      | _ => Granted Unlocked
      end
  | _ =>
      match l with
      | None =>
          if writes o t then
            if may_read && may_write && alone then Granted Unlocked else Refused Unlocked
          else if may_read then Granted Unlocked else Refused Unlocked
      | Some _ =>
          match h with
          | Unlocked =>
              if may_read then
                if writes o t then
                  if may_write then Granted ReservedLock else Refused SharedLock
                else Granted SharedLock
              else Refused Unlocked
          | SharedLock =>
              if writes o t then
                if may_write then Granted ReservedLock else Refused SharedLock
              else Granted SharedLock
          | _ => Granted h
          end
      end
  end.

Fixpoint set_nth {A : Type} (i : nat) (a : A) (l : list A) : list A :=
  match l, i with
  | [], _ => []
  | _ :: rest, O => a :: rest
  | x :: rest, S j => x :: set_nth j a rest
  end.

(** All the connections but the [i]-th. *)
Definition others {A : Type} (i : nat) (l : list A) : list A :=
  firstn i l ++ skipn (S i) l.

Inductive turn : Type :=
| Go (i : nat)
| GiveUp (i : nat).

Definition handler (t : turn) : nat :=
  match t with Go i | GiveUp i => i end.

Definition step (w : world) (t : turn) : world :=
  match nth_error (threads w) (handler t) with
  | Some (mkThread (Vis o k) l h) =>
      let i := handler t in
      match ask o l (view (shared w) l) h (others i (threads w)), t with
      | Granted h', Go _ =>
          let '(x, l', s') := exec o l (shared w) in
          mkWorld s' (set_nth i (mkThread (k x) l' h') (threads w))
      | Granted _, GiveUp _ => w
      | Refused h', Go _ =>
          mkWorld (shared w) (set_nth i (mkThread (Vis o k) l h') (threads w))
      | Refused h', GiveUp _ =>
          mkWorld (shared w)
                  (set_nth i (mkThread (Shop.rescue database_locked) l h') (threads w))
      end
  | _ => w
  end.

Definition interleave (schedule : list turn) (w : world) : world :=
  fold_left step schedule w.

(** The requests as they arrive, each after its middleware. *)
Definition start (s : store) (requests : list (principal * shop_request)) : world :=
  mkWorld s (map (fun r => mkThread (Shop.post_orders (fst r) (snd r)) None Unlocked)
                 requests).

Definition responses (w : world) : list (option response) :=
  map (fun t => match code t with Ret r => Some r | Vis _ _ => None end) (threads w).

(** * The other routes

    The routes below open no transaction: each of their database calls goes
    to the committed tables at once.  They are given run alone, as functions
    of the store, from the parsed request to what is sent.  The rows hold the
    columns of the models that the order engine uses; [createdAt] and
    [updatedAt] are not among them.  The [:id] of a path is taken to be a
    number, so that [Number(req.params.id)] is that number; with any other
    text the query is not well formed and the route goes to its [catch]. *)

(** What these routes send: a response as before, a row as it is
    ([res.json(order)], [res.json(flower)]), a list of rows, or a status
    alone ([res.status(204).send()]). *)
Inductive reply : Type :=
| Sent (r : response)
| OrderRow (st : Z) (o : Order)
| OrderRows (st : Z) (rows : list Order)
| FlowerRow (st : Z) (f : Flower)
| CustomerRow (st : Z) (c : Customer)
| NoContent (st : Z).

Definition sent_status (r : reply) : Z :=
  match r with
  | Sent r => status r
  | OrderRow st _ | OrderRows st _ | FlowerRow st _ | CustomerRow st _ | NoContent st => st
  end.

Definition msg (st : Z) (text : string) : reply :=
  Sent (json st [("msg"%string, JString text)]).

(** The store after a write made outside any transaction. *)
Definition commit_now (s : store) (t : tables) : store :=
  mkStore t (next_customer s) (next_order s).

(** [list.includes(v)] over strings; [v] is [None] when the value is missing
    or is no string. *)
Definition includes (l : list string) (v : option string) : bool :=
  match v with
  | Some x => existsb (String.eqb x) l
  | None => false
  end.

(** ** The role gates ([requireCustomer] of [src/routes/shop.js],
       [middleware/staff.js], [src/middleware/admin.js])

    [user] is [req.user]; a gate answers, or lets the request through
    ([None], the call of [next()]). *)

Module Middleware.

Definition requireCustomer (user : option principal) : option response :=
  match user with
  | None => Some (json 401 [("msg"%string, JString "Unauthorised")])
  | Some u =>
      if negb (String.eqb (u_role u) "customer") then
        Some (json 403 [("msg"%string, JString "Customers only")])
      else None
  end.

Definition staff (user : option principal) : option response :=
  let role := option_map u_role user in
  if includes ["staff"; "admin"]%string role then None
  else Some (json 403 [("msg"%string,
                        JString "Access denied. Staff or admin privileges required.")]).

Definition admin (user : option principal) : option response :=
  let role := option_map u_role user in
  match role with
  | Some r =>
      if String.eqb r "admin" then None
      else Some (json 403 [("msg"%string, JString "Access denied. Admin privileges required.")])
  | None => Some (json 403 [("msg"%string, JString "Access denied. Admin privileges required.")])
  end.

End Middleware.

(** ** [src/routes/orders.js]: status and deletion *)

(** [Order.findByPk(id)] without includes: the row. *)
Definition find_order_row (t : tables) (k : num) : option Order :=
  find (fun o => pk_matches (o_id o) k) (orders t).

(** [order.update({ status })]. *)
Definition set_status (t : tables) (id : Z) (st : string) : tables :=
  mkTables (flowers t) (customers t)
    (map (fun o => if Z.eqb (o_id o) id
                   then mkOrder (o_id o) (o_customerId o) st (o_total o) (o_notes o)
                   else o)
         (orders t))
    (orderItems t).

(** [order.destroy()]: the row goes, and with it its lines
    ([Order.hasMany(OrderItem, { onDelete: 'CASCADE' })]). *)
Definition destroy_order (t : tables) (id : Z) : tables :=
  mkTables (flowers t) (customers t)
    (filter (fun o => negb (Z.eqb (o_id o) id)) (orders t))
    (filter (fun it => negb (Z.eqb (oi_orderId it) id)) (orderItems t)).

Module OrderDesk.

Definition validStatuses : list string :=
  ["pending"; "paid"; "shipped"; "delivered"; "cancelled"]%string.

(** [PATCH /api/v1/orders/:id/status]; [id] is [Number(req.params.id)],
    [status] the field of the body. *)
Definition patch_status (id : Q) (status : option string) (s : store) : reply * store :=
  match status with
  | Some st =>
      if negb (includes validStatuses (Some st)) then (msg 400 "Invalid status", s)
      else
        match find_order_row (committed s) (Fin id) with
        | None => (msg 404 "Order not found", s)
        | Some order =>
            (OrderRow 200 (mkOrder (o_id order) (o_customerId order) st
                                   (o_total order) (o_notes order)),
             commit_now s (set_status (committed s) (o_id order) st))
        end
  | None => (msg 400 "Invalid status", s)
  end.

(** [DELETE /api/v1/orders/:id]. *)
Definition delete (id : Q) (s : store) : reply * store :=
  match find_order_row (committed s) (Fin id) with
  | None => (msg 404 "Order not found", s)
  | Some order => (NoContent 204, commit_now s (destroy_order (committed s) (o_id order)))
  end.

End OrderDesk.

(** ** [src/routes/flowers.js]: one flower, restocking and soft deletion *)

(** [flower.update({ isActive: false })]. *)
Definition deactivate_flower (t : tables) (id : Z) : tables :=
  mkTables
    (map (fun f => if Z.eqb (f_id f) id
                   then mkFlower (f_id f) (f_name f) (f_price f) (f_stock f) false
                   else f)
         (flowers t))
    (customers t) (orders t) (orderItems t).

Module Flowers.

(** [GET /api/v1/flowers/:id]. *)
Definition get (id : Q) (s : store) : reply :=
  match find_flower (committed s) (Fin id) with
  | None => msg 404 "Flower not found"
  | Some flower =>
      if negb (f_isActive flower) then msg 404 "Flower not found"
      else FlowerRow 200 flower
  end.

(** [POST /api/v1/flowers/:id/restock]; [delta] is the field of the body. *)
Definition restock (id : Q) (delta : option value) (s : store) : reply * store :=
  match find_flower (committed s) (Fin id) with
  | None => (msg 404 "Flower not found", s)
  | Some flower =>
      if negb (f_isActive flower) then (msg 404 "Flower not found", s)
      else
        let newStock := nadd (f_stock flower) (Number (or_zero delta)) in
        if nlt newStock (Fin 0) then (msg 400 "Resulting stock cannot be negative", s)
        else
          (FlowerRow 200 (mkFlower (f_id flower) (f_name flower) (f_price flower)
                                   newStock (f_isActive flower)),
           snd (do_write (SetStock (f_id flower) newStock) None s))
  end.

(** [DELETE /api/v1/flowers/:id]: the flower is taken off sale, its row
    stays. *)
Definition delete (id : Q) (s : store) : reply * store :=
  match find_flower (committed s) (Fin id) with
  | None => (msg 404 "Flower not found", s)
  | Some flower =>
      (NoContent 204, commit_now s (deactivate_flower (committed s) (f_id flower)))
  end.

End Flowers.

(** ** [src/routes/customers.js]: creation, soft deletion, the orders of a
       customer *)

(** [Customer.findOne({ where: { email } })], through the default scope. *)
Definition find_active_email (t : tables) (email : string) : option Customer :=
  find (fun c => String.eqb (c_email c) email && c_isActive c) (customers t).

(** [customer.update({ isActive: false })]. *)
Definition deactivate_customer (t : tables) (id : Z) : tables :=
  mkTables (flowers t)
    (map (fun c => if Z.eqb (c_id c) id
                   then mkCustomer (c_id c) (c_name c) (c_email c) false
                   else c)
         (customers t))
    (orders t) (orderItems t).

(** [ORDER BY id DESC]. *)
Fixpoint insert_desc (o : Order) (rows : list Order) : list Order :=
  match rows with
  | [] => [o]
  | r :: rest =>
      if Z.leb (o_id r) (o_id o) then o :: r :: rest else r :: insert_desc o rest
  end.

Definition by_id_desc (rows : list Order) : list Order :=
  fold_right insert_desc [] rows.

Module Customers.

(** [POST /api/v1/customers].  The lookup goes through the default scope;
    the insert meets the unique index on [email], which spans all the rows,
    and what it throws is answered by the [catch] block. *)
Definition create (name email : option string) (s : store) : reply * store :=
  if negb (present name) || negb (present email) then
    (msg 400 "name and email are required", s)
  else
    let name := or_else name EmptyString in
    let email := or_else email EmptyString in
    match find_active_email (committed s) email with
    | Some _ => (msg 400 "Customer already exists", s)
    | None =>
        match find_customer_email (committed s) email with
        | Some _ =>
            let err := not_unique ["email"]%string in
            (Sent (json 500 [("msg"%string, JString "Server error");
                             ("error"%string, JString (message err))]), s)
        | None =>
            let c := mkCustomer (next_customer s) name email true in
            (CustomerRow 201 c,
             mkStore (apply_write (committed s) (InsertCustomer c))
                     (next_customer s + 1) (next_order s))
        end
    end.

(** [DELETE /api/v1/customers/:id]. *)
Definition delete (id : Q) (s : store) : reply * store :=
  match find_customer_pk (committed s) (Fin id) with
  | None => (msg 404 "Customer not found", s)
  | Some customer =>
      (NoContent 204, commit_now s (deactivate_customer (committed s) (c_id customer)))
  end.

(** [GET /api/v1/customers/:id/orders]. *)
Definition orders_of (id : Q) (s : store) : reply :=
  OrderRows 200
    (by_id_desc (filter (fun o => pk_matches (o_customerId o) (Fin id)) (orders (committed s)))).

End Customers.

(** ** [src/routes/reports.js]: the revenue of the sales report *)

Module Reports.



End Reports.

(** * Vocabulary of the properties *)

(** What a reservation leaves as it is in a flower row: all but the stock. *)
Definition f_static (f : Flower) : Z * string * num * bool :=
  (f_id f, f_name f, f_price f, f_isActive f).

(** The catalog price of the flower on sale under the key [k]. *)
Definition price_of (t : tables) (k : num) : option num :=
  option_map f_price (find_flower t k).

(** The line items a reservation loop has added: what they are for, and the
    running total they account for. *)
Definition line_key (it : OrderItem) : num * num := (oi_flowerId it, oi_quantity it).

Definition add_line (total : num) (it : OrderItem) : num :=
  nadd total (nmul (oi_price it) (oi_quantity it)).

(** ** Carts *)

(** No key occurs twice in the map. *)
Fixpoint distinct (m : jsmap) : Prop :=
  match m with
  | [] => True
  | (k, _) :: rest => map_get rest k = None /\ distinct rest
  end.

(** Every quantity in the map is a positive number. *)
Definition positive (m : jsmap) : Prop :=
  Forall (fun kv => exists q, snd kv = Fin q /\ 0 < q) m.

(** The quantity a cart asks of the flower [k], all its items together. *)
Definition wanted (raws : list item) (k : num) : num :=
  fold_right
    (fun raw acc =>
       if same_value (Number (flowerId raw)) k
       then nadd (Number (or_zero (quantity raw))) acc else acc)
    (Fin 0) raws.

(** ** Stock *)

(** The flower [f] after [q] units were taken from its stock. *)
Definition take (q : num) (f : Flower) : Flower :=
  mkFlower (f_id f) (f_name f) (f_price f) (nsub (f_stock f) q) (f_isActive f).

(** The entry [(k, q)] can be served from the tables [t]: the flower [k] is
    on sale and holds at least [q]. *)
Definition in_stock (t : tables) (kv : num * num) : Prop :=
  exists f, find_flower t (fst kv) = Some f /\ nlt (f_stock f) (snd kv) = false.

(** From [t] to [t'] the stock of each flower of [entries] went down by the
    quantity of its entry, once, and no other flower changed. *)
Definition stock_taken (entries : jsmap) (t t' : tables) : Prop :=
  forall k,
    find_flower t' k =
    match map_get entries k with
    | Some q => option_map (take q) (find_flower t k)
    | None => find_flower t k
    end.

(** What a completed reservation loop has done to the tables [t] it started
    from: it touched no customer and no order row, kept every flower but for
    its stock, and added one line per entry, at the catalog price. *)
Definition reserved (oid : Z) (entries : jsmap) (t t' : tables) (total total' : num) : Prop :=
  customers t' = customers t /\
  orders t' = orders t /\
  map f_static (flowers t') = map f_static (flowers t) /\
  exists new,
    orderItems t' = orderItems t ++ new /\
    map line_key new = entries /\
    Forall (fun it => oi_orderId it = oid /\
                      price_of t (oi_flowerId it) = Some (oi_price it)) new /\
    total' = fold_left add_line new total /\
    (distinct entries -> Forall (in_stock t) entries /\ stock_taken entries t t').

(** The number of customer rows with the given email. *)
Definition count_email (email : string) (rows : list Customer) : nat :=
  List.length (filter (fun c => String.eqb (c_email c) email) rows).

(** A placed order: the profile [customer] was resolved with the writes [cw],
    the order row was inserted, the loop ran over the merged cart, the total
    was set and everything was committed. *)
Definition placed (user : principal) (rq : shop_request) (items : list entry)
    (s : store) (resp : response) (s' : store) : Prop :=
  exists customer cw sc merged t2 total,
    run (Shop.getOrCreateCustomerProfile user) (Some []) s = (Next customer, Some cw, sc) /\
    Shop.merge (flat items) [] = Some merged /\
    reserved (next_order s) merged
      (apply_write (view s (Some cw))
         (InsertOrder (mkOrder (next_order s) (c_id customer) "pending" (Fin 0)
                               (Stashed (Shop.extra rq)))))
      t2 (Fin 0) total /\
    committed s' = apply_write t2 (SetTotal (next_order s) total) /\
    next_order s' = (next_order s + 1)%Z /\
    resp = mkResponse 201 (OrderJson (find_order (committed s') (of_Z (next_order s)))).

(** Every order row and every line was numbered by the counter. *)
Definition wf_store (s : store) : Prop :=
  Forall (fun o => (o_id o < next_order s)%Z) (orders (committed s)) /\
  Forall (fun it => (oi_orderId it < next_order s)%Z) (orderItems (committed s)).

(** The request [rq] with its [fulfilment] field replaced. *)
Definition with_fulfilment (rq : shop_request) (f : option string) : shop_request :=
  mkShopRequest (rq_items rq) f (rq_deliveryAddress rq) (rq_deliveryDate rq)
                (rq_contactPhone rq) (rq_giftMessage rq) (rq_notes rq).

(** An item that the validation is to refuse, in the words of the
    specification where the code agrees with them: no [flowerId], no
    quantity, or a quantity below one. *)
Definition refused (raw : item) : Prop :=
  flowerId raw = None \/
  quantity raw = None \/
  exists q, quantity raw = Some (VNum q) /\ q < 1.

(** ** Orders *)

(** The sum of [quantity * unitPriceAtSale] over the lines of an order. *)
Definition sum_lines (lines : list OrderItem) : num :=
  fold_right (fun it acc => nadd (nmul (oi_quantity it) (oi_price it)) acc) (Fin 0) lines.

(** Every order of the tables totals the sum of its lines. *)
Definition consistent (t : tables) : Prop :=
  Forall (fun o => num_eq (o_total o) (sum_lines (items_of t (o_id o)))) (orders t).

(** ** A small shop, for the examples *)

Module Example.

Definition rose : Flower := mkFlower 7 "Rose" (Fin (990 # 100)) (Fin 10) true.
Definition tulip : Flower := mkFlower 1 "Tulip" (Fin (450 # 100)) (Fin 6) true.
Definition lily : Flower := mkFlower 3 "Lily" (Fin 12) (Fin 1) true.

Definition alice : Customer := mkCustomer 1 "Alice" "alice@example.com" true.
Definition bob : Customer := mkCustomer 2 "Bob" "bob@example.com" false.

Definition shop : store :=
  mkStore (mkTables [rose; tulip; lily] [alice; bob] [] []) 3 1.

Definition alice_user : principal :=
  mkPrincipal 11 (Some "alice@example.com"%string) (Some "Alice"%string) "customer".
Definition bob_user : principal :=
  mkPrincipal 12 (Some "bob@example.com"%string) (Some "Bob"%string) "customer".
Definition carol_user : principal :=
  mkPrincipal 13 (Some "carol@example.com"%string) None "customer".

Definition line (f q : Q) : entry := Single (mkItem (Some (VNum f)) (Some (VNum q))).

Definition cart (fulfilment : option string) (items : list entry) : shop_request :=
  mkShopRequest (Some items) fulfilment None None (Some "555-0100"%string) None None.

(** The same shop after Bob, then still active, had ordered a lily. *)
Definition bobs_order : Order := mkOrder 1 2 "pending" (Fin 12) (Plain None).

Definition shop_with_order : store :=
  mkStore (mkTables [rose; tulip; lily] [alice; bob] [bobs_order]
                    [mkOrderItem 1 (Fin 3) (Fin 1) (Fin 12)]) 3 2.

(** A shop with one lily left, a shop with ten roses, and two customers. *)
Definition dan : Customer := mkCustomer 2 "Dan" "dan@example.com" true.
Definition dan_user : principal :=
  mkPrincipal 14 (Some "dan@example.com"%string) (Some "Dan"%string) "customer".

Definition last_lily : store :=
  mkStore (mkTables [lily] [alice; dan] [] []) 3 1.

Definition ten_roses : store :=
  mkStore (mkTables [rose] [alice; dan] [] []) 3 1.

(** Alice and Dan order at once.  Alice opens her transaction, finds her
    profile and inserts her order.  Dan opens his, finds his profile, and his
    insert is refused; it is refused again, then thrown, and his handler
    rolls back and answers.  Alice goes on to the end. *)
Definition second_gives_up : list turn :=
  [Go 0; Go 0; Go 0;
   Go 1; Go 1; Go 1; Go 1; GiveUp 1; Go 1;
   Go 0; Go 0; Go 0; Go 0; Go 0; Go 0]%nat.

(** Alice to the end, then Dan to the end. *)
Definition in_turn : list turn :=
  repeat (Go 0%nat) 9 ++ repeat (Go 1%nat) 9.

Definition staff_cart (customerId : Q) (items : list staff_item) : staff_request :=
  mkStaffRequest (Some customerId) (Some items) None.

End Example.

(** * Vocabulary of the further properties *)

(** The cart of a staff order as the loop goes through it: one entry per
    item, in the order given, nothing merged. *)
Definition staff_entries (items : list staff_item) : jsmap :=
  map (fun it => (Fin (s_flowerId it), Fin (s_quantity it))) items.

(** A placed staff order: the customer was found, the order row was
    inserted, the loop ran over the items, the total was set and everything
    was committed. *)
Definition staff_placed (rq : staff_request) (items : list staff_item)
    (s : store) (resp : response) (s' : store) : Prop :=
  exists customerId customer t2 total,
    sr_customerId rq = Some customerId /\
    find_customer_pk (committed s) (Fin customerId) = Some customer /\
    reserved (next_order s) (staff_entries items)
      (apply_write (committed s)
         (InsertOrder (mkOrder (next_order s) (c_id customer) "pending" (Fin 0)
                               (Plain (sr_notes rq)))))
      t2 (Fin 0) total /\
    distinct (staff_entries items) /\
    committed s' = apply_write t2 (SetTotal (next_order s) total) /\
    next_order s' = (next_order s + 1)%Z /\
    resp = mkResponse 201 (OrderJson (find_order (committed s') (of_Z (next_order s)))).

(** No flower on sale shows a stock below zero: [stock < 0] is false for
    each of them. *)
Definition never_short (t : tables) : Prop :=
  forall k f, find_flower t k = Some f -> nlt (f_stock f) (Fin 0) = false.

(** What a change of status leaves as it is in an order row: all but the
    status. *)
Definition o_static (o : Order) : Z * Z * num * notes :=
  (o_id o, o_customerId o, o_total o, o_notes o).

(** The order [o] under the status [st]. *)
Definition with_status (st : string) (o : Order) : Order :=
  mkOrder (o_id o) (o_customerId o) st (o_total o) (o_notes o).

(** What taking a flower off sale leaves as it is in a flower row: all but
    the flag. *)
Definition f_kept (f : Flower) : Z * string * num * num :=
  (f_id f, f_name f, f_price f, f_stock f).

(** The rows come by falling id. *)
Fixpoint descending (rows : list Order) : Prop :=
  match rows with
  | [] => True
  | o :: rest => Forall (fun r => (o_id r <= o_id o)%Z) rest /\ descending rest
  end.


(** * Lemmas *)

Unset Implicit Arguments.

(** ** Running programs *)

Lemma run_bind {A B : Type} (p : prog A) (f : A -> prog B) (l : txn) (s : store) :
  run (bind p f) l s = let '(a, l', s') := run p l s in run (f a) l' s'.
Proof.
  revert l s; induction p as [a | X o k IH]; intros l s; simpl.
  - reflexivity.
  - destruct (exec o l s) as [[x l1] s1]. apply IH.
Qed.

Lemma run_bindF {A B : Type} (p : prog (flow A)) (f : A -> prog (flow B)) (l : txn) (s : store) :
  run (bindF p f) l s =
  let '(r, l', s') := run p l s in
  match r with
  | Next a => run (f a) l' s'
  | Return resp => (Return resp, l', s')
  | Throw e => (Throw e, l', s')
  end.
Proof.
  unfold bindF. rewrite run_bind.
  destruct (run p l s) as [[r l1] s1]. destruct r; reflexivity.
Qed.

Lemma run_await {X : Type} (o : op X) (l : txn) (s : store) :
  run (await o) l s = let '(x, l', s') := exec o l s in (Next x, l', s').
Proof.
  unfold await; simpl. destruct (exec o l s) as [[x l1] s1]. reflexivity.
Qed.

Lemma view_snoc (s : store) (ws : list write) (w : write) :
  view s (Some (ws ++ [w])) = apply_write (view s (Some ws)) w.
Proof. unfold view; simpl. apply fold_left_app. Qed.

Lemma view_ext (s' s : store) (l : txn) :
  committed s' = committed s -> view s' l = view s l.
Proof. unfold view. now intros ->. Qed.

(** Rewrites every [view x l] with [x] a store of the same committed tables
    as [st] into [view st l]. *)
Ltac same_view st :=
  repeat match goal with
  | H : context [view ?x ?l] |- _ =>
      lazymatch x with
      | st => fail
      | _ => change (view x l) with (view st l) in H
      end
  | |- context [view ?x ?l] =>
      lazymatch x with
      | st => fail
      | _ => change (view x l) with (view st l)
      end
  end.

Ltac step_run :=
  repeat (rewrite ?run_bindF, ?run_await, ?run_bind; cbn [exec do_write run call]).

(** ** Rolling back *)

Lemma unwind_committed (ws : list write) (s : store) :
  committed (fold_left unwind ws s) = committed s.
Proof.
  revert s. induction ws as [| w ws IH]; intros s; simpl; [reflexivity|].
  rewrite IH. destruct w; reflexivity.
Qed.

Lemma rolled_back_committed (l : txn) (s : store) :
  committed (rolled_back l s) = committed s.
Proof. apply unwind_committed. Qed.

(** The ids of orders that the writes [ws] have drawn. *)
Definition draws (w : write) : Z :=
  match w with InsertOrder _ => 1%Z | _ => 0%Z end.

Definition drawn_orders (ws : list write) : Z :=
  fold_right (fun w n => (draws w + n)%Z) 0%Z ws.

Lemma drawn_orders_cons (w : write) (ws : list write) :
  drawn_orders (w :: ws) = (draws w + drawn_orders ws)%Z.
Proof. reflexivity. Qed.

Lemma draws_range (w : write) : (0 <= draws w <= 1)%Z.
Proof. destruct w; cbn [draws]; lia. Qed.

Lemma drawn_orders_nonneg (ws : list write) : (0 <= drawn_orders ws)%Z.
Proof.
  induction ws as [| w ws IH]; [cbv; discriminate|].
  rewrite drawn_orders_cons. pose proof (draws_range w). lia.
Qed.

Lemma drawn_orders_snoc (ws : list write) (w : write) :
  drawn_orders (ws ++ [w]) = (drawn_orders ws + draws w)%Z.
Proof.
  induction ws as [| w' ws IH].
  - cbn [app]. rewrite drawn_orders_cons. change (drawn_orders []) with 0%Z. lia.
  - cbn [app]. rewrite !drawn_orders_cons, IH. lia.
Qed.

Lemma unwind_next_order (ws : list write) (s : store) :
  next_order (fold_left unwind ws s) = (next_order s - drawn_orders ws)%Z.
Proof.
  revert s. induction ws as [| w ws IH]; intros s.
  - change (drawn_orders []) with 0%Z. cbn [fold_left]. lia.
  - cbn [fold_left]. rewrite IH, drawn_orders_cons.
    destruct w; cbn [unwind next_order draws]; lia.
Qed.

(** The order counter that a rollback would leave never goes down; so a
    handler that starts and ends outside a transaction never lowers the
    counter, whatever it rolls back on the way. *)
Lemma exec_base {X : Type} (o : op X) (l : txn) (s : store) :
  let '(_, l', s') := exec o l s in
  (next_order (rolled_back l s) <= next_order (rolled_back l' s'))%Z.
Proof.
  unfold rolled_back.
  pose proof (drawn_orders_nonneg (pending l)) as Hd.
  assert (Hn : forall s', next_order (fold_left unwind (pending None) s') = next_order s')
    by reflexivity.
  assert (Hw : forall w, draws w = 0%Z ->
                 let '(l', s') := do_write w l s in
                 (next_order (fold_left unwind (pending l) s)
                  <= next_order (fold_left unwind (pending l') s'))%Z).
  { intros w Hw. destruct l as [ws|]; cbn [do_write pending].
    - rewrite !unwind_next_order, drawn_orders_snoc. lia.
    - rewrite !Hn. cbn [next_order]. lia. }
  destruct o; cbn [exec].
  - rewrite unwind_next_order. change (pending (Some [])) with (@nil write).
    change (drawn_orders []) with 0%Z. cbn [fold_left]. lia.
  - rewrite Hn, unwind_next_order. cbn [next_order]. lia.
  - rewrite Hn. unfold rolled_back. lia.
  - destruct (find_customer_email (view s l) email); [lia|].
    specialize (Hw (InsertCustomer (mkCustomer (next_customer s) name email true)) eq_refl).
    destruct (do_write _ l s) as [l' s'] eqn:E.
    destruct l as [ws|]; cbn [do_write] in E; inversion E; subst; cbn [pending] in *.
    + rewrite !unwind_next_order in *. cbn [next_order]. exact Hw.
    + rewrite !Hn in *. cbn [next_order] in *. exact Hw.
  - specialize (Hw (ReactivateCustomer (c_id c) name) eq_refl).
    destruct (do_write _ l s) as [l' s']. exact Hw.
  - lia.
  - lia.
  - destruct l as [ws|]; cbn [do_write pending];
      rewrite ?unwind_next_order, ?drawn_orders_snoc, ?Hn; cbn [next_order draws]; lia.
  - specialize (Hw (SetTotal (o_id o) total) eq_refl).
    destruct (do_write _ l s) as [l' s']. exact Hw.
  - lia.
  - lia.
  - specialize (Hw (SetStock (f_id f) stock) eq_refl).
    destruct (do_write _ l s) as [l' s']. exact Hw.
  - destruct (line_exists (view s l) it); [lia|].
    specialize (Hw (InsertOrderItem it) eq_refl).
    destruct (do_write _ l s) as [l' s']. exact Hw.
Qed.

Lemma run_base {R : Type} (p : prog R) (l : txn) (s : store) :
  let '(_, l', s') := run p l s in
  (next_order (rolled_back l s) <= next_order (rolled_back l' s'))%Z.
Proof.
  revert l s. induction p as [r | X o k IH]; intros l s; simpl; [lia|].
  pose proof (exec_base o l s) as H.
  destruct (exec o l s) as [[x l1] s1].
  specialize (IH x l1 s1). destruct (run (k x) l1 s1) as [[r l2] s2]. lia.
Qed.

Lemma run_counter {R : Type} (p : prog R) (s : store) r s' :
  run p None s = (r, None, s') -> (next_order s <= next_order s')%Z.
Proof. intros H. pose proof (run_base p None s) as Hb. rewrite H in Hb. exact Hb. Qed.

(** ** Numbers *)

Lemma same_value_refl (a : num) : same_value a a = true.
Proof. destruct a; simpl; auto using Qeq_bool_refl. Qed.

Lemma same_value_sym (a b : num) : same_value a b = same_value b a.
Proof. destruct a, b; simpl; auto using Qeq_bool_comm. Qed.

Lemma same_value_trans (a b c : num) :
  same_value a b = true -> same_value b c = true -> same_value a c = true.
Proof.
  destruct a, b, c; simpl; try discriminate; auto.
  apply Qeq_bool_trans.
Qed.

Lemma same_value_left (a b c : num) :
  same_value a b = true -> same_value a c = same_value b c.
Proof.
  intros Hab. destruct (same_value b c) eqn:Hbc.
  - eapply same_value_trans; eauto.
  - destruct (same_value a c) eqn:Hac; auto.
    rewrite same_value_sym in Hab.
    rewrite (same_value_trans _ _ _ Hab Hac) in Hbc. discriminate.
Qed.

Lemma num_eq_refl (a : num) : num_eq a a.
Proof. destruct a; simpl; auto. reflexivity. Qed.

Lemma num_eq_sym (a b : num) : num_eq a b -> num_eq b a.
Proof. destruct a, b; simpl; auto. intros H; symmetry; exact H. Qed.

Lemma num_eq_trans (a b c : num) : num_eq a b -> num_eq b c -> num_eq a c.
Proof.
  destruct a, b, c; simpl; auto; try contradiction.
  intros H1 H2; rewrite H1; exact H2.
Qed.


Lemma nadd_assoc (a b c : num) : num_eq (nadd (nadd a b) c) (nadd a (nadd b c)).
Proof. destruct a, b, c; simpl; auto. ring. Qed.

Lemma nadd_zero_r (a : num) : num_eq (nadd a (Fin 0)) a.
Proof. destruct a; simpl; auto. ring. Qed.

(** ** The catalog under the writes of a reservation *)

Lemma price_of_static (t t' : tables) (k : num) :
  map f_static (flowers t') = map f_static (flowers t) ->
  price_of t' k = price_of t k.
Proof.
  unfold price_of, find_flower.
  generalize (flowers t) as l. generalize (flowers t') as l'.
  induction l' as [| f' l' IH]; intros [| f l] H; simpl in H; try discriminate; auto.
  inversion H as [[Hid Hname Hprice Hact Hrest]]. simpl.
  rewrite Hid, Hact.
  destruct (pk_matches (f_id f) k && f_isActive f); simpl; auto.
  now rewrite Hprice.
Qed.

Lemma set_stock_static (t : tables) (id : Z) (stock : num) :
  map f_static (flowers (apply_write t (SetStock id stock))) = map f_static (flowers t).
Proof.
  simpl. rewrite map_map. apply map_ext. intros f.
  destruct (Z.eqb (f_id f) id); reflexivity.
Qed.

(** ** Merging a cart *)

Lemma map_get_same (m : jsmap) (k k' : num) :
  same_value k k' = true -> map_get m k = map_get m k'.
Proof.
  intros H. induction m as [| [k0 v0] rest IH]; simpl; auto.
  rewrite (same_value_sym k0 k), (same_value_sym k0 k'), (same_value_left _ _ k0 H).
  now rewrite IH.
Qed.

Lemma map_get_set (m : jsmap) (k v k' : num) :
  map_get (map_set m k v) k' = if same_value k k' then Some v else map_get m k'.
Proof.
  induction m as [| [k0 v0] rest IH]; simpl.
  - reflexivity.
  - destruct (same_value k0 k) eqn:E; simpl.
    + rewrite (same_value_left _ _ k' E). destruct (same_value k k'); reflexivity.
    + rewrite IH. destruct (same_value k0 k') eqn:E'; auto.
      destruct (same_value k k') eqn:E''; auto.
      rewrite same_value_sym in E''.
      rewrite (same_value_trans _ _ _ E' E'') in E. discriminate.
Qed.

Lemma distinct_set (m : jsmap) (k v : num) : distinct m -> distinct (map_set m k v).
Proof.
  induction m as [| [k0 v0] rest IH]; simpl.
  - auto.
  - intros [Hn Hd]. destruct (same_value k0 k) eqn:E; simpl.
    + auto.
    + split; [| auto]. rewrite map_get_set, same_value_sym, E. exact Hn.
Qed.

Lemma positive_set (m : jsmap) (k : num) (q : Q) :
  0 < q -> positive m -> positive (map_set m k (Fin q)).
Proof.
  intros Hq. unfold positive. induction m as [| [k0 v0] rest IH]; simpl; intros H.
  - constructor; [| constructor]. exists q; auto.
  - inversion H as [| ? ? H1 H2]; subst.
    destruct (same_value k0 k); constructor; auto. exists q; auto.
Qed.

Lemma positive_get (m : jsmap) (k v : num) :
  positive m -> map_get m k = Some v -> exists q, v = Fin q /\ 0 < q.
Proof.
  unfold positive. induction m as [| [k0 v0] rest IH]; simpl; intros H E.
  - discriminate.
  - inversion H as [| ? ? H1 H2]; subst.
    destruct (same_value k0 k); [inversion E; subst; exact H1 | auto].
Qed.

Lemma get_or_zero_positive (m : jsmap) (k : num) :
  positive m ->
  exists q, get_or_zero m k = Fin q /\ 0 <= q /\
            (0 < q -> map_get m k = Some (Fin q)) /\
            (map_get m k = None -> q == 0).
Proof.
  intros Hp. unfold get_or_zero.
  destruct (map_get m k) as [v|] eqn:E.
  - destruct (positive_get _ _ _ Hp E) as (q & -> & Hq). simpl.
    destruct (Qeq_bool q 0) eqn:Ez.
    + apply Qeq_bool_iff in Ez. rewrite Ez in Hq. exfalso. exact (Qlt_irrefl _ Hq).
    + exists q. repeat split; auto using Qlt_le_weak. discriminate.
  - exists 0. repeat split; auto using Qle_refl; try reflexivity.
    intros H. exfalso. exact (Qlt_irrefl _ H).
Qed.

Lemma quantity_finite (v : option value) : exists q, Number (or_zero v) = Fin q.
Proof.
  unfold or_zero. destruct v as [[| b | q] |]; simpl; eauto.
  - destruct b; simpl; eauto.
  - destruct (negb (Qeq_bool q 0)); simpl; eauto.
Qed.

Lemma at_least_one (q : Q) : nlt (Fin q) (Fin 1) = false -> 1 <= q.
Proof.
  simpl. intros H. apply negb_false_iff in H. now apply Qle_bool_iff.
Qed.

Lemma wanted_finite (raws : list item) (k : num) :
  (forall raw, In raw raws -> nlt (Number (or_zero (quantity raw))) (Fin 1) = false) ->
  exists w, wanted raws k = Fin w /\ 0 <= w /\
    (forall raw, In raw raws -> same_value (Number (flowerId raw)) k = true -> 1 <= w).
Proof.
  induction raws as [| raw rest IH]; intros Hq.
  - exists 0. simpl. repeat split; auto using Qle_refl. contradiction.
  - destruct IH as (w & Hw & Hpos & Hone); [intros; apply Hq; now right|].
    destruct (quantity_finite (quantity raw)) as [q Eq].
    pose proof (Hq raw (or_introl eq_refl)) as H1. rewrite Eq in H1. apply at_least_one in H1.
    simpl. rewrite Hw, Eq.
    destruct (same_value (Number (flowerId raw)) k) eqn:E.
    + exists (q + w). simpl. repeat split.
      * apply Qle_trans with (0 + 0); [apply Qle_refl|].
        apply Qplus_le_compat; auto. apply Qle_trans with 1; auto. discriminate.
      * intros _ _ _. apply Qle_trans with (1 + 0); [apply Qle_refl|].
        apply Qplus_le_compat; auto.
    + exists w. repeat split; auto.
      intros raw' [<- | Hin] Hs; [rewrite Hs in E; discriminate | eauto].
Qed.

Lemma merge_valid (raws : list item) :
  forall m0 m, Shop.merge raws m0 = Some m ->
  forall raw, In raw raws ->
    falsy (Number (flowerId raw)) = false /\
    nlt (Number (or_zero (quantity raw))) (Fin 1) = false.
Proof.
  induction raws as [| raw0 rest IH]; simpl; intros m0 m H raw Hin.
  - contradiction.
  - destruct (falsy (Number (flowerId raw0)) || nlt (Number (or_zero (quantity raw0))) (Fin 1))
      eqn:E; [discriminate|].
    apply orb_false_iff in E. destruct Hin as [<- | Hin]; [exact E | eauto].
Qed.

Lemma merge_spec (raws : list item) :
  forall m0 m, Shop.merge raws m0 = Some m ->
  distinct m0 -> positive m0 ->
  distinct m /\ positive m /\
  forall k, num_eq (get_or_zero m k) (nadd (get_or_zero m0 k) (wanted raws k)).
Proof.
  induction raws as [| raw rest IH]; simpl; intros m0 m H Hd Hp.
  - inversion H; subst. repeat split; auto.
    intros k. apply num_eq_sym, nadd_zero_r.
  - destruct (falsy (Number (flowerId raw)) || nlt (Number (or_zero (quantity raw))) (Fin 1))
      eqn:E; [discriminate|].
    apply orb_false_iff in E. destruct E as [_ Eq].
    destruct (quantity_finite (quantity raw)) as [q Hq]. rewrite Hq in *.
    apply at_least_one in Eq.
    set (fid := Number (flowerId raw)) in *.
    destruct (get_or_zero_positive m0 fid Hp) as (g & Hg & Hg0 & _).
    rewrite Hg in H. simpl nadd in H.
    assert (Hgq : 0 < g + q).
    { apply Qlt_le_trans with (0 + 1); [reflexivity|]. apply Qplus_le_compat; auto. }
    apply IH in H; auto using distinct_set, positive_set.
    destruct H as (Hd' & Hp' & Hsum). repeat split; auto.
    intros k. eapply num_eq_trans; [apply Hsum|].
    unfold get_or_zero at 1. rewrite map_get_set.
    destruct (same_value fid k) eqn:Ek.
    + simpl falsy. destruct (Qeq_bool (g + q) 0) eqn:Ez.
      { apply Qeq_bool_iff in Ez. rewrite Ez in Hgq. exfalso. exact (Qlt_irrefl _ Hgq). }
      unfold get_or_zero. rewrite <- (map_get_same m0 _ _ Ek). fold (get_or_zero m0 fid).
      rewrite Hg. apply (nadd_assoc (Fin g) (Fin q) (wanted rest k)).
    + fold (get_or_zero m0 k). apply num_eq_refl.
Qed.

(** The merged cart has one entry per flower of the cart, for the sum of the
    quantities asked of that flower. *)
Lemma merge_cart (raws : list item) (merged : jsmap) :
  Shop.merge raws [] = Some merged ->
  distinct merged /\
  forall raw, In raw raws ->
    exists v, map_get merged (Number (flowerId raw)) = Some v /\
              num_eq v (wanted raws (Number (flowerId raw))).
Proof.
  intros H. pose proof (merge_valid _ _ _ H) as Hv.
  destruct (merge_spec _ _ _ H I (Forall_nil _)) as (Hd & Hp & Hsum).
  split; [exact Hd|]. intros raw Hin.
  set (k := Number (flowerId raw)).
  destruct (wanted_finite raws k (fun r Hr => proj2 (Hv r Hr))) as (w & Hw & _ & Hone).
  specialize (Hone raw Hin (same_value_refl _)).
  specialize (Hsum k). rewrite Hw in *.
  destruct (get_or_zero_positive merged k Hp) as (g & Hg & _ & Hsome & _).
  rewrite Hg in Hsum. simpl in Hsum.
  exists (Fin g). split.
  - apply Hsome. rewrite Hsum. apply Qlt_le_trans with (0 + 1); [reflexivity|].
    apply Qplus_le_compat; auto. apply Qle_refl.
  - simpl. rewrite Hsum. ring.
Qed.

(** ** Stock under a reservation *)

Lemma find_map_stable {A : Type} (p : A -> bool) (g : A -> A) (l : list A) :
  (forall a, p (g a) = p a) -> find p (map g l) = option_map g (find p l).
Proof.
  intros Hp. induction l as [| a l IH]; simpl; auto.
  rewrite Hp. destruct (p a); auto.
Qed.

Lemma find_flower_some (t : tables) (k : num) (f : Flower) :
  find_flower t k = Some f -> pk_matches (f_id f) k = true /\ f_isActive f = true.
Proof.
  unfold find_flower. intros H. apply find_some in H. destruct H as [_ H].
  now apply andb_true_iff in H.
Qed.

Lemma find_flower_same (t : tables) (k k' : num) :
  same_value k k' = true -> find_flower t k = find_flower t k'.
Proof.
  intros H. unfold find_flower.
  induction (flowers t) as [| f l IH]; simpl; auto.
  unfold pk_matches.
  rewrite (same_value_sym _ k), (same_value_sym _ k'), (same_value_left _ _ _ H).
  destruct (same_value k' (of_Z (f_id f)) && f_isActive f); auto.
Qed.

Lemma map_get_none_in (m : jsmap) (k : num) :
  map_get m k = None -> Forall (fun kv => same_value k (fst kv) = false) m.
Proof.
  induction m as [| [k' v'] rest IH]; simpl; intros H; constructor.
  - simpl. rewrite same_value_sym. destruct (same_value k' k); [discriminate | reflexivity].
  - destruct (same_value k' k); [discriminate | auto].
Qed.

(** One turn of the loop: the flower [f0] was found under the key [k0], the
    line [it] is inserted and the stock of [f0] is set. *)
Section Turn.

Variables (t : tables) (it : OrderItem) (f0 : Flower) (k0 : num).

Hypothesis Hfound : find_flower t k0 = Some f0.

Lemma find_flower_reserved (stock : num) (k : num) :
  find_flower (apply_write (apply_write t (InsertOrderItem it)) (SetStock (f_id f0) stock)) k =
  option_map (fun f => if Z.eqb (f_id f) (f_id f0)
                       then mkFlower (f_id f) (f_name f) (f_price f) stock (f_isActive f)
                       else f)
             (find_flower t k).
Proof.
  unfold find_flower. cbn [apply_write flowers].
  apply find_map_stable. intros f. destruct (Z.eqb (f_id f) (f_id f0)); reflexivity.
Qed.

Lemma find_flower_other (stock : num) (k : num) :
  same_value k0 k = false ->
  find_flower (apply_write (apply_write t (InsertOrderItem it)) (SetStock (f_id f0) stock)) k =
  find_flower t k.
Proof.
  intros Hk. rewrite find_flower_reserved.
  destruct (find_flower t k) as [f|] eqn:Ef; [| reflexivity]. simpl. f_equal.
  destruct (Z.eqb_spec (f_id f) (f_id f0)) as [E | _]; [| reflexivity].
  apply find_flower_some in Ef. destruct (find_flower_some _ _ _ Hfound) as [H0 _].
  destruct Ef as [Ef _]. rewrite E in Ef. unfold pk_matches in *.
  rewrite same_value_sym in H0.
  rewrite (same_value_trans _ _ _ H0 Ef) in Hk. discriminate.
Qed.

Lemma stock_step (t' : tables) (q0 : num) (rest : jsmap) :
  nlt (f_stock f0) q0 = false ->
  map_get rest k0 = None ->
  Forall (in_stock (apply_write (apply_write t (InsertOrderItem it))
                                (SetStock (f_id f0) (nsub (f_stock f0) q0)))) rest /\
  stock_taken rest (apply_write (apply_write t (InsertOrderItem it))
                                (SetStock (f_id f0) (nsub (f_stock f0) q0))) t' ->
  Forall (in_stock t) ((k0, q0) :: rest) /\ stock_taken ((k0, q0) :: rest) t t'.
Proof.
  intros Hs Hn [Hin Ht]. pose proof (map_get_none_in _ _ Hn) as Hother. split.
  - constructor; [exists f0; auto|].
    rewrite Forall_forall in *. intros kv Hkv.
    destruct (Hin kv Hkv) as (f & H1 & H2). exists f. split; [| exact H2].
    rewrite <- H1. symmetry. apply find_flower_other; auto.
  - intros k. rewrite Ht. cbn [map_get].
    destruct (same_value k0 k) eqn:Ek.
    + rewrite <- (map_get_same rest _ _ Ek), Hn.
      rewrite find_flower_reserved, <- (find_flower_same t _ _ Ek), Hfound.
      simpl. now rewrite Z.eqb_refl.
    + rewrite (find_flower_other _ k Ek). reflexivity.
Qed.

End Turn.

Lemma shop_reserve_run (order : Order) (entries : jsmap) :
  forall (total : num) (ws : list write) (s : store) r l' s',
    run (Shop.reserve order entries total) (Some ws) s = (r, l', s') ->
    committed s' = committed s /\
    match r with
    | Next total' =>
        s' = s /\
        exists ws', l' = Some ws' /\
          reserved (o_id order) entries (view s (Some ws)) (view s l') total total'
    | Return resp => l' = None /\ status resp = 400%Z
    | Throw e => s' = s /\ e = not_unique ["order_id"; "flower_id"]%string
    end.
Proof.
  induction entries as [| [fid q] rest IH]; intros total ws s r l' s' H.
  - simpl in H. inversion H; subst. split; [reflexivity|]. split; [reflexivity|].
    exists ws. split; [reflexivity|]. repeat split.
    exists []. rewrite app_nil_r. repeat split; auto.
  - simpl in H. revert H. step_run.
    destruct (find_flower (view s (Some ws)) fid) as [f|] eqn:Ef.
    + destruct (f_isActive f) eqn:Ea; cbn [negb].
      * destruct (nlt (f_stock f) q) eqn:Es.
        -- step_run. intros H; inversion H; subst.
           split; [apply rolled_back_committed|]. split; reflexivity.
        -- step_run.
           destruct (line_exists (view s (Some ws)) _) eqn:El.
           ++ intros H; inversion H; subst. repeat split; reflexivity.
           ++ step_run. intros H. apply IH in H. destruct H as [Hcs H].
              split; [exact Hcs|].
              destruct r as [total' | resp | e]; auto.
              destruct H as (-> & ws' & -> & Hc & Ho & Hs & new & Hi & Hk & Hf & Ht & Hst).
              split; [reflexivity|].
              rewrite !view_snoc in Hc, Ho, Hi, Hs, Hf.
              rewrite set_stock_static in Hs.
              cbn [apply_write customers orders orderItems flowers] in Hc, Ho, Hi, Hs.
              exists ws'. split; [reflexivity|]. repeat split; auto.
              exists (mkOrderItem (o_id order) fid q (f_price f) :: new).
              split; [rewrite Hi, <- app_assoc; reflexivity|].
              split; [simpl; unfold line_key at 1; simpl; f_equal; exact Hk|].
              split; [| split; [exact Ht|]].
              2:{ intros [Hn Hd]. rewrite !view_snoc in Hst.
                  exact (stock_step _ _ _ _ Ef _ _ _ Es Hn (Hst Hd)). }
              ** constructor.
                 --- simpl. split; [reflexivity|]. unfold price_of. now rewrite Ef.
                 --- eapply Forall_impl; [| exact Hf]. intros it [H1 H2]. split; [exact H1|].
                     rewrite <- H2. symmetry. apply price_of_static.
                     rewrite set_stock_static. reflexivity.
      * step_run. intros H; inversion H; subst.
        split; [apply rolled_back_committed|]. split; reflexivity.
    + step_run. intros H; inversion H; subst.
      split; [apply rolled_back_committed|]. split; reflexivity.
Qed.

(** ** The profile of the principal *)

Lemma profile_run (user : principal) (ws : list write) (s : store) r l' s' :
  run (Shop.getOrCreateCustomerProfile user) (Some ws) s = (r, l', s') ->
  committed s' = committed s /\ next_order s' = next_order s /\
  match r with
  | Next customer =>
      exists ws', l' = Some (ws ++ ws') /\ present (u_email user) = true /\
        flowers (view s' l') = flowers (view s (Some ws)) /\
        orders (view s' l') = orders (view s (Some ws)) /\
        orderItems (view s' l') = orderItems (view s (Some ws))
  | Return _ => False
  | Throw e => l' = Some ws /\ e = HttpError 400 "Authenticated user is missing an email"
  end.
Proof.
  unfold Shop.getOrCreateCustomerProfile.
  destruct (present (u_email user)) eqn:Hp; cbn [negb].
  - step_run.
    destruct (find_customer_email _ _) as [c|] eqn:Ef.
    + cbn [negb andb]. destruct (c_isActive c) eqn:Ea; cbn [negb].
      * simpl. intros H; inversion H; subst. repeat split.
        exists []. rewrite app_nil_r. repeat split.
      * step_run. intros H; inversion H; subst. repeat split.
        eexists. split; [reflexivity|]. rewrite view_snoc. repeat split.
    + step_run. cbn [negb andb]. cbn [run]. intros H; inversion H; subst. repeat split.
      eexists. split; [reflexivity|].
      unfold view; cbn [pending committed]. rewrite fold_left_app. repeat split.
  - simpl. intros H; inversion H; subst. repeat split.
Qed.

(** ** The shop route, from request to response *)

Lemma shop_place_run (user : principal) (rq : shop_request) (items : list entry)
    (s : store) r l' s' :
  run (Shop.place user rq items) (Some []) s = (r, l', s') ->
  match r with
  | Next _ => False
  | Throw e =>
      committed s' = committed s /\
      (e = HttpError 400 "Authenticated user is missing an email" \/
       e = not_unique ["order_id"; "flower_id"]%string)
  | Return resp =>
      l' = None /\
      ((committed s' = committed s /\ status resp = 400%Z) \/ placed user rq items s resp s')
  end.
Proof.
  unfold Shop.place. step_run.
  destruct (run (Shop.getOrCreateCustomerProfile user) (Some []) s) as [[rc lc] sc] eqn:Hc.
  pose proof (profile_run _ _ _ _ _ _ Hc) as (Hcc & Hno & Hrc).
  destruct rc as [customer | resp | e].
  - destruct Hrc as (cw & -> & Hp & _). cbn [app] in *. step_run.
    destruct (Shop.merge (flat items) []) as [merged|] eqn:Hm.
    + step_run.
      match goal with |- context [run (Shop.reserve ?o merged (Fin 0)) (Some ?w) ?st] =>
        destruct (run (Shop.reserve o merged (Fin 0)) (Some w) st) as [[rr lr] sr] eqn:Hr end.
      apply shop_reserve_run in Hr. destruct Hr as [Hcr Hr].
      cbn [committed] in Hcr.
      destruct rr as [total | resp | e].
      * destruct Hr as (-> & ws' & -> & Hres). step_run.
        intros H; inversion H; subst; clear H.
        split; [reflexivity|]. right.
        exists customer, cw, sc, merged. eexists. exists total.
        split; [exact Hc|]. split; [exact Hm|].
        cbn [o_id] in Hres. rewrite Hno in *.
        rewrite view_snoc in Hres.
        rewrite !(view_ext _ sc) in Hres by reflexivity.
        rewrite (view_ext sc s) in Hres by exact Hcc.
        split; [exact Hres|].
        cbn [committed next_order o_id]. rewrite view_snoc.
        rewrite !(view_ext _ sc) by reflexivity.
        repeat split.
      * destruct Hr as [-> Hst]. intros H; inversion H; subst.
        split; [reflexivity|]. left. split; [congruence | exact Hst].
      * destruct Hr as [-> ->]. intros H; inversion H; subst.
        split; [exact Hcc|]. right. reflexivity.
    + step_run. intros H; inversion H; subst.
      split; [reflexivity|]. left. split; [| reflexivity].
      rewrite rolled_back_committed. exact Hcc.
  - contradiction.
  - destruct Hrc as [-> ->]. intros H; inversion H; subst.
    split; [exact Hcc|]. now left.
Qed.

Lemma shop_post_run (user : principal) (rq : shop_request) (s : store) resp l' s' :
  run (Shop.post_orders user rq) None s = (resp, l', s') ->
  l' = None /\ (next_order s <= next_order s')%Z /\
  ((committed s' = committed s /\ status resp = 400%Z) \/
   (exists items, rq_items rq = Some items /\ items <> [] /\
                  present (rq_contactPhone rq) = true /\
                  placed user rq items s resp s')).
Proof.
  intros H.
  assert (Hrest : l' = None /\
    ((committed s' = committed s /\ status resp = 400%Z) \/
     (exists items, rq_items rq = Some items /\ items <> [] /\
                    present (rq_contactPhone rq) = true /\
                    placed user rq items s resp s'))).
  { revert H. unfold Shop.post_orders.
    destruct (rq_items rq) as [[| first others] |] eqn:Hi;
      try (simpl; intros H; inversion H; subst;
           split; [reflexivity | left; split; reflexivity]).
    destruct (present (rq_contactPhone rq)) eqn:Hp; cbn [negb];
      try (simpl; intros H; inversion H; subst;
           split; [reflexivity | left; split; reflexivity]).
    step_run.
    destruct (run (Shop.place user rq (first :: others)) (Some []) s) as [[r lp] sp] eqn:Hr.
    apply shop_place_run in Hr.
    destruct r as [x | resp0 | e].
    - contradiction.
    - destruct Hr as [-> Hr]. simpl. intros H; inversion H; subst.
      split; [reflexivity|].
      destruct Hr as [Hr | Hr]; [left; exact Hr | right].
      exists (first :: others). repeat split; auto. discriminate.
    - destruct Hr as [Hc He]. unfold Shop.rescue. step_run.
      destruct He as [-> | ->]; simpl; intros H; inversion H; subst;
        (split; [reflexivity | left; split;
                                 [rewrite rolled_back_committed; exact Hc | reflexivity]]). }
  destruct Hrest as [-> Hrest]. split; [reflexivity|]. split; [| exact Hrest].
  exact (run_counter _ _ _ _ H).
Qed.

Lemma placed_status (user : principal) (rq : shop_request) (items : list entry)
    (s : store) (resp : response) (s' : store) :
  placed user rq items s resp s' -> status resp = 201%Z.
Proof. intros (? & ? & ? & ? & ? & ? & _ & _ & _ & _ & _ & ->). reflexivity. Qed.

(** ** The tables after a placed order *)

Lemma pk_matches_of_Z (a b : Z) : pk_matches a (of_Z b) = Z.eqb a b.
Proof.
  unfold pk_matches, of_Z; simpl.
  destruct (Z.eqb_spec a b) as [-> | Hne].
  - apply Qeq_bool_refl.
  - destruct (Qeq_bool (inject_Z a) (inject_Z b)) eqn:E; auto.
    apply Qeq_bool_iff in E. unfold Qeq in E. simpl in E. lia.
Qed.

Lemma map_id_on {A : Type} (f : A -> A) (l : list A) :
  Forall (fun a => f a = a) l -> map f l = l.
Proof. induction 1; simpl; congruence. Qed.

Lemma find_none_app {A : Type} (p : A -> bool) (l l' : list A) :
  Forall (fun a => p a = false) l -> find p (l ++ l') = find p l'.
Proof. induction 1 as [| a l Ha _ IH]; simpl; auto. now rewrite Ha. Qed.

Lemma filter_none {A : Type} (p : A -> bool) (l : list A) :
  Forall (fun a => p a = false) l -> filter p l = [].
Proof. induction 1 as [| a l Ha _ IH]; simpl; auto. now rewrite Ha. Qed.

Lemma filter_all {A : Type} (p : A -> bool) (l : list A) :
  Forall (fun a => p a = true) l -> filter p l = l.
Proof. induction 1 as [| a l Ha _ IH]; simpl; auto. rewrite Ha. now f_equal. Qed.

Lemma placed_tables (user : principal) (rq : shop_request) (items : list entry)
    (s : store) (resp : response) (s' : store) :
  wf_store s ->
  placed user rq items s resp s' ->
  exists customer cw sc merged new total,
    let order := mkOrder (next_order s) (c_id customer) "pending" total
                         (Stashed (Shop.extra rq)) in
    run (Shop.getOrCreateCustomerProfile user) (Some []) s = (Next customer, Some cw, sc) /\
    Shop.merge (flat items) [] = Some merged /\
    customers (committed s') = customers (view s (Some cw)) /\
    orders (committed s') = orders (committed s) ++ [order] /\
    orderItems (committed s') = orderItems (committed s) ++ new /\
    map f_static (flowers (committed s')) = map f_static (flowers (committed s)) /\
    map line_key new = merged /\
    Forall (fun it => oi_orderId it = next_order s /\
                      price_of (committed s) (oi_flowerId it) = Some (oi_price it)) new /\
    total = fold_left add_line new (Fin 0) /\
    items_of (committed s') (next_order s) = new /\
    resp = mkResponse 201 (OrderJson (find_order (committed s') (of_Z (next_order s)))) /\
    distinct merged /\
    Forall (in_stock (committed s)) merged /\
    stock_taken merged (committed s) (committed s').
Proof.
  intros [Hwo Hwi] (customer & cw & sc & merged & t2 & total & Hc & Hm & Hres & Hs' & Hn & ->).
  pose proof (profile_run _ _ _ _ _ _ Hc) as (Hcc & _ & cw' & Hl & _ & Hfl & Hor & Hoi).
  rewrite (view_ext sc s _ Hcc) in Hfl, Hor, Hoi.
  change (view s (Some [])) with (committed s) in Hfl, Hor, Hoi.
  cbn [app] in Hl. inversion Hl; subst cw'; clear Hl.
  destruct Hres as (Hrc & Hro & Hrs & new & Hri & Hk & Hf & Ht & Hst).
  pose proof (proj1 (merge_cart _ _ Hm)) as Hd. specialize (Hst Hd).
  cbn [apply_write customers orders orderItems flowers] in Hrc, Hro, Hrs, Hri.
  rewrite Hfl in Hrs. rewrite Hor in Hro. rewrite Hoi in Hri.
  assert (Hord : orders (committed s') =
                 orders (committed s) ++
                 [mkOrder (next_order s) (c_id customer) "pending" total (Stashed (Shop.extra rq))]).
  { rewrite Hs'. cbn [apply_write orders]. rewrite Hro, map_app. f_equal.
    - apply map_id_on. eapply Forall_impl; [| exact Hwo]. intros o Ho. cbn beta in *.
      destruct (Z.eqb_spec (o_id o) (next_order s)); [lia | reflexivity].
    - cbn. now rewrite Z.eqb_refl. }
  assert (Hitems : orderItems (committed s') = orderItems (committed s) ++ new).
  { rewrite Hs'. cbn [apply_write orderItems]. exact Hri. }
  assert (Hio : items_of (committed s') (next_order s) = new).
  { unfold items_of. rewrite Hitems, filter_app, filter_none, filter_all; auto.
    - eapply Forall_impl; [| exact Hf]. intros it [-> _]. apply Z.eqb_refl.
    - eapply Forall_impl; [| exact Hwi]. intros it Hit. cbn beta in *.
      destruct (Z.eqb_spec (oi_orderId it) (next_order s)); [lia | reflexivity]. }
  exists customer, cw, sc, merged, new, total. cbn zeta.
  split; [exact Hc|]. split; [exact Hm|].
  split; [rewrite Hs'; exact Hrc|]. split; [exact Hord|]. split; [exact Hitems|].
  split; [rewrite Hs'; exact Hrs|]. split; [exact Hk|].
  split.
  { eapply Forall_impl; [| exact Hf]. intros it [H1 H2]. split; [exact H1|].
    rewrite <- H2. symmetry. apply price_of_static. cbn [apply_write flowers]. now rewrite Hfl. }
  split; [exact Ht|]. split; [exact Hio|].
  split; [reflexivity|].
  split; [exact Hd|].
  assert (Hsame : forall k, find_flower
            (apply_write (view s (Some cw))
               (InsertOrder (mkOrder (next_order s) (c_id customer) "pending" (Fin 0)
                                     (Stashed (Shop.extra rq))))) k =
            find_flower (committed s) k).
  { intros k. unfold find_flower. cbn [apply_write flowers]. now rewrite Hfl. }
  destruct Hst as [Hin Htk]. split.
  - eapply Forall_impl; [| exact Hin]. intros kv (f & H1 & H2). exists f.
    split; [rewrite <- Hsame; exact H1 | exact H2].
  - intros k. rewrite <- Hsame, <- Htk, Hs'. reflexivity.
Qed.

(** ** Refused items *)

Lemma refused_is_rejected (raw : item) :
  refused raw ->
  falsy (Number (flowerId raw)) || nlt (Number (or_zero (quantity raw))) (Fin 1) = true.
Proof.
  intros [H | [H | (q & H & Hq)]]; rewrite H.
  - reflexivity.
  - apply orb_true_r.
  - apply orb_true_iff. right. unfold or_zero. simpl.
    destruct (Qeq_bool q 0); simpl; [reflexivity|].
    apply negb_true_iff. destruct (Qle_bool 1 q) eqn:E; [| reflexivity].
    apply Qle_bool_iff in E. exfalso. exact (Qlt_not_le _ _ Hq E).
Qed.

(** ** The customer rows under [getOrCreateCustomerProfile] *)

Lemma present_some (o : option string) :
  present o = true -> exists e, o = Some e /\ or_else o EmptyString = e.
Proof.
  destruct o as [e|]; simpl; [| discriminate]. intros H. exists e. split; [reflexivity|].
  destruct (String.eqb e "") eqn:E; [discriminate | reflexivity].
Qed.

Lemma find_none_forall {A : Type} (p : A -> bool) (l : list A) :
  find p l = None -> Forall (fun a => p a = false) l.
Proof.
  induction l as [| a l IH]; simpl; intros H; constructor;
    destruct (p a); try discriminate; auto.
Qed.

Lemma count_email_map (email : string) (g : Customer -> Customer) (rows : list Customer) :
  (forall c, c_email (g c) = c_email c) ->
  count_email email (map g rows) = count_email email rows.
Proof.
  intros Hg. unfold count_email. induction rows as [| c rows IH]; simpl; auto.
  rewrite Hg. destruct (String.eqb (c_email c) email); simpl; auto.
Qed.

Lemma count_email_found (email : string) (rows : list Customer) (c : Customer) :
  find (fun c => String.eqb (c_email c) email) rows = Some c ->
  (1 <= count_email email rows)%nat.
Proof.
  unfold count_email. induction rows as [| r rows IH]; simpl; [discriminate|].
  destruct (String.eqb (c_email r) email); simpl; [lia | auto].
Qed.

(** What [getOrCreateCustomerProfile] does to the customer rows. *)
Lemma profile_customers (user : principal) (ws : list write) (s : store) customer l' s' :
  run (Shop.getOrCreateCustomerProfile user) (Some ws) s = (Next customer, l', s') ->
  exists email,
    u_email user = Some email /\
    find_customer_email (view s' l') email = Some customer /\
    c_isActive customer = true /\
    count_email email (customers (view s' l')) =
      Nat.max 1 (count_email email (customers (view s (Some ws)))) /\
    match find_customer_email (view s (Some ws)) email with
    | Some old =>
        c_id customer = c_id old /\
        List.length (customers (view s' l')) = List.length (customers (view s (Some ws)))
    | None =>
        customers (view s' l') = customers (view s (Some ws)) ++ [customer] /\
        c_name customer = or_else (u_name user) (local_part email)
    end.
Proof.
  unfold Shop.getOrCreateCustomerProfile.
  destruct (present (u_email user)) eqn:Hp; cbn [negb]; [| simpl; discriminate].
  destruct (present_some _ Hp) as (email & He & ->). exists email. split; [exact He|].
  revert H. step_run.
  destruct (find_customer_email (view s (Some ws)) email) as [c|] eqn:Ef.
  - pose proof (Nat.max_r _ _ (count_email_found _ _ _ Ef)) as Hcount.
    pose proof (find_some _ _ Ef) as [_ Hmail]. apply String.eqb_eq in Hmail.
    cbn [negb andb]. destruct (c_isActive c) eqn:Ea; cbn [negb].
    + simpl. intros H; inversion H; subst. repeat split; auto.
    + step_run. intros H; inversion H; subst. rewrite view_snoc.
      cbn [apply_write customers]. unfold find_customer_email at 1. cbn [customers].
      rewrite find_map_stable, count_email_map, length_map.
      * unfold find_customer_email in Ef. rewrite Ef. cbn. rewrite Z.eqb_refl.
        repeat split; auto.
      * intros r. destruct (Z.eqb (c_id r) (c_id c)); reflexivity.
      * intros r. destruct (Z.eqb (c_id r) (c_id c)); reflexivity.
  - step_run. cbn [negb andb run]. intros H; inversion H; subst.
    match goal with |- context [view ?st (Some (ws ++ [?w]))] =>
      replace (view st (Some (ws ++ [w]))) with (apply_write (view s (Some ws)) w)
        by (rewrite <- view_snoc; apply view_ext; reflexivity)
    end.
    unfold find_customer_email in *. cbn [apply_write customers].
    pose proof (find_none_forall _ _ Ef) as Hnone.
    rewrite (find_none_app _ _ _ Hnone). cbn [find c_email]. rewrite String.eqb_refl.
    unfold count_email. rewrite filter_app, length_app, (filter_none _ _ Hnone).
    cbn [filter c_email]. rewrite String.eqb_refl. repeat split.
Qed.

(** ** The loop at a flower that is short *)

Lemma profile_throws (user : principal) (ws : list write) (s : store) e l' s' :
  run (Shop.getOrCreateCustomerProfile user) (Some ws) s = (Throw e, l', s') ->
  present (u_email user) = false.
Proof.
  unfold Shop.getOrCreateCustomerProfile.
  destruct (present (u_email user)); cbn [negb]; [| reflexivity].
  step_run. destruct (find_customer_email _ _) as [c|].
  - cbn [negb andb]. destruct (c_isActive c); cbn [negb]; step_run; simpl; discriminate.
  - step_run. cbn [negb andb run]. discriminate.
Qed.

Lemma line_free (t : tables) (entries : jsmap) (it : OrderItem) (q : num) :
  (forall r, In r (orderItems t) -> oi_orderId r = oi_orderId it ->
             map_get entries (oi_flowerId r) = None) ->
  map_get entries (oi_flowerId it) = Some q ->
  line_exists t it = false.
Proof.
  intros Hfree Hk. unfold line_exists.
  destruct (existsb _ (orderItems t)) eqn:E; [| reflexivity].
  apply existsb_exists in E. destruct E as (r & Hin & Hr).
  apply andb_true_iff in Hr. destruct Hr as [Hid Hsame].
  apply Z.eqb_eq in Hid. specialize (Hfree r Hin Hid).
  rewrite (map_get_same entries _ _ Hsame), Hk in Hfree. discriminate.
Qed.

(** The loop stops at the first entry that asks for more than the stock,
    when the entries before it can all be served. *)
Lemma shop_reserve_insufficient (order : Order) (pre : jsmap) :
  forall (total : num) (ws : list write) (s : store) k q post f,
    distinct (pre ++ (k, q) :: post) ->
    (forall r, In r (orderItems (view s (Some ws))) -> oi_orderId r = o_id order ->
               map_get (pre ++ (k, q) :: post) (oi_flowerId r) = None) ->
    Forall (in_stock (view s (Some ws))) pre ->
    find_flower (view s (Some ws)) k = Some f ->
    nlt (f_stock f) q = true ->
    exists s',
      run (Shop.reserve order (pre ++ (k, q) :: post) total) (Some ws) s =
      (Return (Shop.insufficient f), None, s') /\
      committed s' = committed s.
Proof.
  induction pre as [| [k0 q0] pre IH]; intros total ws s k q post f Hd Hfree Hin Hf Hs.
  - cbn [app Shop.reserve]. step_run. rewrite Hf.
    destruct (find_flower_some _ _ _ Hf) as [_ ->]. cbn [negb]. rewrite Hs.
    step_run. eexists. split; [reflexivity | apply rolled_back_committed].
  - cbn [app Shop.reserve]. step_run.
    inversion Hin as [| ? ? (f0 & Hf0 & Hs0) Hin']; subst. cbn [fst snd] in *.
    destruct Hd as [Hn Hd].
    rewrite Hf0. destruct (find_flower_some _ _ _ Hf0) as [_ ->]. cbn [negb]. rewrite Hs0.
    step_run.
    rewrite (line_free _ ((k0, q0) :: pre ++ (k, q) :: post) _ q0); cycle 1.
    { exact Hfree. }
    { cbn. now rewrite same_value_refl. }
    step_run.
    pose proof (map_get_none_in _ _ Hn) as Hother.
    apply Forall_app in Hother. destruct Hother as [Hpre Hk].
    inversion Hk as [| ? ? Hk0 _]; subst. cbn [fst] in Hk0.
    apply IH; auto.
    + intros r Hr Hid. rewrite !view_snoc in Hr. cbn [apply_write orderItems] in Hr.
      apply in_app_or in Hr. destruct Hr as [Hr | [<- | []]].
      * specialize (Hfree r Hr Hid). cbn [app map_get] in Hfree.
        destruct (same_value k0 (oi_flowerId r)); [discriminate | exact Hfree].
      * exact Hn.
    + rewrite Forall_forall in *. intros kv Hkv.
      destruct (Hin' kv Hkv) as (g & Hg & Hgs). exists g. split; [| exact Hgs].
      rewrite !view_snoc, <- Hg. apply (find_flower_other _ _ _ k0 Hf0); auto.
    + rewrite !view_snoc, <- Hf. apply (find_flower_other _ _ _ k0 Hf0); auto.
Qed.

(** ** The [fulfilment] field *)

Lemma fulfil_idempotent (f : option string) :
  Shop.fulfil (Some (Shop.fulfil f)) = Shop.fulfil f.
Proof.
  unfold Shop.fulfil. destruct f as [v|]; [| reflexivity].
  destruct (String.eqb v "delivery"); reflexivity.
Qed.

Lemma post_orders_fulfilment (user : principal) (rq : shop_request) :
  Shop.post_orders user (with_fulfilment rq (Some (Shop.fulfil (rq_fulfilment rq)))) =
  Shop.post_orders user rq.
Proof.
  unfold Shop.post_orders, Shop.place, Shop.extra, with_fulfilment.
  cbn [rq_items rq_fulfilment rq_deliveryAddress rq_deliveryDate rq_contactPhone
       rq_giftMessage rq_notes].
  rewrite fulfil_idempotent. reflexivity.
Qed.

(** * Atomicity *)

(** C1. A [POST /shop/orders] that does not answer 201 (a validation failure,
    an unavailable flower or insufficient stock at any item of the merged
    cart, a missing email) leaves the committed tables exactly as they were:
    the stock of the flowers reserved before the failing item, the order
    items and the order rows are those from before the call.  The transaction
    is closed (rolled back) when the response is returned. *)
Theorem shop_order_failure_atomic (user : principal) (rq : shop_request) (s : store)
    resp l' s' :
  run (Shop.post_orders user rq) None s = (resp, l', s') ->
  status resp <> 201%Z ->
  committed s' = committed s /\ l' = None.
Proof.
  intros H Hst. apply shop_post_run in H. destruct H as [-> [_ [[Hc _] | (items & _ & _ & _ & Hp)]]].
  - split; [exact Hc | reflexivity].
  - apply placed_status in Hp. contradiction.
Qed.

(** * One call to [POST /shop/orders] *)

(** A call that answers 201 has placed an order. *)
Lemma placed_call (user : principal) (rq : shop_request) (s : store) resp l' s' :
  run (Shop.post_orders user rq) None s = (resp, l', s') ->
  status resp = 201%Z ->
  exists items, rq_items rq = Some items /\ placed user rq items s resp s'.
Proof.
  intros H Hst. apply shop_post_run in H.
  destruct H as [_ [_ [[_ H400] | (items & Hi & _ & _ & Hp)]]].
  - rewrite H400 in Hst. discriminate.
  - exists items. split; assumption.
Qed.

(** ** Validation *)

(** C6 (as the code has it). [POST /shop/orders] answers 400 and changes
    nothing in the committed tables when [items] is missing or empty, when
    [contactPhone] is missing, or when some item of the cart has no
    [flowerId], no quantity, or a quantity below one (zero and negative
    quantities among them). *)
Theorem invalid_cart_rejected (user : principal) (rq : shop_request) (s : store)
    resp l' s' :
  run (Shop.post_orders user rq) None s = (resp, l', s') ->
  (rq_items rq = None \/ rq_items rq = Some [] \/
   present (rq_contactPhone rq) = false \/
   exists items raw, rq_items rq = Some items /\ In raw (flat items) /\ refused raw) ->
  status resp = 400%Z /\ committed s' = committed s /\ l' = None.
Proof.
  intros H Hbad. apply shop_post_run in H.
  destruct H as [-> [_ [[Hc H400] | (items & Hi & Hne & Hph & Hp)]]]; [auto|].
  exfalso. destruct Hbad as [E | [E | [E | (items' & raw & E & Hin & Hr)]]];
    try congruence.
  rewrite Hi in E; inversion E; subst items'.
  destruct Hp as (? & ? & ? & merged & ? & ? & _ & Hm & _).
  destruct (merge_valid _ _ _ Hm raw Hin) as [H1 H2].
  apply refused_is_rejected in Hr. rewrite H1, H2 in Hr. discriminate.
Qed.

(** ** The profile of the customer *)

(** C7. A successful [POST /shop/orders] leaves the principal with an active
    profile under the email of the principal.  If a row with that email
    existed, soft-deleted or not, it is that row (same id) and no row was
    added, so that a single row for the email stays a single row; if none
    existed, one row was added, named after the principal or, when the
    principal has no name, after the local part of the email. *)
Theorem profile_reactivated_or_created (user : principal) (rq : shop_request) (s : store)
    resp l' s' :
  run (Shop.post_orders user rq) None s = (resp, l', s') ->
  status resp = 201%Z ->
  exists email profile,
    u_email user = Some email /\
    find_customer_email (committed s') email = Some profile /\
    c_isActive profile = true /\
    count_email email (customers (committed s')) =
      Nat.max 1 (count_email email (customers (committed s))) /\
    match find_customer_email (committed s) email with
    | Some old =>
        c_id profile = c_id old /\
        List.length (customers (committed s')) = List.length (customers (committed s))
    | None =>
        customers (committed s') = customers (committed s) ++ [profile] /\
        c_name profile = or_else (u_name user) (local_part email)
    end.
Proof.
  intros H Hst. destruct (placed_call _ _ _ _ _ _ H Hst) as (items & _ & Hp).
  destruct Hp as (customer & cw & sc & merged & t2 & total & Hc & _ & Hres & Hs' & _).
  destruct Hres as (Hrc & _).
  pose proof (profile_run _ _ _ _ _ _ Hc) as (Hcc & _).
  destruct (profile_customers _ _ _ _ _ _ Hc) as (email & He & Hfind & Hact & Hcount & Hold).
  rewrite (view_ext sc s _ Hcc) in Hfind, Hcount, Hold.
  change (view s (Some [])) with (committed s) in Hcount, Hold.
  assert (Hcust : customers (committed s') = customers (view s (Some cw))).
  { rewrite Hs'. cbn [apply_write customers]. exact Hrc. }
  exists email, customer. unfold find_customer_email at 1. rewrite Hcust.
  repeat split; auto.
Qed.

(** ** One line per flower *)


(** ** Fulfilment *)

(** C9 (as the code has it). [POST /shop/orders] never refuses a request for
    its [fulfilment]: it keeps ['delivery'] when the field is exactly that and
    takes ['pickup'] otherwise, also when the field is missing; the request is
    then handled exactly as if it had carried the value taken, and a placed
    order stores that value. *)
Theorem fulfilment_coerced (user : principal) (rq : shop_request) (s : store)
    resp l' s' :
  wf_store s ->
  run (Shop.post_orders user rq) None s = (resp, l', s') ->
  let chosen := Shop.fulfil (rq_fulfilment rq) in
  ((chosen = "delivery"%string /\ rq_fulfilment rq = Some "delivery"%string) \/
   (chosen = "pickup"%string /\ rq_fulfilment rq <> Some "delivery"%string)) /\
  run (Shop.post_orders user (with_fulfilment rq (Some chosen))) None s = (resp, l', s') /\
  (status resp = 201%Z ->
   exists order e,
     In order (orders (committed s')) /\ o_id order = next_order s /\
     o_notes order = Stashed e /\ x_fulfilment e = chosen).
Proof.
  intros Hwf H chosen. split; [| split].
  - unfold chosen, Shop.fulfil. destruct (rq_fulfilment rq) as [v|].
    + destruct (String.eqb_spec v "delivery") as [-> | Hne].
      * left; split; reflexivity.
      * right; split; [reflexivity | congruence].
    + right; split; [reflexivity | discriminate].
  - unfold chosen. rewrite post_orders_fulfilment. exact H.
  - intros Hst. destruct (placed_call _ _ _ _ _ _ H Hst) as (items & _ & Hp).
    destruct (placed_tables _ _ _ _ _ _ Hwf Hp)
      as (customer & cw & sc & merged & new & total & _ & _ & _ & Ho & _).
    eexists. exists (Shop.extra rq). split; [rewrite Ho; apply in_or_app; right; left; reflexivity|].
    repeat split.
Qed.

(** * The examples of the specification, and others *)

Lemma example_shop_wf : wf_store Example.shop.
Proof. split; constructor. Qed.

(** C1 on an example.  Two roses are reserved, then twenty tulips are
    refused: the roses are back in stock. *)
Lemma shop_order_failure_atomic_witness :
  let '(resp, l', s') :=
    run (Shop.post_orders Example.alice_user
           (Example.cart None [Example.line 7 2; Example.line 1 20]))
        None Example.shop in
  status resp = 400%Z /\ committed s' = committed Example.shop /\ l' = None.
Proof.
  split; [reflexivity|].
  refine (shop_order_failure_atomic Example.alice_user
            (Example.cart None [Example.line 7 2; Example.line 1 20])
            Example.shop _ _ _ eq_refl _).
  vm_compute. discriminate.
Defined.

(** C6 on an example: a cart whose second item asks for no roses at all. *)
Lemma invalid_cart_rejected_witness :
  let '(resp, l', s') :=
    run (Shop.post_orders Example.alice_user
           (Example.cart None [Example.line 1 2; Example.line 7 0]))
        None Example.shop in
  status resp = 400%Z /\ committed s' = committed Example.shop /\ l' = None.
Proof.
  refine (invalid_cart_rejected Example.alice_user
            (Example.cart None [Example.line 1 2; Example.line 7 0])
            Example.shop _ _ _ eq_refl _).
  right; right; right.
  exists [Example.line 1 2; Example.line 7 0], (mkItem (Some (VNum 7)) (Some (VNum 0))).
  split; [reflexivity|]. split; [simpl; auto|].
  right; right. exists 0. split; reflexivity.
Defined.

(** C6 as stated fails: two and a half roses are not an integer quantity, and
    the order is placed all the same. *)
Lemma fractional_quantity_accepted :
  let '(resp, _, s') :=
    run (Shop.post_orders Example.alice_user (Example.cart None [Example.line 7 (5 # 2)]))
        None Example.shop in
  status resp = 201%Z /\
  map oi_quantity (orderItems (committed s')) = [Fin (5 # 2)] /\
  option_map f_stock (find_flower (committed s') (Fin 7)) = Some (Fin (15 # 2)).
Proof. vm_compute. repeat split. Qed.

(** C7 on an example: Bob's profile was soft-deleted; Bob orders a rose. *)
Lemma profile_reactivated_or_created_witness :
  let '(resp, _, s') :=
    run (Shop.post_orders Example.bob_user (Example.cart None [Example.line 7 1]))
        None Example.shop in
  exists email profile,
    Some "bob@example.com"%string = Some email /\
    find_customer_email (committed s') email = Some profile /\
    c_isActive profile = true /\
    count_email email (customers (committed s')) =
      Nat.max 1 (count_email email (customers (committed Example.shop))) /\
    match find_customer_email (committed Example.shop) email with
    | Some old =>
        c_id profile = c_id old /\
        List.length (customers (committed s')) =
        List.length (customers (committed Example.shop))
    | None =>
        customers (committed s') = customers (committed Example.shop) ++ [profile] /\
        c_name profile = or_else (Some "Bob"%string) (local_part email)
    end.
Proof.
  exact (profile_reactivated_or_created Example.bob_user
           (Example.cart None [Example.line 7 1]) Example.shop _ _ _ eq_refl eq_refl).
Defined.

(** The two cases, evaluated: Bob's row is reactivated, and Carol, who had no
    row and gives no name, gets one named after her email. *)
Lemma bob_and_carol :
  (let '(_, _, s') :=
     run (Shop.post_orders Example.bob_user (Example.cart None [Example.line 7 1]))
         None Example.shop in
   customers (committed s') =
   [Example.alice; mkCustomer 2 "Bob" "bob@example.com" true]) /\
  (let '(_, _, s') :=
     run (Shop.post_orders Example.carol_user (Example.cart None [Example.line 7 1]))
         None Example.shop in
   customers (committed s') =
   [Example.alice; Example.bob; mkCustomer 3 "carol" "carol@example.com" true]).
Proof. vm_compute. split; reflexivity. Qed.

(** The example of the specification: two roses against a stock of ten
    are sold and leave eight roses. *)
Lemma two_roses :
  let '(resp, _, s') :=
    run (Shop.post_orders Example.alice_user (Example.cart None [Example.line 7 2]))
        None Example.shop in
  status resp = 201%Z /\
  map line_key (orderItems (committed s')) = [(Fin 7, Fin 2)] /\
  option_map f_stock (find_flower (committed s') (Fin 7)) = Some (Fin (8 # 1)).
Proof. vm_compute. repeat split. Qed.


(** The same cart, evaluated: one line of five tulips, and one tulip left of
    six. *)
Lemma tulips_twice :
  let '(resp, _, s') :=
    run (Shop.post_orders Example.alice_user
           (Example.cart None [Example.line 1 2; Example.line 1 3]))
        None Example.shop in
  status resp = 201%Z /\
  orderItems (committed s') = [mkOrderItem 1 (Fin 1) (Fin 5) (Fin (450 # 100))] /\
  option_map f_stock (find_flower (committed s') (Fin 1)) = Some (Fin 1).
Proof. vm_compute. repeat split. Qed.

(** C9 on an example: a rose, to be fetched by drone. *)
Lemma fulfilment_coerced_witness :
  let rq := Example.cart (Some "drone"%string) [Example.line 7 1] in
  let '(resp, l', s') := run (Shop.post_orders Example.alice_user rq) None Example.shop in
  status resp = 201%Z /\
  run (Shop.post_orders Example.alice_user (with_fulfilment rq (Some "pickup"%string)))
      None Example.shop = (resp, l', s') /\
  exists order e,
    In order (orders (committed s')) /\ o_id order = 1%Z /\
    o_notes order = Stashed e /\ x_fulfilment e = "pickup"%string.
Proof.
  pose proof (fulfilment_coerced Example.alice_user
                (Example.cart (Some "drone"%string) [Example.line 7 1]) Example.shop _ _ _
                example_shop_wf eq_refl) as (_ & Hsame & Hstored).
  split; [reflexivity|]. split; [exact Hsame | exact (Hstored eq_refl)].
Defined.

(** C9 as stated fails: ['express'] is outside the allowed set, and the order
    is placed, as a pickup. *)
Lemma unknown_fulfilment_accepted :
  let '(resp, _, s') :=
    run (Shop.post_orders Example.alice_user
           (Example.cart (Some "express"%string) [Example.line 7 1]))
        None Example.shop in
  status resp = 201%Z /\
  map o_notes (orders (committed s')) =
  [Stashed (mkExtra "pickup" None None "555-0100" None None)].
Proof. vm_compute. split; reflexivity. Qed.

(** * Insufficient stock *)

(** C8 (as the code has it). When the merged cart reaches a flower on sale
    that holds less than the cart asks of it, the flowers before it being in
    stock, [POST /shop/orders] answers 400 with the single field [msg], which
    names the flower; nothing is committed. *)
Theorem insufficient_stock_response (user : principal) (rq : shop_request) (s : store)
    (items : list entry) (pre post : jsmap) (k q : num) (f : Flower) :
  wf_store s ->
  present (u_email user) = true ->
  rq_items rq = Some items -> items <> [] ->
  present (rq_contactPhone rq) = true ->
  Shop.merge (flat items) [] = Some (pre ++ (k, q) :: post) ->
  Forall (in_stock (committed s)) pre ->
  find_flower (committed s) k = Some f ->
  nlt (f_stock f) q = true ->
  exists s',
    run (Shop.post_orders user rq) None s =
      (json 400 [("msg"%string, JString ("Insufficient stock for " ++ f_name f))], None, s') /\
    committed s' = committed s.
Proof.
  intros [_ Hwi] Hmail Hi Hne Hph Hm Hin Hf Hs.
  unfold Shop.post_orders. rewrite Hi, Hph.
  destruct items as [| first others]; [contradiction|]. cbn [negb].
  step_run. unfold Shop.place. step_run.
  destruct (run (Shop.getOrCreateCustomerProfile user) (Some []) s) as [[rc lc] sc] eqn:Hc.
  pose proof (profile_run _ _ _ _ _ _ Hc) as (Hcc & Hno & Hrc).
  destruct rc as [customer | resp | e]; [| contradiction |
    apply profile_throws in Hc; rewrite Hc in Hmail; discriminate].
  destruct Hrc as (cw & -> & _ & Hfl & _ & Hoi). cbn [app] in *.
  change (view s (Some [])) with (committed s) in Hfl, Hoi.
  step_run. rewrite Hm. step_run.
  match goal with |- context [run (Shop.reserve ?o _ ?t) (Some ?w) ?st] =>
    destruct (shop_reserve_insufficient o pre t w st k q post f) as (sr & Hrun & Hsr)
  end; cycle 5.
  - rewrite Hrun. eexists. split; [reflexivity|]. cbn [committed] in Hsr. now rewrite Hsr.
  - exact (proj1 (merge_cart _ _ Hm)).
  - intros r Hr Hid. exfalso. rewrite view_snoc in Hr. cbn [apply_write orderItems] in Hr.
    same_view sc. rewrite Hoi in Hr.
    rewrite Forall_forall in Hwi. specialize (Hwi r Hr). cbn [o_id] in Hid. lia.
  - eapply Forall_impl; [| exact Hin]. intros kv (g & Hg & Hgs). exists g.
    split; [| exact Hgs]. rewrite <- Hg. unfold find_flower. rewrite view_snoc.
    cbn [apply_write flowers]. same_view sc. now rewrite Hfl.
  - rewrite <- Hf. unfold find_flower. rewrite view_snoc.
    cbn [apply_write flowers]. same_view sc. now rewrite Hfl.
  - exact Hs.
Qed.

(** C8 on an example: two roses can be served; twenty tulips cannot. *)
Lemma insufficient_stock_response_witness :
  exists s',
    run (Shop.post_orders Example.alice_user
           (Example.cart None [Example.line 7 2; Example.line 1 20]))
        None Example.shop =
      (json 400 [("msg"%string, JString "Insufficient stock for Tulip")], None, s') /\
    committed s' = committed Example.shop.
Proof.
  refine (insufficient_stock_response Example.alice_user
            (Example.cart None [Example.line 7 2; Example.line 1 20]) Example.shop
            [Example.line 7 2; Example.line 1 20]
            [(Fin 7, Fin 2)] [] (Fin 1) (Fin 20) Example.tulip
            example_shop_wf eq_refl eq_refl _ eq_refl eq_refl _ eq_refl eq_refl).
  - discriminate.
  - constructor; [| constructor]. exists Example.rose. split; reflexivity.
Defined.

(** C8 as stated fails on the example of the specification: twenty roses
    against ten.  The payload is the message alone; it has no [flowerId], no
    [available] and no [requested]. *)
Lemma insufficient_stock_payload :
  let '(resp, _, _) :=
    run (Shop.post_orders Example.alice_user (Example.cart None [Example.line 7 20]))
        None Example.shop in
  resp = json 400 [("msg"%string, JString "Insufficient stock for Rose")] /\
  ~ has_key "flowerId" (body resp) /\
  ~ has_key "available" (body resp) /\
  ~ has_key "requested" (body resp).
Proof.
  vm_compute. split; [reflexivity|].
  repeat split; intros [v [H | []]]; discriminate H.
Qed.

(** * Looking up one's own order *)

(** C10. [GET /shop/orders/:id] for a principal with the given email answers
    200 with the order exactly when the lookup finds the order and the order
    belongs to the profile found under that email; when the profile is
    missing, or the order belongs to another customer, it answers 404 with a
    message and no order.  It changes nothing. *)
Theorem own_order_only (email : string) (id : Q) (s : store) resp l' s' :
  run (Shop.get_order email id) None s = (resp, l', s') ->
  s' = s /\ l' = None /\
  ((exists customer order,
      find_customer_email (committed s) email = Some customer /\
      find_order (committed s) (Fin id) = Some order /\
      o_customerId (fst order) = c_id customer /\
      resp = mkResponse 200 (OrderJson (Some order))) \/
   ((forall customer order,
       find_customer_email (committed s) email = Some customer ->
       find_order (committed s) (Fin id) = Some order ->
       o_customerId (fst order) <> c_id customer) /\
    resp = json 404 [("msg"%string, JString "Order not found")])).
Proof.
  unfold Shop.get_order, call. cbn [bind run exec].
  change (view s None) with (committed s).
  destruct (find_customer_email (committed s) email) as [customer|].
  - cbn [bind run exec]. change (view s None) with (committed s).
    destruct (find_order (committed s) (Fin id)) as [order|].
    + destruct (Z.eqb_spec (o_customerId (fst order)) (c_id customer)) as [E | Hne];
        cbn [negb bind run]; intros H; inversion H; subst; repeat split.
      * left. exists customer, order. repeat split; auto.
      * right. split; [| reflexivity]. intros c o Hc Ho. inversion Hc; inversion Ho; subst. exact Hne.
    + cbn [bind run]. intros H; inversion H; subst. repeat split.
      right. split; [| reflexivity]. intros c o _ Ho. discriminate Ho.
  - cbn [bind run]. intros H; inversion H; subst. repeat split.
    right. split; [| reflexivity]. intros c o Hc. discriminate Hc.
Qed.

(** C10 on an example: Alice asks for order 1, which is Bob's. *)
Lemma own_order_only_witness :
  let '(resp, l', s') :=
    run (Shop.get_order "alice@example.com" 1) None Example.shop_with_order in
  s' = Example.shop_with_order /\ l' = None /\
  ((exists customer order,
      find_customer_email (committed Example.shop_with_order) "alice@example.com"
        = Some customer /\
      find_order (committed Example.shop_with_order) (Fin 1) = Some order /\
      o_customerId (fst order) = c_id customer /\
      resp = mkResponse 200 (OrderJson (Some order))) \/
   ((forall customer order,
       find_customer_email (committed Example.shop_with_order) "alice@example.com"
         = Some customer ->
       find_order (committed Example.shop_with_order) (Fin 1) = Some order ->
       o_customerId (fst order) <> c_id customer) /\
    resp = json 404 [("msg"%string, JString "Order not found")])).
Proof.
  exact (own_order_only "alice@example.com" 1 Example.shop_with_order _ _ _ eq_refl).
Defined.

(** The same lookup, evaluated: Alice is answered 404 and Bob gets his
    order; once the lily of the order is off sale the join finds no row, and
    Bob is answered 404 as well. *)
Lemma alice_and_bob_look_up :
  fst (fst (run (Shop.get_order "alice@example.com" 1) None Example.shop_with_order))
    = json 404 [("msg"%string, JString "Order not found")] /\
  status (fst (fst (run (Shop.get_order "bob@example.com" 1) None
                        Example.shop_with_order))) = 200%Z /\
  fst (fst (run (Shop.get_order "bob@example.com" 1) None
                (snd (Flowers.delete 3 Example.shop_with_order))))
    = json 404 [("msg"%string, JString "Order not found")].
Proof. vm_compute. repeat split. Qed.

(** * The staff route against the shop route *)

(** C5 fails on the code.  On the cart of two and three tulips the shop
    route places one line of five; the staff route, which reserves item by
    item without merging, inserts a second line for the same flower, breaks
    the primary key of the lines and answers 500.  On a cart of no roses the
    shop route answers 400; the staff route, which does not look at the
    quantity, places the order.  On a cart of minus three roses the staff
    route places the order and the stock of roses goes up to thirteen. *)
Theorem staff_route_differs :
  (let '(shop, _, s1) :=
     run (Shop.post_orders Example.alice_user
            (Example.cart None [Example.line 1 2; Example.line 1 3]))
         None Example.shop in
   let '(staff, _, s2) :=
     run (Orders.post (Example.staff_cart 1 [mkStaffItem 1 2; mkStaffItem 1 3]))
         None Example.shop in
   status shop = 201%Z /\
   map line_key (orderItems (committed s1)) = [(Fin 1, Fin 5)] /\
   staff = json 500 [("msg"%string, JString "Server error");
                     ("error"%string, JString "Validation error")] /\
   committed s2 = committed Example.shop) /\
  (let '(shop, _, _) :=
     run (Shop.post_orders Example.alice_user (Example.cart None [Example.line 7 0]))
         None Example.shop in
   let '(staff, _, s2) :=
     run (Orders.post (Example.staff_cart 1 [mkStaffItem 7 0])) None Example.shop in
   status shop = 400%Z /\ status staff = 201%Z /\
   map line_key (orderItems (committed s2)) = [(Fin 7, Fin 0)]) /\
  (let '(staff, _, s2) :=
     run (Orders.post (Example.staff_cart 1 [mkStaffItem 7 (-3)])) None Example.shop in
   status staff = 201%Z /\
   option_map f_stock (find_flower (committed s2) (Fin 7)) = Some (Fin 13)).
Proof. vm_compute. repeat split. Qed.

(** * Two customers at once *)

(** C2 fails on the code.  Alice and Dan each ask for one rose when ten are
    left, at once.  The reservation of the shop route takes no lock of its
    own and does not retry: what keeps the two handlers apart is the lock of
    SQLite on the whole database.  Alice has inserted her order when Dan
    comes to insert his; his insert is refused as long as her transaction is
    open, Sequelize gives up and throws, and Dan is answered 500 although
    nine roses are left for him.  With one lily left the same schedule sells
    the lily once, and Dan is again answered 500, not told that the stock is
    insufficient. *)
Theorem concurrent_order_answers_500 :
  (let w := interleave Example.second_gives_up
              (start Example.ten_roses
                 [(Example.alice_user, Example.cart None [Example.line 7 1]);
                  (Example.dan_user, Example.cart None [Example.line 7 1])]) in
   map (option_map status) (responses w) = [Some 201%Z; Some 500%Z] /\
   map f_stock (flowers (committed (shared w))) = [Fin 9] /\
   map line_key (orderItems (committed (shared w))) = [(Fin 7, Fin 1)]) /\
  (let w := interleave Example.second_gives_up
              (start Example.last_lily
                 [(Example.alice_user, Example.cart None [Example.line 3 1]);
                  (Example.dan_user, Example.cart None [Example.line 3 1])]) in
   map (option_map status) (responses w) = [Some 201%Z; Some 500%Z] /\
   map f_stock (flowers (committed (shared w))) = [Fin 0] /\
   map line_key (orderItems (committed (shared w))) = [(Fin 3, Fin 1)]).
Proof. vm_compute. repeat split. Qed.

(** One after the other, the shop route sells the last lily once and tells
    Dan that the stock is insufficient. *)
Lemma last_lily_sold_once_in_turn :
  let w := interleave Example.in_turn
             (start Example.last_lily
                [(Example.alice_user, Example.cart None [Example.line 3 1]);
                 (Example.dan_user, Example.cart None [Example.line 3 1])]) in
  map (option_map status) (responses w) = [Some 201%Z; Some 400%Z] /\
  map f_stock (flowers (committed (shared w))) = [Fin 0].
Proof. vm_compute. repeat split. Qed.

(** * Further properties *)

(** ** The staff route, from request to response *)

Lemma staff_reserve_run (order : Order) (items : list staff_item) :
  forall (total : num) (ws : list write) (s : store) r l' s',
    run (Orders.reserve order items total) (Some ws) s = (r, l', s') ->
    committed s' = committed s /\
    match r with
    | Next total' =>
        s' = s /\
        exists ws', l' = Some ws' /\
          reserved (o_id order) (staff_entries items) (view s (Some ws)) (view s l')
                   total total' /\
          ((forall r, In r (orderItems (view s (Some ws))) -> oi_orderId r = o_id order ->
                      map_get (staff_entries items) (oi_flowerId r) = None) /\
           distinct (staff_entries items))
    | Return resp => l' = None /\ status resp = 400%Z
    | Throw e => s' = s /\ e = not_unique ["order_id"; "flower_id"]%string
    end.
Proof.
  induction items as [| [fid q] rest IH]; intros total ws s r l' s' H.
  - simpl in H. inversion H; subst. split; [reflexivity|]. split; [reflexivity|].
    exists ws. split; [reflexivity|]. split; [| simpl; auto].
    repeat split. exists []. rewrite app_nil_r. repeat split; auto.
  - cbn [Orders.reserve s_flowerId s_quantity] in H. revert H. step_run.
    destruct (find_flower (view s (Some ws)) (Fin fid)) as [f|] eqn:Ef.
    + destruct (f_isActive f) eqn:Ea; cbn [negb].
      * destruct (nlt (f_stock f) (Fin q)) eqn:Es.
        -- step_run. intros H; inversion H; subst.
           split; [apply rolled_back_committed|]. split; reflexivity.
        -- step_run.
           destruct (line_exists (view s (Some ws)) _) eqn:El.
           ++ intros H; inversion H; subst. repeat split; reflexivity.
           ++ step_run. intros H. apply IH in H. destruct H as [Hcs H].
              split; [exact Hcs|].
              destruct r as [total' | resp | e]; auto.
              destruct H as (-> & ws' & -> & (Hc & Ho & Hs & new & Hi & Hk & Hf & Ht & Hst)
                             & Hfree & Hd).
              split; [reflexivity|].
              rewrite !view_snoc in Hc, Ho, Hi, Hs, Hf, Hfree.
              rewrite set_stock_static in Hs.
              cbn [apply_write customers orders orderItems flowers] in Hc, Ho, Hi, Hs, Hfree.
              exists ws'. split; [reflexivity|]. split.
              ** repeat split; auto.
                 exists (mkOrderItem (o_id order) (Fin fid) (Fin q) (f_price f) :: new).
                 split; [rewrite Hi, <- app_assoc; reflexivity|].
                 split; [cbn [staff_entries map s_flowerId s_quantity];
                         unfold line_key at 1; simpl; f_equal; exact Hk|].
                 split; [| split; [exact Ht|]].
                 2:{ intros [Hn Hd']. rewrite !view_snoc in Hst.
                     exact (stock_step _ _ _ _ Ef _ _ _ Es Hn (Hst Hd')). }
                 constructor.
                 --- simpl. split; [reflexivity|]. unfold price_of. now rewrite Ef.
                 --- eapply Forall_impl; [| exact Hf]. intros it [H1 H2]. split; [exact H1|].
                     rewrite <- H2. symmetry. apply price_of_static.
                     rewrite set_stock_static. reflexivity.
              ** assert (Hn : map_get (staff_entries rest) (Fin fid) = None).
                 { apply (Hfree (mkOrderItem (o_id order) (Fin fid) (Fin q) (f_price f)));
                     [apply in_or_app; right; left; reflexivity | reflexivity]. }
                 split; [| split; [exact Hn | exact Hd]].
                 intros r0 Hin Hid. cbn [staff_entries map s_flowerId s_quantity map_get].
                 destruct (same_value (Fin fid) (oi_flowerId r0)) eqn:Ek.
                 --- exfalso. unfold line_exists in El.
                     assert (existsb
                               (fun r1 => Z.eqb (oi_orderId r1) (o_id order)
                                          && same_value (oi_flowerId r1) (Fin fid))
                               (orderItems (view s (Some ws))) = true) as Hex.
                     { apply existsb_exists. exists r0. split; [exact Hin|].
                       rewrite Hid, Z.eqb_refl, same_value_sym, Ek. reflexivity. }
                     cbn [oi_orderId oi_flowerId] in El. rewrite Hex in El. discriminate.
                 --- apply Hfree; [apply in_or_app; left; exact Hin | exact Hid].
      * step_run. intros H; inversion H; subst.
        split; [apply rolled_back_committed|]. split; reflexivity.
    + step_run. intros H; inversion H; subst.
      split; [apply rolled_back_committed|]. split; reflexivity.
Qed.

Lemma staff_post_run (rq : staff_request) (s : store) resp l' s' :
  run (Orders.post rq) None s = (resp, l', s') ->
  l' = None /\ (next_order s <= next_order s')%Z /\
  ((committed s' = committed s /\ (status resp = 400%Z \/ status resp = 500%Z)) \/
   (exists items, sr_items rq = Some items /\ items <> [] /\
                  staff_placed rq items s resp s')).
Proof.
  intros H0.
  assert (Hrest : l' = None /\
    ((committed s' = committed s /\ (status resp = 400%Z \/ status resp = 500%Z)) \/
     (exists items, sr_items rq = Some items /\ items <> [] /\
                    staff_placed rq items s resp s'))).
  { revert H0. unfold Orders.post.
    destruct (sr_customerId rq) as [customerId|] eqn:Hid;
      [| simpl; intros H; inversion H; subst; repeat split; left; auto].
    destruct (sr_items rq) as [[| first others] |] eqn:Hi;
      try (simpl; intros H; inversion H; subst; repeat split; left; auto).
    destruct (falsy (Fin customerId)) eqn:Hz;
      [simpl; intros H; inversion H; subst; repeat split; left; auto|].
    step_run. unfold Orders.place. step_run.
    change (view s (Some [])) with (committed s).
    destruct (find_customer_pk (committed s) (Fin customerId)) as [customer|] eqn:Hc.
    - destruct (c_isActive customer) eqn:Ha; cbn [negb].
      + step_run.
        match goal with |- context [run (Orders.reserve ?o ?its (Fin 0)) (Some ?w) ?st] =>
          destruct (run (Orders.reserve o its (Fin 0)) (Some w) st) as [[rr lr] sr] eqn:Hr end.
        apply staff_reserve_run in Hr. destruct Hr as [Hcr Hr].
        cbn [committed] in Hcr.
        destruct rr as [total | resp0 | e].
        * destruct Hr as (-> & ws' & -> & Hres & _ & Hd). step_run. simpl.
          intros H; inversion H; subst; clear H.
          split; [reflexivity|]. right.
          exists (first :: others). split; [reflexivity|]. split; [discriminate|].
          cbn [o_id] in Hres. rewrite view_snoc in Hres. same_view s.
          change (view s (Some [])) with (committed s) in Hres.
          exists customerId, customer, (view s (Some ws')), total.
          split; [exact Hid|]. split; [exact Hc|].
          split; [exact Hres|]. split; [exact Hd|].
          cbn [committed next_order o_id]. rewrite view_snoc. same_view s.
          repeat split.
        * destruct Hr as [-> Hst]. simpl. intros H; inversion H; subst.
          split; [reflexivity|]. left. auto.
        * destruct Hr as [-> ->]. unfold Orders.rescue. step_run. simpl.
          intros H; inversion H; subst.
          split; [reflexivity|]. left.
          split; [rewrite rolled_back_committed; reflexivity | auto].
      + step_run. simpl. intros H; inversion H; subst.
        split; [reflexivity|]. left. auto.
    - step_run. simpl. intros H; inversion H; subst.
      split; [reflexivity|]. left. auto. }
  destruct Hrest as [-> Hrest]. split; [reflexivity|]. split; [| exact Hrest].
  exact (run_counter _ _ _ _ H0).
Qed.

(** X1. A staff order that is not placed leaves the committed tables as they
    were, whatever made it fail (missing fields, an unknown customer, a
    flower that is not on sale or is short, a second line for a flower), and
    its transaction is closed. *)
Theorem staff_order_failure_atomic (rq : staff_request) (s : store) resp l' s' :
  run (Orders.post rq) None s = (resp, l', s') ->
  status resp <> 201%Z ->
  committed s' = committed s /\ l' = None.
Proof.
  intros H Hst. apply staff_post_run in H.
  destruct H as [-> [_ [[Hc _] | (items & _ & _ & Hp)]]].
  - split; [exact Hc | reflexivity].
  - destruct Hp as (? & ? & ? & ? & _ & _ & _ & _ & _ & _ & ->). contradiction.
Qed.

(** X1 on an example: a rose is reserved, then twenty tulips are refused. *)
Lemma staff_order_failure_atomic_witness :
  let '(resp, l', s') :=
    run (Orders.post (Example.staff_cart 1 [mkStaffItem 7 1; mkStaffItem 1 20]))
        None Example.shop in
  status resp = 400%Z /\ committed s' = committed Example.shop /\ l' = None.
Proof.
  split; [reflexivity|].
  refine (staff_order_failure_atomic
            (Example.staff_cart 1 [mkStaffItem 7 1; mkStaffItem 1 20])
            Example.shop _ _ _ eq_refl _).
  vm_compute. discriminate.
Defined.

(** X2. The staff route never places an order from a cart that names a
    flower twice: the second line for the flower breaks the primary key of
    the lines, and the call answers without committing anything. *)
Theorem staff_repeated_flower_refused (rq : staff_request) (items : list staff_item)
    (s : store) resp l' s' :
  run (Orders.post rq) None s = (resp, l', s') ->
  sr_items rq = Some items ->
  ~ distinct (staff_entries items) ->
  status resp <> 201%Z /\ committed s' = committed s /\ l' = None.
Proof.
  intros H Hi Hrep.
  assert (Hst : status resp <> 201%Z).
  { intros Hst. pose proof H as H0. apply staff_post_run in H0.
    destruct H0 as [_ [_ [[_ [E | E]] | (items' & Hi' & _ & Hp)]]];
      try (rewrite E in Hst; discriminate).
    rewrite Hi in Hi'. inversion Hi'; subst items'.
    destruct Hp as (? & ? & ? & ? & _ & _ & _ & Hd & _). contradiction. }
  split; [exact Hst|]. apply staff_post_run in H.
  destruct H as [-> [_ [[Hc _] | (items' & _ & _ & Hp)]]].
  - split; [exact Hc | reflexivity].
  - destruct Hp as (? & ? & ? & ? & _ & _ & _ & _ & _ & _ & ->). contradiction.
Qed.

(** X2 on an example: tulips twice, 2 and 3. *)
Lemma staff_repeated_flower_refused_witness :
  let '(resp, l', s') :=
    run (Orders.post (Example.staff_cart 1 [mkStaffItem 1 2; mkStaffItem 1 3]))
        None Example.shop in
  status resp <> 201%Z /\ committed s' = committed Example.shop /\ l' = None.
Proof.
  refine (staff_repeated_flower_refused
            (Example.staff_cart 1 [mkStaffItem 1 2; mkStaffItem 1 3])
            [mkStaffItem 1 2; mkStaffItem 1 3] Example.shop _ _ _ eq_refl eq_refl _).
  intros [Hn _]. discriminate Hn.
Defined.

(** X3. A staff order for a customer id under which there is no active
    customer, unknown or soft-deleted, is answered 400 [Invalid customer]
    before anything is written: the store is as it was, counters included. *)
Theorem staff_order_needs_active_customer (rq : staff_request) (customerId : Q)
    (items : list staff_item) (s : store) :
  sr_customerId rq = Some customerId ->
  falsy (Fin customerId) = false ->
  sr_items rq = Some items -> items <> [] ->
  find_customer_pk (committed s) (Fin customerId) = None ->
  run (Orders.post rq) None s =
    (json 400 [("msg"%string, JString "Invalid customer")], None, s).
Proof.
  intros Hid Hz Hi Hne Hc. unfold Orders.post. rewrite Hid, Hi, Hz.
  destruct items as [| first others]; [contradiction|].
  step_run. unfold Orders.place. step_run.
  change (view s (Some [])) with (committed s). rewrite Hc. step_run. reflexivity.
Qed.

(** X3 on an example: Bob, customer 2, is soft-deleted. *)
Lemma staff_order_needs_active_customer_witness :
  run (Orders.post (Example.staff_cart 2 [mkStaffItem 7 1])) None Example.shop =
    (json 400 [("msg"%string, JString "Invalid customer")], None, Example.shop).
Proof.
  refine (staff_order_needs_active_customer
            (Example.staff_cart 2 [mkStaffItem 7 1]) 2 [mkStaffItem 7 1] Example.shop
            eq_refl eq_refl eq_refl _ eq_refl).
  discriminate.
Defined.

(** ** The tables after a placed staff order *)

Lemma staff_placed_tables (rq : staff_request) (items : list staff_item)
    (s : store) (resp : response) (s' : store) :
  wf_store s ->
  staff_placed rq items s resp s' ->
  exists customer new total,
    let order := mkOrder (next_order s) (c_id customer) "pending" total
                         (Plain (sr_notes rq)) in
    c_isActive customer = true /\
    In customer (customers (committed s)) /\
    customers (committed s') = customers (committed s) /\
    orders (committed s') = orders (committed s) ++ [order] /\
    orderItems (committed s') = orderItems (committed s) ++ new /\
    map f_static (flowers (committed s')) = map f_static (flowers (committed s)) /\
    map line_key new = staff_entries items /\
    Forall (fun it => oi_orderId it = next_order s /\
                      price_of (committed s) (oi_flowerId it) = Some (oi_price it)) new /\
    total = fold_left add_line new (Fin 0) /\
    items_of (committed s') (next_order s) = new /\
    resp = mkResponse 201 (OrderJson (find_order (committed s') (of_Z (next_order s)))) /\
    Forall (in_stock (committed s)) (staff_entries items) /\
    stock_taken (staff_entries items) (committed s) (committed s').
Proof.
  intros [Hwo Hwi] (customerId & customer & t2 & total & _ & Hc & Hres & Hd & Hs' & Hn & ->).
  destruct Hres as (Hrc & Hro & Hrs & new & Hri & Hk & Hf & Ht & Hst).
  specialize (Hst Hd).
  cbn [apply_write customers orders orderItems flowers] in Hrc, Hro, Hrs, Hri.
  assert (Hord : orders (committed s') =
                 orders (committed s) ++
                 [mkOrder (next_order s) (c_id customer) "pending" total (Plain (sr_notes rq))]).
  { rewrite Hs'. cbn [apply_write orders]. rewrite Hro, map_app. f_equal.
    - apply map_id_on. eapply Forall_impl; [| exact Hwo]. intros o Ho. cbn beta in *.
      destruct (Z.eqb_spec (o_id o) (next_order s)); [lia | reflexivity].
    - cbn. now rewrite Z.eqb_refl. }
  assert (Hitems : orderItems (committed s') = orderItems (committed s) ++ new).
  { rewrite Hs'. cbn [apply_write orderItems]. exact Hri. }
  assert (Hio : items_of (committed s') (next_order s) = new).
  { unfold items_of. rewrite Hitems, filter_app, filter_none, filter_all; auto.
    - eapply Forall_impl; [| exact Hf]. intros it [-> _]. apply Z.eqb_refl.
    - eapply Forall_impl; [| exact Hwi]. intros it Hit. cbn beta in *.
      destruct (Z.eqb_spec (oi_orderId it) (next_order s)); [lia | reflexivity]. }
  unfold find_customer_pk in Hc. pose proof (find_some _ _ Hc) as [Hcin Hcact].
  apply andb_true_iff in Hcact. destruct Hcact as [_ Hcact].
  exists customer, new, total. cbn zeta.
  split; [exact Hcact|]. split; [exact Hcin|].
  split; [rewrite Hs'; exact Hrc|]. split; [exact Hord|]. split; [exact Hitems|].
  split; [rewrite Hs'; exact Hrs|]. split; [exact Hk|].
  split; [exact Hf|]. split; [exact Ht|]. split; [exact Hio|].
  split; [reflexivity|].
  destruct Hst as [Hin Htk]. split; [exact Hin|].
  intros k. rewrite <- Htk, Hs'. reflexivity.
Qed.

(** X4. The books of a staff order whose items give a flower id and a
    quantity as numbers.  Whatever the route answers, the tables stay well
    numbered.  When it answers 201, the order it committed has one line per
    item of the cart, in the order of the cart and for the quantity of the
    item, each at the catalog price; its total is what the loop added up,
    line after line from 0, [total += price * quantity]; each stock went down
    by the quantity of its item; and the customer of the order is an active
    customer. *)
Theorem staff_order_keeps_books (rq : staff_request) (s : store) resp l' s' :
  wf_store s ->
  run (Orders.post rq) None s = (resp, l', s') ->
  wf_store s' /\
  (status resp = 201%Z ->
   exists items order customer,
     sr_items rq = Some items /\
     In order (orders (committed s')) /\
     o_id order = next_order s /\
     In customer (customers (committed s)) /\ c_isActive customer = true /\
     o_customerId order = c_id customer /\
     map line_key (items_of (committed s') (o_id order)) = staff_entries items /\
     o_total order = fold_left add_line (items_of (committed s') (o_id order)) (Fin 0) /\
     Forall (fun it => price_of (committed s) (oi_flowerId it) = Some (oi_price it))
            (items_of (committed s') (o_id order)) /\
     stock_taken (staff_entries items) (committed s) (committed s')).
Proof.
  intros Hwf H. pose proof Hwf as [Hwo Hwi]. apply staff_post_run in H.
  destruct H as [_ [Hle [[Hc Hst] | (items & Hi & _ & Hp)]]].
  - split.
    + unfold wf_store. rewrite Hc.
      split; [eapply Forall_impl; [| exact Hwo] | eapply Forall_impl; [| exact Hwi]];
        cbn beta; intros; lia.
    + intros E. destruct Hst as [E' | E']; rewrite E' in E; discriminate.
  - pose proof Hp as (_ & _ & _ & _ & _ & _ & _ & _ & _ & Hn & _).
    destruct (staff_placed_tables _ _ _ _ _ Hwf Hp)
      as (customer & new & total & Hact & Hcin & _ & Ho & Hit & _ & Hk & Hf & Ht & Hio
          & _ & _ & Htk).
    split.
    + split.
      * rewrite Ho, Hn. apply Forall_app. split.
        -- eapply Forall_impl; [| exact Hwo]. cbn beta; intros; lia.
        -- constructor; [cbn [o_id]; lia | constructor].
      * rewrite Hit, Hn. apply Forall_app. split.
        -- eapply Forall_impl; [| exact Hwi]. cbn beta; intros; lia.
        -- eapply Forall_impl; [| exact Hf]. cbn beta; intros it [-> _]. lia.
    + intros _.
      exists items,
        (mkOrder (next_order s) (c_id customer) "pending" total (Plain (sr_notes rq))),
        customer.
      cbn [o_id o_total o_customerId]. rewrite Hio.
      split; [exact Hi|].
      split; [rewrite Ho; apply in_or_app; right; left; reflexivity|].
      repeat split; auto.
      eapply Forall_impl; [| exact Hf]. intros it [_ Hprice]. exact Hprice.
Qed.

(** X4 on an example: a rose and two tulips for Alice. *)
Lemma staff_order_keeps_books_witness :
  let '(resp, _, s') :=
    run (Orders.post (Example.staff_cart 1 [mkStaffItem 7 1; mkStaffItem 1 2]))
        None Example.shop in
  status resp = 201%Z /\
  wf_store s' /\
  map line_key (items_of (committed s') 1%Z) = [(Fin 7, Fin 1); (Fin 1, Fin 2)].
Proof.
  pose proof (staff_order_keeps_books
                (Example.staff_cart 1 [mkStaffItem 7 1; mkStaffItem 1 2]) Example.shop
                _ _ _ example_shop_wf eq_refl) as (Hwf & Hnew).
  split; [reflexivity|]. split; [exact Hwf|].
  destruct (Hnew eq_refl) as (items & order & customer & Hi & _ & Hid & _ & _ & _ & Hk & _).
  inversion Hi; subst items. rewrite Hid in Hk. exact Hk.
Defined.

(** ** The two loops, entry by entry *)

(** X5. Entry by entry the two routes reserve alike: the loop of the staff
    route over its items does what the loop of the shop route does over the
    same entries, unmerged.  Both leave the same transaction and the same
    store, and they go on with the same total, throw the same error, or
    leave with a refusal of the same status; the lock on the read and the
    wording of the refusals are all that differs. *)
Theorem loops_reserve_alike (order : Order) (items : list staff_item) :
  forall (total : num) (l : txn) (s : store),
    let '(r1, l1, s1) := run (Orders.reserve order items total) l s in
    let '(r2, l2, s2) := run (Shop.reserve order (staff_entries items) total) l s in
    l1 = l2 /\ s1 = s2 /\
    match r1, r2 with
    | Next a, Next b => a = b
    | Return x, Return y => status x = status y
    | Throw e1, Throw e2 => e1 = e2
    | _, _ => False
    end.
Proof.
  induction items as [| [fid q] rest IH]; intros total l s.
  - simpl. auto.
  - cbn [Orders.reserve Shop.reserve staff_entries map s_flowerId s_quantity].
    fold (staff_entries rest). step_run.
    destruct (find_flower (view s l) (Fin fid)) as [f|].
    + destruct (f_isActive f); cbn [negb].
      * destruct (nlt (f_stock f) (Fin q)).
        -- step_run. auto.
        -- step_run. destruct (line_exists (view s l) _).
           ++ simpl. auto.
           ++ destruct l as [ws|]; step_run; apply IH.
      * step_run. auto.
    + step_run. auto.
Qed.

(** ** The shop loop past the entries it can serve *)

Lemma distinct_app_keys (pre rest : jsmap) :
  distinct (pre ++ rest) ->
  distinct rest /\
  Forall (fun kv => map_get pre (fst kv) = None) rest.
Proof.
  induction pre as [| [k0 v0] pre IH]; cbn [app distinct].
  - intros Hd. split; [exact Hd|]. apply Forall_forall. reflexivity.
  - intros [Hn Hd]. destruct (IH Hd) as [Hr Hk]. split; [exact Hr|].
    apply map_get_none_in, Forall_app in Hn. destruct Hn as [_ Hn].
    rewrite Forall_forall in *. intros kv Hin. cbn [map_get].
    rewrite (Hn kv Hin). apply Hk, Hin.
Qed.

(** The loop serves the entries [pre] and comes to the entries [rest] with
    the flowers of [rest] as they were and no line yet for any of them. *)
Lemma shop_reserve_prefix (order : Order) (pre : jsmap) :
  forall (total : num) (ws : list write) (s : store) (rest : jsmap),
    distinct (pre ++ rest) ->
    (forall r, In r (orderItems (view s (Some ws))) -> oi_orderId r = o_id order ->
               map_get (pre ++ rest) (oi_flowerId r) = None) ->
    Forall (in_stock (view s (Some ws))) pre ->
    exists total' ws',
      run (Shop.reserve order (pre ++ rest) total) (Some ws) s =
      run (Shop.reserve order rest total') (Some ws') s /\
      (forall r, In r (orderItems (view s (Some ws'))) -> oi_orderId r = o_id order ->
                 map_get rest (oi_flowerId r) = None) /\
      Forall (fun kv => find_flower (view s (Some ws')) (fst kv) =
                        find_flower (view s (Some ws)) (fst kv)) rest.
Proof.
  induction pre as [| [k0 q0] pre IH]; intros total ws s rest Hd Hfree Hin.
  - exists total, ws. cbn [app] in *. repeat split; auto.
    apply Forall_forall. reflexivity.
  - cbn [app Shop.reserve]. step_run.
    inversion Hin as [| ? ? (f0 & Hf0 & Hs0) Hin']; subst. cbn [fst snd] in *.
    destruct Hd as [Hn Hd].
    rewrite Hf0. destruct (find_flower_some _ _ _ Hf0) as [_ ->]. cbn [negb]. rewrite Hs0.
    step_run.
    rewrite (line_free _ ((k0, q0) :: pre ++ rest) _ q0); cycle 1.
    { exact Hfree. }
    { cbn. now rewrite same_value_refl. }
    step_run.
    pose proof (map_get_none_in _ _ Hn) as Hother.
    apply Forall_app in Hother. destruct Hother as [Hpre Hrest].
    destruct (IH (nadd total (nmul (f_price f0) q0))
                 ((ws ++ [InsertOrderItem (mkOrderItem (o_id order) k0 q0 (f_price f0))])
                  ++ [SetStock (f_id f0) (nsub (f_stock f0) q0)]) s rest Hd)
      as (total' & ws' & Hrun & Hfree' & Hsame).
    + intros r Hr Hid. rewrite !view_snoc in Hr. cbn [apply_write orderItems] in Hr.
      apply in_app_or in Hr. destruct Hr as [Hr | [<- | []]].
      * specialize (Hfree r Hr Hid). cbn [app map_get] in Hfree.
        destruct (same_value k0 (oi_flowerId r)); [discriminate | exact Hfree].
      * exact Hn.
    + rewrite Forall_forall in *. intros kv Hkv.
      destruct (Hin' kv Hkv) as (g & Hg & Hgs). exists g. split; [| exact Hgs].
      rewrite !view_snoc, <- Hg. apply (find_flower_other _ _ _ k0 Hf0); auto.
    + exists total', ws'. split; [exact Hrun|]. split; [exact Hfree'|].
      rewrite Forall_forall in *. intros kv Hkv. rewrite (Hsame kv Hkv).
      rewrite !view_snoc. apply (find_flower_other _ _ _ k0 Hf0); auto.
Qed.

Lemma unavailable_run (user : principal) (rq : shop_request) (s : store)
    (items : list entry) (pre post : jsmap) (k q : num) :
  wf_store s ->
  present (u_email user) = true ->
  rq_items rq = Some items -> items <> [] ->
  present (rq_contactPhone rq) = true ->
  Shop.merge (flat items) [] = Some (pre ++ (k, q) :: post) ->
  Forall (in_stock (committed s)) pre ->
  find_flower (committed s) k = None ->
  exists s',
    run (Shop.post_orders user rq) None s =
      (json 400 [("msg"%string, JTemplate "Flower " k " unavailable")], None, s') /\
    committed s' = committed s.
Proof.
  intros [_ Hwi] Hmail Hi Hne Hph Hm Hin Hf.
  unfold Shop.post_orders. rewrite Hi, Hph.
  destruct items as [| first others]; [contradiction|]. cbn [negb].
  step_run. unfold Shop.place. step_run.
  destruct (run (Shop.getOrCreateCustomerProfile user) (Some []) s) as [[rc lc] sc] eqn:Hc.
  pose proof (profile_run _ _ _ _ _ _ Hc) as (Hcc & Hno & Hrc).
  destruct rc as [customer | resp | e]; [| contradiction |
    apply profile_throws in Hc; rewrite Hc in Hmail; discriminate].
  destruct Hrc as (cw & -> & _ & Hfl & _ & Hoi). cbn [app] in *.
  change (view s (Some [])) with (committed s) in Hfl, Hoi.
  step_run. rewrite Hm. step_run.
  match goal with |- context [run (Shop.reserve ?o _ ?t) (Some ?w) ?st] =>
    destruct (shop_reserve_prefix o pre t w st ((k, q) :: post))
      as (total' & ws' & Hrun & _ & Hsame)
  end.
  - exact (proj1 (merge_cart _ _ Hm)).
  - intros r Hr Hid. exfalso. rewrite view_snoc in Hr. cbn [apply_write orderItems] in Hr.
    same_view sc. rewrite Hoi in Hr.
    rewrite Forall_forall in Hwi. specialize (Hwi r Hr). cbn [o_id] in Hid. lia.
  - eapply Forall_impl; [| exact Hin]. intros kv (g & Hg & Hgs). exists g.
    split; [| exact Hgs]. rewrite <- Hg. unfold find_flower. rewrite view_snoc.
    cbn [apply_write flowers]. same_view sc. now rewrite Hfl.
  - rewrite Hrun. cbn [Shop.reserve]. step_run.
    inversion Hsame as [| ? ? Hk _]; subst. cbn [fst] in Hk. rewrite Hk.
    replace (find_flower _ k) with (@None Flower).
    + step_run. eexists. split; [reflexivity|].
      rewrite rolled_back_committed. exact Hcc.
    + rewrite <- Hf. unfold find_flower. rewrite view_snoc.
      cbn [apply_write flowers]. same_view sc. now rewrite Hfl.
Qed.

(** X6. When the merged cart reaches a flower that is not on sale, missing
    or soft-deleted, the flowers before it being in stock, the shop route
    answers 400 with the single field [msg], which quotes the flower id, and
    nothing is committed. *)
Theorem unavailable_flower_response (user : principal) (rq : shop_request) (s : store)
    (items : list entry) (pre post : jsmap) (k q : num) :
  wf_store s ->
  present (u_email user) = true ->
  rq_items rq = Some items -> items <> [] ->
  present (rq_contactPhone rq) = true ->
  Shop.merge (flat items) [] = Some (pre ++ (k, q) :: post) ->
  Forall (in_stock (committed s)) pre ->
  find_flower (committed s) k = None ->
  exists s',
    run (Shop.post_orders user rq) None s =
      (json 400 [("msg"%string, JTemplate "Flower " k " unavailable")], None, s') /\
    committed s' = committed s.
Proof. exact (unavailable_run user rq s items pre post k q). Qed.

(** X6 on an example: two roses can be served; there is no flower 9. *)
Lemma unavailable_flower_response_witness :
  exists s',
    run (Shop.post_orders Example.alice_user
           (Example.cart None [Example.line 7 2; Example.line 9 1]))
        None Example.shop =
      (json 400 [("msg"%string, JTemplate "Flower " (Fin 9) " unavailable")], None, s') /\
    committed s' = committed Example.shop.
Proof.
  refine (unavailable_flower_response Example.alice_user
            (Example.cart None [Example.line 7 2; Example.line 9 1]) Example.shop
            [Example.line 7 2; Example.line 9 1]
            [(Fin 7, Fin 2)] [] (Fin 9) (Fin 1)
            example_shop_wf eq_refl eq_refl _ eq_refl eq_refl _ eq_refl).
  - discriminate.
  - constructor; [| constructor]. exists Example.rose. split; reflexivity.
Defined.

(** ** Carts that can be served *)

Lemma stocked_cart_run (user : principal) (rq : shop_request) (s : store)
    (items : list entry) (merged : jsmap) :
  wf_store s ->
  present (u_email user) = true ->
  rq_items rq = Some items -> items <> [] ->
  present (rq_contactPhone rq) = true ->
  Shop.merge (flat items) [] = Some merged ->
  Forall (in_stock (committed s)) merged ->
  exists resp s',
    run (Shop.post_orders user rq) None s = (resp, None, s') /\ status resp = 201%Z.
Proof.
  intros [_ Hwi] Hmail Hi Hne Hph Hm Hin.
  unfold Shop.post_orders. rewrite Hi, Hph.
  destruct items as [| first others]; [contradiction|]. cbn [negb].
  step_run. unfold Shop.place. step_run.
  destruct (run (Shop.getOrCreateCustomerProfile user) (Some []) s) as [[rc lc] sc] eqn:Hc.
  pose proof (profile_run _ _ _ _ _ _ Hc) as (Hcc & Hno & Hrc).
  destruct rc as [customer | resp | e]; [| contradiction |
    apply profile_throws in Hc; rewrite Hc in Hmail; discriminate].
  destruct Hrc as (cw & -> & _ & Hfl & _ & Hoi). cbn [app] in *.
  change (view s (Some [])) with (committed s) in Hfl, Hoi.
  step_run. rewrite Hm. step_run.
  match goal with |- context [run (Shop.reserve ?o _ ?t) (Some ?w) ?st] =>
    destruct (shop_reserve_prefix o merged t w st [])
      as (total' & ws' & Hrun & _ & _)
  end.
  - rewrite app_nil_r. exact (proj1 (merge_cart _ _ Hm)).
  - intros r Hr Hid. exfalso. rewrite view_snoc in Hr. cbn [apply_write orderItems] in Hr.
    same_view sc. rewrite Hoi in Hr.
    rewrite Forall_forall in Hwi. specialize (Hwi r Hr). cbn [o_id] in Hid. lia.
  - eapply Forall_impl; [| exact Hin]. intros kv (g & Hg & Hgs). exists g.
    split; [| exact Hgs]. rewrite <- Hg. unfold find_flower. rewrite view_snoc.
    cbn [apply_write flowers]. same_view sc. now rewrite Hfl.
  - rewrite app_nil_r in Hrun. rewrite Hrun. cbn [Shop.reserve]. step_run. simpl.
    eexists. eexists. split; reflexivity.
Qed.

(** X7. The shop route does place the orders it can serve: a request with
    a cart, a contact phone and a principal with an email, whose items all
    pass validation and whose merged quantities are all in stock, is answered
    201, with its transaction closed. *)
Theorem stocked_cart_is_placed (user : principal) (rq : shop_request) (s : store)
    (items : list entry) (merged : jsmap) :
  wf_store s ->
  present (u_email user) = true ->
  rq_items rq = Some items -> items <> [] ->
  present (rq_contactPhone rq) = true ->
  Shop.merge (flat items) [] = Some merged ->
  Forall (in_stock (committed s)) merged ->
  exists resp s',
    run (Shop.post_orders user rq) None s = (resp, None, s') /\ status resp = 201%Z.
Proof. exact (stocked_cart_run user rq s items merged). Qed.

(** X7 on an example: Carol, who has no profile yet, orders a rose and two
    tulips. *)
Lemma stocked_cart_is_placed_witness :
  exists resp s',
    run (Shop.post_orders Example.carol_user
           (Example.cart None [Example.line 7 1; Example.line 1 2]))
        None Example.shop = (resp, None, s') /\ status resp = 201%Z.
Proof.
  refine (stocked_cart_is_placed Example.carol_user
            (Example.cart None [Example.line 7 1; Example.line 1 2]) Example.shop
            [Example.line 7 1; Example.line 1 2] [(Fin 7, Fin 1); (Fin 1, Fin 2)]
            example_shop_wf eq_refl eq_refl _ eq_refl eq_refl _).
  - discriminate.
  - constructor; [exists Example.rose; split; reflexivity|].
    constructor; [exists Example.tulip; split; reflexivity | constructor].
Defined.

(** X8. A cart that is not empty but flattens to nothing, being made of
    empty arrays, passes the check on [items] and is placed: the route answers
    201 and commits an order with no line and a total of zero. *)
Theorem hollow_cart_places_empty_order (user : principal) (rq : shop_request) (s : store)
    (items : list entry) :
  wf_store s ->
  present (u_email user) = true ->
  rq_items rq = Some items -> items <> [] -> flat items = [] ->
  present (rq_contactPhone rq) = true ->
  exists resp s' order,
    run (Shop.post_orders user rq) None s = (resp, None, s') /\
    status resp = 201%Z /\
    In order (orders (committed s')) /\ o_id order = next_order s /\
    o_total order = Fin 0 /\
    items_of (committed s') (next_order s) = [] /\
    orderItems (committed s') = orderItems (committed s).
Proof.
  intros Hwf Hmail Hi Hne Hflat Hph.
  assert (Hm : Shop.merge (flat items) [] = Some []) by (rewrite Hflat; reflexivity).
  destruct (stocked_cart_run user rq s items [] Hwf Hmail Hi Hne Hph Hm (Forall_nil _))
    as (resp & s' & Hrun & Hst).
  destruct (placed_call _ _ _ _ _ _ Hrun Hst) as (items' & Hi' & Hp).
  rewrite Hi in Hi'. inversion Hi'; subst items'.
  destruct (placed_tables _ _ _ _ _ _ Hwf Hp)
    as (customer & cw & sc & merged & new & total & _ & Hm' & _ & Ho & Hit & _ & Hk & _ & Ht
        & Hio & _).
  rewrite Hm in Hm'. injection Hm' as Hm'. rewrite <- Hm' in Hk.
  destruct new; [| discriminate Hk]. cbn [fold_left] in Ht. subst total.
  exists resp, s'. eexists. split; [exact Hrun|]. split; [exact Hst|].
  split; [rewrite Ho; apply in_or_app; right; left; reflexivity|].
  rewrite app_nil_r in Hit. repeat split; auto.
Qed.

(** X8 on an example: a cart of one empty array. *)
Lemma hollow_cart_places_empty_order_witness :
  exists resp s' order,
    run (Shop.post_orders Example.alice_user (Example.cart None [Nested []]))
        None Example.shop = (resp, None, s') /\
    status resp = 201%Z /\
    In order (orders (committed s')) /\ o_id order = 1%Z /\
    o_total order = Fin 0 /\
    items_of (committed s') 1%Z = [] /\
    orderItems (committed s') = orderItems (committed Example.shop).
Proof.
  refine (hollow_cart_places_empty_order Example.alice_user
            (Example.cart None [Nested []]) Example.shop [Nested []]
            example_shop_wf eq_refl eq_refl _ eq_refl eq_refl).
  discriminate.
Defined.

(** X9. A principal without an email cannot order: the profile lookup throws,
    the transaction is rolled back and the route answers 400 with the message
    of the error; the store is as it was, counters included. *)
Theorem missing_email_refused (user : principal) (rq : shop_request) (s : store)
    (items : list entry) :
  rq_items rq = Some items -> items <> [] ->
  present (rq_contactPhone rq) = true ->
  present (u_email user) = false ->
  run (Shop.post_orders user rq) None s =
    (json 400 [("msg"%string, JString "Authenticated user is missing an email");
               ("error"%string, JString "Authenticated user is missing an email")],
     None, s).
Proof.
  intros Hi Hne Hph Hmail. unfold Shop.post_orders. rewrite Hi, Hph.
  destruct items as [| first others]; [contradiction|]. cbn [negb].
  step_run. unfold Shop.place, Shop.getOrCreateCustomerProfile. rewrite Hmail.
  cbn [negb]. step_run. simpl. reflexivity.
Qed.

(** X9 on an example: a token without an email. *)
Lemma missing_email_refused_witness :
  run (Shop.post_orders (mkPrincipal 15 None (Some "Eve"%string) "customer")
         (Example.cart None [Example.line 7 1]))
      None Example.shop =
    (json 400 [("msg"%string, JString "Authenticated user is missing an email");
               ("error"%string, JString "Authenticated user is missing an email")],
     None, Example.shop).
Proof.
  refine (missing_email_refused (mkPrincipal 15 None (Some "Eve"%string) "customer")
            (Example.cart None [Example.line 7 1]) Example.shop [Example.line 7 1]
            eq_refl _ eq_refl eq_refl).
  discriminate.
Defined.

(** ** Stock is never driven below zero *)

Lemma map_get_in (m : jsmap) (k q : num) :
  map_get m k = Some q -> exists k', In (k', q) m /\ same_value k' k = true.
Proof.
  induction m as [| [k0 v0] rest IH]; simpl; [discriminate|].
  destruct (same_value k0 k) eqn:E; intros H.
  - inversion H; subst. exists k0. split; [left; reflexivity | exact E].
  - destruct (IH H) as (k' & Hin & Hs). exists k'. split; [right; exact Hin | exact Hs].
Qed.

Lemma take_not_short (f : Flower) (q : num) :
  nlt (f_stock f) q = false -> nlt (f_stock (take q f)) (Fin 0) = false.
Proof.
  unfold take. cbn [f_stock]. destruct (f_stock f) as [| x], q as [| y]; simpl; auto.
  intros H. apply negb_false_iff in H. apply Qle_bool_iff in H.
  apply negb_false_iff. apply Qle_bool_iff. unfold Qminus.
  now apply -> Qle_minus_iff.
Qed.

Lemma taken_never_short (entries : jsmap) (t t' : tables) :
  Forall (in_stock t) entries -> stock_taken entries t t' ->
  never_short t -> never_short t'.
Proof.
  intros Hin Hst Hns k f' Hf'. rewrite Hst in Hf'.
  destruct (map_get entries k) as [q|] eqn:Hg; [| exact (Hns k f' Hf')].
  destruct (find_flower t k) as [f|] eqn:Hf; simpl in Hf'; inversion Hf'; subst f'.
  destruct (map_get_in _ _ _ Hg) as (k' & Hk' & Hs).
  rewrite Forall_forall in Hin. destruct (Hin _ Hk') as (g & Hg' & Hq).
  cbn [fst snd] in Hg', Hq. rewrite (find_flower_same t k' k Hs), Hf in Hg'.
  inversion Hg'; subst g. now apply take_not_short.
Qed.

Lemma example_never_short : never_short (committed Example.shop).
Proof.
  intros k f H. apply find_some in H. destruct H as [Hin _].
  simpl in Hin. destruct Hin as [<- | [<- | [<- | []]]]; reflexivity.
Qed.

(** X10. The shop route never drives a stock below zero: when no flower on
    sale is short before a request, whatever the request, none is after
    it. *)
Theorem shop_stock_never_negative (user : principal) (rq : shop_request) (s : store)
    (resp : response) (l' : txn) (s' : store) :
  wf_store s -> never_short (committed s) ->
  run (Shop.post_orders user rq) None s = (resp, l', s') ->
  never_short (committed s').
Proof.
  intros Hwf Hns H. apply shop_post_run in H.
  destruct H as [_ [_ [[Hc _] | (items & _ & _ & _ & Hp)]]]; [now rewrite Hc|].
  destruct (placed_tables _ _ _ _ _ _ Hwf Hp)
    as (customer & cw & sc & merged & new & total & _ & _ & _ & _ & _ & _ & _ & _ & _
        & _ & _ & _ & Hin & Hst).
  exact (taken_never_short merged _ _ Hin Hst Hns).
Qed.

(** X10 on an example: Alice takes the last lily and all six tulips. *)
Lemma shop_stock_never_negative_witness :
  let '(resp, l', s') :=
    run (Shop.post_orders Example.alice_user
           (Example.cart None [Example.line 3 1; Example.line 1 6]))
        None Example.shop in
  never_short (committed s').
Proof.
  refine (shop_stock_never_negative Example.alice_user
            (Example.cart None [Example.line 3 1; Example.line 1 6])
            Example.shop _ _ _ example_shop_wf example_never_short eq_refl).
Defined.

(** X11. Nor does the staff route: when no flower on sale is short before a
    request, none is after it. *)
Theorem staff_stock_never_negative (rq : staff_request) (s : store)
    (resp : response) (l' : txn) (s' : store) :
  wf_store s -> never_short (committed s) ->
  run (Orders.post rq) None s = (resp, l', s') ->
  never_short (committed s').
Proof.
  intros Hwf Hns H. apply staff_post_run in H.
  destruct H as [_ [_ [[Hc _] | (items & _ & _ & Hp)]]]; [now rewrite Hc|].
  destruct (staff_placed_tables _ _ _ _ _ Hwf Hp)
    as (customer & new & total & _ & _ & _ & _ & _ & _ & _ & _ & _ & _ & _ & Hin & Hst).
  exact (taken_never_short _ _ _ Hin Hst Hns).
Qed.

(** X11 on an example: the desk sells all ten roses to Alice. *)
Lemma staff_stock_never_negative_witness :
  let '(resp, l', s') :=
    run (Orders.post (Example.staff_cart 1 [mkStaffItem 7 10])) None Example.shop in
  never_short (committed s').
Proof.
  refine (staff_stock_never_negative (Example.staff_cart 1 [mkStaffItem 7 10])
            Example.shop _ _ _ example_shop_wf example_never_short eq_refl).
Defined.

(** ** The role gates *)

(** X12. The customer gate and the desk gates exclude each other: a
    principal whom [requireCustomer] lets through is turned away with 403 by
    [staff] and by [admin]. *)
Theorem customer_gate_shuts_desk (user : option principal) :
  Middleware.requireCustomer user = None ->
  Middleware.staff user =
    Some (json 403 [("msg"%string,
                     JString "Access denied. Staff or admin privileges required.")]) /\
  Middleware.admin user =
    Some (json 403 [("msg"%string, JString "Access denied. Admin privileges required.")]).
Proof.
  destruct user as [u|]; simpl; [| discriminate].
  destruct (String.eqb (u_role u) "customer") eqn:E; simpl; [| discriminate].
  apply String.eqb_eq in E. intros _.
  unfold Middleware.staff, Middleware.admin. simpl. rewrite E. split; reflexivity.
Qed.

(** X12 on an example: Alice, a customer. *)
Lemma customer_gate_shuts_desk_witness :
  Middleware.staff (Some Example.alice_user) =
    Some (json 403 [("msg"%string,
                     JString "Access denied. Staff or admin privileges required.")]) /\
  Middleware.admin (Some Example.alice_user) =
    Some (json 403 [("msg"%string, JString "Access denied. Admin privileges required.")]).
Proof. exact (customer_gate_shuts_desk (Some Example.alice_user) eq_refl). Defined.

(** X13. The staff gate lets through the principals of role [staff] or
    [admin] and no other; so whoever passes the admin gate passes the staff
    gate, and nobody passes the staff gate and the customer gate. *)
Theorem staff_gate_roles (user : option principal) :
  (Middleware.staff user = None <->
   exists u, user = Some u /\ (u_role u = "staff"%string \/ u_role u = "admin"%string)) /\
  (Middleware.admin user = None -> Middleware.staff user = None) /\
  (Middleware.staff user = None -> Middleware.requireCustomer user <> None).
Proof.
  assert (Hs : Middleware.staff user = None <->
               exists u, user = Some u /\
                         (u_role u = "staff"%string \/ u_role u = "admin"%string)).
  { unfold Middleware.staff. destruct user as [u|]; simpl.
    - destruct (String.eqb_spec (u_role u) "staff") as [E1 | E1]; simpl.
      + split; [intros _; exists u; auto | reflexivity].
      + destruct (String.eqb_spec (u_role u) "admin") as [E2 | E2]; simpl.
        * split; [intros _; exists u; auto | reflexivity].
        * split; [discriminate|]. intros (u' & Hu & [H | H]); inversion Hu; subst;
            contradiction.
    - split; [discriminate | intros (u & Hu & _); discriminate]. }
  split; [exact Hs|]. split.
  - intros H. apply Hs. unfold Middleware.admin in H. destruct user as [u|]; simpl in H;
      [| discriminate].
    destruct (String.eqb_spec (u_role u) "admin"); [| discriminate]. exists u. auto.
  - intros H. apply Hs in H. destruct H as (u & -> & [E | E]); simpl; rewrite E;
      discriminate.
Qed.

(** ** Order status and deletion *)

Lemma find_filter_keep {A : Type} (p q : A -> bool) (l : list A) :
  (forall a, p a = true -> q a = true) -> find p (filter q l) = find p l.
Proof.
  intros H. induction l as [| a l IH]; simpl; auto.
  destruct (q a) eqn:Hq; simpl.
  - destruct (p a); auto.
  - destruct (p a) eqn:Hp; auto. rewrite (H a Hp) in Hq. discriminate.
Qed.

Lemma find_filter_drop {A : Type} (p q : A -> bool) (l : list A) :
  (forall a, p a = true -> q a = false) -> find p (filter q l) = None.
Proof.
  intros H. induction l as [| a l IH]; simpl; auto.
  destruct (q a) eqn:Hq; simpl; auto.
  destruct (p a) eqn:Hp; auto. rewrite (H a Hp) in Hq. discriminate.
Qed.

Lemma filter_filter_comm {A : Type} (p q : A -> bool) (l : list A) :
  filter p (filter q l) = filter q (filter p l).
Proof.
  induction l as [| a l IH]; simpl; auto.
  destruct (q a) eqn:Hq, (p a) eqn:Hp; simpl; rewrite ?Hq, ?Hp, IH; reflexivity.
Qed.

(** Two ids that match the same key are the same id. *)
Lemma pk_matches_same (a b : Z) (k : num) :
  pk_matches a k = true -> pk_matches b k = true -> a = b.
Proof.
  unfold pk_matches. intros Ha Hb.
  assert (H : same_value (of_Z a) (of_Z b) = true).
  { eapply same_value_trans; [exact Ha|]. rewrite same_value_sym. exact Hb. }
  change (pk_matches a (of_Z b) = true) in H. rewrite pk_matches_of_Z in H.
  now apply Z.eqb_eq.
Qed.

Lemma find_order_row_some (t : tables) (k : num) (o : Order) :
  find_order_row t k = Some o -> In o (orders t) /\ pk_matches (o_id o) k = true.
Proof. unfold find_order_row. apply find_some. Qed.

Lemma set_status_found (t : tables) (k : num) (st : string) (id : Z) :
  find_order_row (set_status t id st) k =
  option_map (fun o => if Z.eqb (o_id o) id then with_status st o else o)
             (find_order_row t k).
Proof.
  unfold find_order_row, set_status. cbn [orders].
  apply (find_map_stable (fun o => pk_matches (o_id o) k)
           (fun o => if Z.eqb (o_id o) id then with_status st o else o)).
  intros o. destruct (Z.eqb (o_id o) id); reflexivity.
Qed.

Lemma includes_in (l : list string) (st : string) :
  includes l (Some st) = true <-> In st l.
Proof.
  simpl. rewrite existsb_exists. split.
  - intros (x & Hin & E). apply String.eqb_eq in E. now subst.
  - intros H. exists st. split; [exact H | apply String.eqb_refl].
Qed.

Lemma consistent_static (t t' : tables) :
  orderItems t' = orderItems t ->
  map o_static (orders t') = map o_static (orders t) ->
  consistent t -> consistent t'.
Proof.
  unfold consistent, items_of. intros -> Ho.
  remember (orders t') as l' eqn:E'. remember (orders t) as l eqn:E. clear E E'.
  revert l' Ho. induction l as [| o l IH]; intros [| o' l'] Ho H; simpl in Ho;
    try discriminate; constructor.
  - inversion Ho as [[Hid Hc Ht Hn]]. inversion H; subst. rewrite Hid, Ht. assumption.
  - inversion Ho. inversion H; subst. now apply IH.
Qed.

Lemma wf_static (s s' : store) :
  next_order s' = next_order s ->
  orderItems (committed s') = orderItems (committed s) ->
  map o_static (orders (committed s')) = map o_static (orders (committed s)) ->
  wf_store s -> wf_store s'.
Proof.
  unfold wf_store. intros -> -> Ho [Hwo Hwi]. split; [| exact Hwi].
  remember (orders (committed s')) as l' eqn:E'.
  remember (orders (committed s)) as l eqn:E. clear E E'.
  revert l' Ho. induction l as [| o l IH]; intros [| o' l'] Ho; simpl in Ho;
    try discriminate; constructor.
  - inversion Ho as [[Hid Hc Ht Hn]]. inversion Hwo; subst. rewrite Hid. assumption.
  - inversion Ho. inversion Hwo; subst. now apply IH.
Qed.

Lemma set_status_static (t : tables) (id : Z) (st : string) :
  map o_static (orders (set_status t id st)) = map o_static (orders t).
Proof.
  unfold set_status. cbn [orders]. rewrite map_map. apply map_ext.
  intros o. destruct (Z.eqb (o_id o) id); reflexivity.
Qed.

(** X14. A change of status changes the status and nothing else, whatever
    the request: the flowers and their stock, the customers, the lines and the
    counters are as before, and so is every order row but for its status.  In
    particular a cancelled order keeps its flowers, and the books stay in
    order. *)
Theorem status_change_touches_status_only (id : Q) (status : option string) (s : store) :
  let s' := snd (OrderDesk.patch_status id status s) in
  flowers (committed s') = flowers (committed s) /\
  customers (committed s') = customers (committed s) /\
  orderItems (committed s') = orderItems (committed s) /\
  map o_static (orders (committed s')) = map o_static (orders (committed s)) /\
  next_order s' = next_order s /\ next_customer s' = next_customer s /\
  (wf_store s -> wf_store s') /\
  (consistent (committed s) -> consistent (committed s')).
Proof.
  assert (H : let s' := snd (OrderDesk.patch_status id status s) in
              flowers (committed s') = flowers (committed s) /\
              customers (committed s') = customers (committed s) /\
              orderItems (committed s') = orderItems (committed s) /\
              map o_static (orders (committed s')) = map o_static (orders (committed s)) /\
              next_order s' = next_order s /\ next_customer s' = next_customer s).
  { unfold OrderDesk.patch_status. destruct status as [st|]; [| simpl; auto 6].
    destruct (negb (includes OrderDesk.validStatuses (Some st))); [simpl; auto 6|].
    destruct (find_order_row (committed s) (Fin id)) as [order|]; [| simpl; auto 6].
    cbn [snd commit_now committed next_order next_customer].
    repeat split; try reflexivity. apply set_status_static. }
  cbv zeta in *. destruct H as (Hf & Hc & Hi & Ho & Hn & Hm).
  do 6 (split; [assumption|]). split; intros H.
  - now apply (wf_static s).
  - now apply (consistent_static (committed s)).
Qed.

(** X15. A valid status on an order that exists is applied: the route
    answers 200 with the row under its new status, a later lookup of the
    order finds that row, and every other order is found as before. *)
Theorem status_change_applied (id : Q) (st : string) (s : store) (order : Order) :
  In st OrderDesk.validStatuses ->
  find_order_row (committed s) (Fin id) = Some order ->
  exists s',
    OrderDesk.patch_status id (Some st) s = (OrderRow 200 (with_status st order), s') /\
    find_order_row (committed s') (Fin id) = Some (with_status st order) /\
    forall k, pk_matches (o_id order) k = false ->
              find_order_row (committed s') k = find_order_row (committed s) k.
Proof.
  intros Hin Hf. apply includes_in in Hin.
  unfold OrderDesk.patch_status. rewrite Hin, Hf. cbn [negb].
  eexists. split; [reflexivity|]. cbn [commit_now committed]. split.
  - rewrite set_status_found, Hf. cbn [option_map]. now rewrite Z.eqb_refl.
  - intros k Hk. rewrite set_status_found.
    destruct (find_order_row (committed s) k) as [o|] eqn:Ho; [| reflexivity].
    cbn [option_map]. destruct (Z.eqb_spec (o_id o) (o_id order)) as [E | E];
      [| reflexivity].
    apply find_order_row_some in Ho. destruct Ho as [_ Ho]. rewrite E, Hk in Ho.
    discriminate.
Qed.

(** X15 on an example: Bob's order is marked as shipped. *)
Lemma status_change_applied_witness :
  exists s',
    OrderDesk.patch_status 1 (Some "shipped"%string) Example.shop_with_order =
      (OrderRow 200 (with_status "shipped" Example.bobs_order), s') /\
    find_order_row (committed s') (Fin 1) = Some (with_status "shipped" Example.bobs_order) /\
    forall k, pk_matches (o_id Example.bobs_order) k = false ->
              find_order_row (committed s') k =
              find_order_row (committed Example.shop_with_order) k.
Proof.
  refine (status_change_applied 1 "shipped" Example.shop_with_order
            Example.bobs_order _ eq_refl).
  simpl. auto.
Defined.

(** X16. Changing the status is idempotent: the same request a second time
    gets the same answer and leaves the store as the first left it. *)
Theorem status_change_idempotent (id : Q) (status : option string) (s : store) :
  OrderDesk.patch_status id status (snd (OrderDesk.patch_status id status s)) =
  (fst (OrderDesk.patch_status id status s), snd (OrderDesk.patch_status id status s)).
Proof.
  unfold OrderDesk.patch_status. destruct status as [st|]; [| reflexivity].
  destruct (negb (includes OrderDesk.validStatuses (Some st))); [reflexivity|].
  destruct (find_order_row (committed s) (Fin id)) as [order|] eqn:Hf;
    cbn [fst snd]; [| now rewrite Hf].
  cbn [commit_now committed next_customer next_order].
  rewrite set_status_found, Hf. cbn [option_map]. rewrite Z.eqb_refl.
  cbn [with_status o_id o_customerId o_total o_notes]. f_equal.
  unfold commit_now. cbn [committed next_customer next_order]. f_equal.
  unfold set_status. cbn [flowers customers orders orderItems]. f_equal.
  rewrite map_map. apply map_ext. intros o.
  destruct (Z.eqb (o_id o) (o_id order)) eqn:E; cbn [o_id]; rewrite E; reflexivity.
Qed.

Lemma items_of_destroy_other (t : tables) (id oid : Z) :
  oid <> id -> items_of (destroy_order t id) oid = items_of t oid.
Proof.
  intros Hne. unfold items_of, destroy_order. cbn [orderItems].
  induction (orderItems t) as [| it l IH]; simpl; auto.
  destruct (Z.eqb_spec (oi_orderId it) id) as [E | E]; simpl.
  - destruct (Z.eqb_spec (oi_orderId it) oid); [congruence | exact IH].
  - destruct (Z.eqb (oi_orderId it) oid); [now f_equal | exact IH].
Qed.

Lemma items_of_destroy_same (t : tables) (id : Z) :
  items_of (destroy_order t id) id = [].
Proof.
  unfold items_of, destroy_order. cbn [orderItems].
  induction (orderItems t) as [| it l IH]; simpl; auto.
  destruct (Z.eqb (oi_orderId it) id) eqn:E; simpl; [exact IH|]. now rewrite E.
Qed.

Lemma Forall_filter {A : Type} (P : A -> Prop) (p : A -> bool) (l : list A) :
  Forall P l -> Forall P (filter p l).
Proof.
  induction 1 as [| a l Ha _ IH]; simpl; [constructor|].
  destruct (p a); [constructor|]; assumption.
Qed.

Lemma order_delete_tables (id : Q) (s : store) (order : Order) :
  find_order_row (committed s) (Fin id) = Some order ->
  exists s',
    OrderDesk.delete id s = (NoContent 204, s') /\
    find_order_row (committed s') (Fin id) = None /\
    items_of (committed s') (o_id order) = [] /\
    flowers (committed s') = flowers (committed s) /\
    customers (committed s') = customers (committed s) /\
    (forall k, pk_matches (o_id order) k = false ->
               find_order_row (committed s') k = find_order_row (committed s) k) /\
    (forall oid, oid <> o_id order ->
                 items_of (committed s') oid = items_of (committed s) oid).
Proof.
  intros Hf. unfold OrderDesk.delete. rewrite Hf. eexists. split; [reflexivity|].
  cbn [commit_now committed]. pose proof (find_order_row_some _ _ _ Hf) as [_ Hk].
  split; [| split; [apply items_of_destroy_same | split; [reflexivity | split;
    [reflexivity | split]]]].
  - unfold find_order_row, destroy_order. cbn [orders]. apply find_filter_drop.
    intros o Ho. rewrite (pk_matches_same _ _ _ Ho Hk), Z.eqb_refl. reflexivity.
  - intros k Hne. unfold find_order_row, destroy_order. cbn [orders].
    apply find_filter_keep. intros o Ho.
    destruct (Z.eqb_spec (o_id o) (o_id order)) as [E | E]; [| reflexivity].
    rewrite E, Hne in Ho. discriminate.
  - intros oid Hne. now apply items_of_destroy_other.
Qed.

(** X17. Deleting an order removes its row and, with it, its lines, and
    touches nothing else: the flowers keep the stock they had (what the order
    took is not given back), the customers are as before, every other order
    is found as before and keeps its lines. *)
Theorem order_delete_effect (id : Q) (s : store) (order : Order) :
  find_order_row (committed s) (Fin id) = Some order ->
  exists s',
    OrderDesk.delete id s = (NoContent 204, s') /\
    find_order_row (committed s') (Fin id) = None /\
    items_of (committed s') (o_id order) = [] /\
    flowers (committed s') = flowers (committed s) /\
    customers (committed s') = customers (committed s) /\
    (forall k, pk_matches (o_id order) k = false ->
               find_order_row (committed s') k = find_order_row (committed s) k) /\
    (forall oid, oid <> o_id order ->
                 items_of (committed s') oid = items_of (committed s) oid).
Proof. exact (order_delete_tables id s order). Qed.

(** X17 on an example: Bob's order of the last lily is deleted; the lily
    stays sold. *)
Lemma order_delete_effect_witness :
  exists s',
    OrderDesk.delete 1 Example.shop_with_order = (NoContent 204, s') /\
    find_order_row (committed s') (Fin 1) = None /\
    items_of (committed s') (o_id Example.bobs_order) = [] /\
    flowers (committed s') = flowers (committed Example.shop_with_order) /\
    customers (committed s') = customers (committed Example.shop_with_order) /\
    (forall k, pk_matches (o_id Example.bobs_order) k = false ->
               find_order_row (committed s') k =
               find_order_row (committed Example.shop_with_order) k) /\
    (forall oid, oid <> o_id Example.bobs_order ->
                 items_of (committed s') oid =
                 items_of (committed Example.shop_with_order) oid).
Proof.
  exact (order_delete_effect 1 Example.shop_with_order Example.bobs_order eq_refl).
Defined.

(** X18. A deleted order is gone for every later request: its owner's
    lookup through the shop answers 404 whatever the email, and so do a second
    deletion and a change of status. *)
Theorem deleted_order_not_found (id : Q) (s s' : store) :
  OrderDesk.delete id s = (NoContent 204, s') ->
  (forall email,
     run (Shop.get_order email id) None s' =
       (json 404 [("msg"%string, JString "Order not found")], None, s')) /\
  OrderDesk.delete id s' = (msg 404 "Order not found", s') /\
  (forall st, In st OrderDesk.validStatuses ->
     OrderDesk.patch_status id (Some st) s' = (msg 404 "Order not found", s')).
Proof.
  intros H. unfold OrderDesk.delete in H.
  destruct (find_order_row (committed s) (Fin id)) as [order|] eqn:Hf; [| discriminate].
  destruct (order_delete_tables id s order Hf) as (s1 & Hd & Hgone & _).
  unfold OrderDesk.delete in Hd. rewrite Hf in Hd.
  assert (s1 = s') by congruence. subst s1. clear H Hd.
  split; [| split].
  - intros email. unfold Shop.get_order. simpl.
    change (view s' None) with (committed s').
    destruct (find_customer_email (committed s') email); simpl; [| reflexivity].
    change (view s' None) with (committed s'). unfold find_order.
    change (find (fun o => pk_matches (o_id o) (Fin id)) (orders (committed s')))
      with (find_order_row (committed s') (Fin id)).
    rewrite Hgone. reflexivity.
  - unfold OrderDesk.delete. now rewrite Hgone.
  - intros st Hin. apply includes_in in Hin. unfold OrderDesk.patch_status.
    now rewrite Hin, Hgone.
Qed.

(** X18 on an example: Bob's order, once deleted. *)
Lemma deleted_order_not_found_witness :
  let s' := snd (OrderDesk.delete 1 Example.shop_with_order) in
  (forall email,
     run (Shop.get_order email 1) None s' =
       (json 404 [("msg"%string, JString "Order not found")], None, s')) /\
  OrderDesk.delete 1 s' = (msg 404 "Order not found", s') /\
  (forall st, In st OrderDesk.validStatuses ->
     OrderDesk.patch_status 1 (Some st) s' = (msg 404 "Order not found", s')).
Proof.
  exact (deleted_order_not_found 1 Example.shop_with_order _ eq_refl).
Defined.

(** X19. Deleting an order keeps the books in order: every remaining order
    and line is below the counter, which does not move, and every remaining
    order still totals the sum of its lines. *)
Theorem order_delete_keeps_books (id : Q) (s : store) :
  wf_store s -> consistent (committed s) ->
  let s' := snd (OrderDesk.delete id s) in
  wf_store s' /\ consistent (committed s') /\ next_order s' = next_order s.
Proof.
  intros [Hwo Hwi] Hc. unfold OrderDesk.delete.
  destruct (find_order_row (committed s) (Fin id)) as [order|]; cbn [snd];
    [| split; [split; assumption | split; [assumption | reflexivity]]].
  split; [split | split; [| reflexivity]];
    cbn [commit_now committed next_order destroy_order orders orderItems].
  - now apply Forall_filter.
  - now apply Forall_filter.
  - unfold consistent in *. cbn [orders]. rewrite Forall_forall in *.
    intros o Ho. apply filter_In in Ho. destruct Ho as [Ho Hne].
    change (mkTables (flowers (committed s)) (customers (committed s))
              (filter (fun o0 => negb (Z.eqb (o_id o0) (o_id order))) (orders (committed s)))
              (filter (fun it => negb (Z.eqb (oi_orderId it) (o_id order)))
                      (orderItems (committed s))))
      with (destroy_order (committed s) (o_id order)).
    rewrite items_of_destroy_other; [exact (Hc o Ho)|].
    apply negb_true_iff in Hne. now apply Z.eqb_neq.
Qed.

Lemma example_order_books :
  wf_store Example.shop_with_order /\ consistent (committed Example.shop_with_order).
Proof.
  split; [split; repeat constructor|].
  constructor; [| constructor]. vm_compute. reflexivity.
Qed.

(** X19 on an example: Bob's order is deleted. *)
Lemma order_delete_keeps_books_witness :
  let s' := snd (OrderDesk.delete 1 Example.shop_with_order) in
  wf_store s' /\ consistent (committed s') /\
  next_order s' = next_order Example.shop_with_order.
Proof.
  exact (order_delete_keeps_books 1 Example.shop_with_order
           (proj1 example_order_books) (proj2 example_order_books)).
Defined.

(** ** Restocking and taking a flower off sale *)

Lemma set_stock_found (t : tables) (k : num) (id : Z) (stock : num) :
  find_flower (apply_write t (SetStock id stock)) k =
  option_map (fun f => if Z.eqb (f_id f) id
                       then mkFlower (f_id f) (f_name f) (f_price f) stock (f_isActive f)
                       else f)
             (find_flower t k).
Proof.
  unfold find_flower. cbn [apply_write flowers].
  apply (find_map_stable (fun f => pk_matches (f_id f) k && f_isActive f)).
  intros f. destruct (Z.eqb (f_id f) id); reflexivity.
Qed.

Lemma find_flower_other_id (t : tables) (k : num) (f g : Flower) :
  find_flower t k = Some g -> pk_matches (f_id f) k = false -> Z.eqb (f_id g) (f_id f) = false.
Proof.
  intros Hg Hk. apply find_flower_some in Hg. destruct Hg as [Hg _].
  destruct (Z.eqb_spec (f_id g) (f_id f)) as [E | E]; [| reflexivity].
  rewrite E, Hk in Hg. discriminate.
Qed.

(** X20. Restocking never drives a stock below zero: when no flower on sale
    is short before the request, whatever the flower and the [delta], none is
    after it. *)
Theorem restock_never_negative (id : Q) (delta : option value) (s : store) :
  never_short (committed s) ->
  never_short (committed (snd (Flowers.restock id delta s))).
Proof.
  intros Hns. unfold Flowers.restock.
  destruct (find_flower (committed s) (Fin id)) as [flower|] eqn:Hf; [| exact Hns].
  destruct (negb (f_isActive flower)); [exact Hns|]. cbv zeta.
  destruct (nlt (nadd (f_stock flower) (Number (or_zero delta))) (Fin 0)) eqn:Hlt;
    [exact Hns|].
  cbn [snd do_write committed]. intros k f' Hf'. rewrite set_stock_found in Hf'.
  destruct (find_flower (committed s) k) as [g|] eqn:Hg; [| discriminate].
  cbn [option_map] in Hf'. inversion Hf'; subst f'.
  destruct (Z.eqb (f_id g) (f_id flower)); [exact Hlt | exact (Hns k g Hg)].
Qed.

(** X20 on an example: an attempt to take seven tulips out of six. *)
Lemma restock_never_negative_witness :
  never_short (committed (snd (Flowers.restock 1 (Some (VNum (-7))) Example.shop))).
Proof.
  exact (restock_never_negative 1 (Some (VNum (-7))) Example.shop example_never_short).
Defined.

Lemma restock_tables (id : Q) (delta : option value) (s : store) (flower : Flower) :
  find_flower (committed s) (Fin id) = Some flower ->
  nlt (nadd (f_stock flower) (Number (or_zero delta))) (Fin 0) = false ->
  let flower' := mkFlower (f_id flower) (f_name flower) (f_price flower)
                          (nadd (f_stock flower) (Number (or_zero delta))) true in
  exists s',
    Flowers.restock id delta s = (FlowerRow 200 flower', s') /\
    find_flower (committed s') (Fin id) = Some flower' /\
    (forall k, pk_matches (f_id flower) k = false ->
               find_flower (committed s') k = find_flower (committed s) k) /\
    customers (committed s') = customers (committed s) /\
    orders (committed s') = orders (committed s) /\
    orderItems (committed s') = orderItems (committed s).
Proof.
  intros Hf Hlt. cbv zeta. pose proof (find_flower_some _ _ _ Hf) as [Hk Ha].
  unfold Flowers.restock. rewrite Hf, Ha. cbn [negb]. cbv zeta. rewrite Hlt.
  eexists. split; [reflexivity|]. cbn [snd do_write committed].
  split; [| split; [| repeat split]].
  - rewrite set_stock_found, Hf. cbn [option_map]. now rewrite Z.eqb_refl, Ha.
  - intros k Hne. rewrite set_stock_found.
    destruct (find_flower (committed s) k) as [g|] eqn:Hg; [| reflexivity].
    cbn [option_map]. now rewrite (find_flower_other_id _ _ flower g Hg Hne).
Qed.

(** X21. A restock that leaves the stock at zero or above is applied: the
    route answers 200 with the flower under its new stock, the old stock plus
    [Number(delta || 0)]; a later lookup finds that row; every other flower,
    and every customer, order and line, is as before. *)
Theorem restock_applied (id : Q) (delta : option value) (s : store) (flower : Flower) :
  find_flower (committed s) (Fin id) = Some flower ->
  nlt (nadd (f_stock flower) (Number (or_zero delta))) (Fin 0) = false ->
  let flower' := mkFlower (f_id flower) (f_name flower) (f_price flower)
                          (nadd (f_stock flower) (Number (or_zero delta))) true in
  exists s',
    Flowers.restock id delta s = (FlowerRow 200 flower', s') /\
    find_flower (committed s') (Fin id) = Some flower' /\
    (forall k, pk_matches (f_id flower) k = false ->
               find_flower (committed s') k = find_flower (committed s) k) /\
    customers (committed s') = customers (committed s) /\
    orders (committed s') = orders (committed s) /\
    orderItems (committed s') = orderItems (committed s).
Proof. exact (restock_tables id delta s flower). Qed.

(** X21 on an example: four lilies come in. *)
Lemma restock_applied_witness :
  let flower' := mkFlower 3 "Lily" (Fin 12) (nadd (Fin 1) (Fin 4)) true in
  exists s',
    Flowers.restock 3 (Some (VNum 4)) Example.shop = (FlowerRow 200 flower', s') /\
    find_flower (committed s') (Fin 3) = Some flower' /\
    (forall k, pk_matches 3 k = false ->
               find_flower (committed s') k = find_flower (committed Example.shop) k) /\
    customers (committed s') = customers (committed Example.shop) /\
    orders (committed s') = orders (committed Example.shop) /\
    orderItems (committed s') = orderItems (committed Example.shop).
Proof.
  exact (restock_applied 3 (Some (VNum 4)) Example.shop Example.lily eq_refl eq_refl).
Defined.

Lemma number_or_zero_num (d : Q) : exists d', Number (or_zero (Some (VNum d))) = Fin d' /\ d' == d.
Proof.
  unfold or_zero. simpl. destruct (Qeq_bool d 0) eqn:E; simpl.
  - exists 0. split; [reflexivity|]. apply Qeq_bool_iff in E. now symmetry.
  - exists d. split; reflexivity.
Qed.

(** X22. Restocking by [d] and then by [-d] gives the stock back, for a
    whole stock [x] and a whole [d], none of [x], [d] and [x + d] beyond
    [2^53], where the sums of JavaScript numbers are the sums of the
    integers: if [x] and [x + d] are not negative, both calls are accepted,
    the first answers with the flower at stock [x + d] and the second with
    the flower at stock [x] again. *)
Theorem restock_round_trip (id : Q) (d x : Z) (s : store) (flower : Flower) :
  find_flower (committed s) (Fin id) = Some flower ->
  f_stock flower = of_Z x ->
  (0 <= x <= 2 ^ 53)%Z -> (- 2 ^ 53 <= d <= 2 ^ 53)%Z -> (0 <= x + d <= 2 ^ 53)%Z ->
  exists f1 s1 f2 s2,
    Flowers.restock id (Some (VNum (inject_Z d))) s = (FlowerRow 200 f1, s1) /\
    Flowers.restock id (Some (VNum (inject_Z (- d)))) s1 = (FlowerRow 200 f2, s2) /\
    num_eq (f_stock f1) (of_Z (x + d)) /\
    num_eq (f_stock f2) (of_Z x) /\ f_static f2 = f_static flower.
Proof.
  intros Hf Hx Hx0 Hd0 Hxd. unfold of_Z in Hx.
  assert (Qx : 0 <= inject_Z x) by (change 0 with (inject_Z 0); rewrite <- Zle_Qle; lia).
  assert (Qxd : 0 <= inject_Z x + inject_Z d).
  { rewrite <- inject_Z_plus. change 0 with (inject_Z 0). rewrite <- Zle_Qle. lia. }
  assert (Qd : inject_Z (- d) == - inject_Z d) by (rewrite inject_Z_opp; reflexivity).
  destruct (number_or_zero_num (inject_Z d)) as (d1 & Hd1 & Ed1).
  destruct (number_or_zero_num (inject_Z (- d))) as (d2 & Hd2 & Ed2).
  assert (H1 : nlt (nadd (f_stock flower) (Number (or_zero (Some (VNum (inject_Z d))))))
                   (Fin 0) = false).
  { rewrite Hx, Hd1. simpl. apply negb_false_iff, Qle_bool_iff. lra. }
  destruct (restock_tables id (Some (VNum (inject_Z d))) s flower Hf H1) as (s1 & Hr1 & Hf1 & _).
  rewrite Hx, Hd1 in Hr1, Hf1. cbn [nadd] in Hr1, Hf1.
  assert (H2 : nlt (nadd (f_stock (mkFlower (f_id flower) (f_name flower) (f_price flower)
                                            (Fin (inject_Z x + d1)) true))
                         (Number (or_zero (Some (VNum (inject_Z (- d))))))) (Fin 0) = false).
  { rewrite Hd2. simpl. apply negb_false_iff, Qle_bool_iff. lra. }
  destruct (restock_tables id (Some (VNum (inject_Z (- d)))) s1 _ Hf1 H2) as (s2 & Hr2 & _).
  rewrite Hd2 in Hr2. cbn [nadd f_stock f_id f_name f_price] in Hr2.
  do 4 eexists. split; [exact Hr1 | split; [exact Hr2 | split; [| split]]].
  - unfold of_Z. cbn [f_stock num_eq]. rewrite inject_Z_plus. lra.
  - unfold of_Z. cbn [f_stock num_eq]. lra.
  - unfold f_static. cbn [f_id f_name f_price f_isActive].
    now rewrite (proj2 (find_flower_some _ _ _ Hf)).
Qed.

(** X22 on an example: five roses come in and go back. *)
Lemma restock_round_trip_witness :
  exists f1 s1 f2 s2,
    Flowers.restock 7 (Some (VNum (inject_Z 5))) Example.shop = (FlowerRow 200 f1, s1) /\
    Flowers.restock 7 (Some (VNum (inject_Z (- 5)))) s1 = (FlowerRow 200 f2, s2) /\
    num_eq (f_stock f1) (of_Z (10 + 5)) /\
    num_eq (f_stock f2) (of_Z 10) /\ f_static f2 = f_static Example.rose.
Proof.
  refine (restock_round_trip 7 5 10 Example.shop Example.rose eq_refl eq_refl _ _ _);
    vm_compute; split; discriminate.
Defined.

(** Soft deletion, of a flower or of a customer: the rows under the id go
    out of the default scope, the others are found as before. *)
Lemma find_off {A : Type} (key : A -> Z) (act : A -> bool) (g : A -> A)
    (l : list A) (id : Z) (k : num) :
  (forall a, key (g a) = key a) -> (forall a, act (g a) = false) ->
  pk_matches id k = true ->
  find (fun a => pk_matches (key a) k && act a)
       (map (fun a => if Z.eqb (key a) id then g a else a) l) = None.
Proof.
  intros Hkey Hact Hk. induction l as [| a l IH]; simpl; auto.
  destruct (Z.eqb_spec (key a) id) as [E | E].
  - now rewrite Hact, andb_false_r.
  - destruct (pk_matches (key a) k) eqn:Ha; simpl; auto.
    elim E. exact (pk_matches_same _ _ _ Ha Hk).
Qed.

Lemma find_off_other {A : Type} (key : A -> Z) (act : A -> bool) (g : A -> A)
    (l : list A) (id : Z) (k : num) :
  (forall a, key (g a) = key a) ->
  pk_matches id k = false ->
  find (fun a => pk_matches (key a) k && act a)
       (map (fun a => if Z.eqb (key a) id then g a else a) l) =
  find (fun a => pk_matches (key a) k && act a) l.
Proof.
  intros Hkey Hk. induction l as [| a l IH]; simpl; auto.
  destruct (Z.eqb_spec (key a) id) as [E | E].
  - rewrite Hkey, E, Hk. simpl. exact IH.
  - destruct (pk_matches (key a) k && act a); auto.
Qed.

Lemma flower_delete_tables (id : Q) (s : store) (flower : Flower) :
  find_flower (committed s) (Fin id) = Some flower ->
  exists s',
    Flowers.delete id s = (NoContent 204, s') /\
    find_flower (committed s') (Fin id) = None /\
    Flowers.get id s' = msg 404 "Flower not found" /\
    (forall delta, Flowers.restock id delta s' = (msg 404 "Flower not found", s')) /\
    Flowers.delete id s' = (msg 404 "Flower not found", s') /\
    (forall k, pk_matches (f_id flower) k = false ->
               find_flower (committed s') k = find_flower (committed s) k) /\
    map f_kept (flowers (committed s')) = map f_kept (flowers (committed s)) /\
    customers (committed s') = customers (committed s) /\
    orders (committed s') = orders (committed s) /\
    orderItems (committed s') = orderItems (committed s).
Proof.
  intros Hf. pose proof (find_flower_some _ _ _ Hf) as [Hk _].
  unfold Flowers.delete at 1. rewrite Hf. eexists. split; [reflexivity|].
  assert (Hgone : find_flower
                    (committed (commit_now s (deactivate_flower (committed s) (f_id flower))))
                    (Fin id) = None).
  { cbn [commit_now committed]. unfold find_flower, deactivate_flower. cbn [flowers].
    apply (find_off f_id f_isActive
             (fun f => mkFlower (f_id f) (f_name f) (f_price f) (f_stock f) false));
      auto. }
  split; [exact Hgone|].
  split; [unfold Flowers.get; now rewrite Hgone|].
  split; [intros delta; unfold Flowers.restock; now rewrite Hgone|].
  split; [unfold Flowers.delete; now rewrite Hgone|].
  cbn [commit_now committed]. split; [| split; [| repeat split]].
  - intros k Hne. unfold find_flower, deactivate_flower. cbn [flowers].
    apply (find_off_other f_id f_isActive
             (fun f => mkFlower (f_id f) (f_name f) (f_price f) (f_stock f) false));
      auto.
  - unfold deactivate_flower. cbn [flowers]. rewrite map_map. apply map_ext.
    intros f. destruct (Z.eqb (f_id f) (f_id flower)); reflexivity.
Qed.

(** X23. Taking a flower off sale hides it and keeps its row: the route
    answers 204; from then on the flower is not found, so that reading it,
    restocking it and deleting it again answer 404; its name, price and stock
    stay in the table; every other flower is found as before; the customers,
    the orders and their lines are untouched. *)
Theorem flower_delete_effect (id : Q) (s : store) (flower : Flower) :
  find_flower (committed s) (Fin id) = Some flower ->
  exists s',
    Flowers.delete id s = (NoContent 204, s') /\
    find_flower (committed s') (Fin id) = None /\
    Flowers.get id s' = msg 404 "Flower not found" /\
    (forall delta, Flowers.restock id delta s' = (msg 404 "Flower not found", s')) /\
    Flowers.delete id s' = (msg 404 "Flower not found", s') /\
    (forall k, pk_matches (f_id flower) k = false ->
               find_flower (committed s') k = find_flower (committed s) k) /\
    map f_kept (flowers (committed s')) = map f_kept (flowers (committed s)) /\
    customers (committed s') = customers (committed s) /\
    orders (committed s') = orders (committed s) /\
    orderItems (committed s') = orderItems (committed s).
Proof. exact (flower_delete_tables id s flower). Qed.

(** X23 on an example: the tulips are taken off sale. *)
Lemma flower_delete_effect_witness :
  exists s',
    Flowers.delete 1 Example.shop = (NoContent 204, s') /\
    find_flower (committed s') (Fin 1) = None /\
    Flowers.get 1 s' = msg 404 "Flower not found" /\
    (forall delta, Flowers.restock 1 delta s' = (msg 404 "Flower not found", s')) /\
    Flowers.delete 1 s' = (msg 404 "Flower not found", s') /\
    (forall k, pk_matches (f_id Example.tulip) k = false ->
               find_flower (committed s') k = find_flower (committed Example.shop) k) /\
    map f_kept (flowers (committed s')) = map f_kept (flowers (committed Example.shop)) /\
    customers (committed s') = customers (committed Example.shop) /\
    orders (committed s') = orders (committed Example.shop) /\
    orderItems (committed s') = orderItems (committed Example.shop).
Proof.
  exact (flower_delete_effect 1 Example.shop Example.tulip eq_refl).
Defined.

(** X24. A flower taken off sale cannot be ordered: once [DELETE
    /flowers/:id] has answered 204, a shop order whose merged cart reaches
    that flower, the flowers before it being in stock, is answered 400
    [Flower <id> unavailable] and commits nothing. *)
Theorem flower_off_sale_cannot_be_ordered (user : principal) (rq : shop_request)
    (s s1 : store) (items : list entry) (pre post : jsmap) (id : Q) (q : num) :
  wf_store s ->
  Flowers.delete id s = (NoContent 204, s1) ->
  present (u_email user) = true ->
  rq_items rq = Some items -> items <> [] ->
  present (rq_contactPhone rq) = true ->
  Shop.merge (flat items) [] = Some (pre ++ (Fin id, q) :: post) ->
  Forall (in_stock (committed s1)) pre ->
  exists s2,
    run (Shop.post_orders user rq) None s1 =
      (json 400 [("msg"%string, JTemplate "Flower " (Fin id) " unavailable")], None, s2) /\
    committed s2 = committed s1.
Proof.
  intros Hwf Hd Hmail Hi Hne Hph Hm Hin.
  unfold Flowers.delete in Hd.
  destruct (find_flower (committed s) (Fin id)) as [flower|] eqn:Hf; [| discriminate].
  destruct (flower_delete_tables id s flower Hf)
    as (s' & Hd' & Hgone & _ & _ & _ & _ & _ & _ & Ho & Hl).
  unfold Flowers.delete in Hd'. rewrite Hf in Hd'.
  assert (s' = s1) by congruence. subst s'.
  apply (unavailable_run user rq s1 items pre post (Fin id) q); auto.
  inversion Hd; subst s1. unfold wf_store in *.
  cbn [commit_now committed next_order deactivate_flower orders orderItems]. exact Hwf.
Qed.

(** X24 on an example: the tulips are taken off sale, then Alice orders a
    rose and two tulips. *)
Lemma flower_off_sale_cannot_be_ordered_witness :
  exists s2,
    run (Shop.post_orders Example.alice_user
           (Example.cart None [Example.line 7 1; Example.line 1 2]))
        None (snd (Flowers.delete 1 Example.shop)) =
      (json 400 [("msg"%string, JTemplate "Flower " (Fin 1) " unavailable")], None, s2) /\
    committed s2 = committed (snd (Flowers.delete 1 Example.shop)).
Proof.
  refine (flower_off_sale_cannot_be_ordered Example.alice_user
            (Example.cart None [Example.line 7 1; Example.line 1 2])
            Example.shop _ [Example.line 7 1; Example.line 1 2]
            [(Fin 7, Fin 1)] [] 1 (Fin 2)
            example_shop_wf eq_refl eq_refl eq_refl _ eq_refl eq_refl _).
  - discriminate.
  - constructor; [| constructor]. exists Example.rose. split; reflexivity.
Defined.

(** ** Customers at the desk *)

Lemma customer_delete_tables (id : Q) (s : store) (customer : Customer) :
  find_customer_pk (committed s) (Fin id) = Some customer ->
  exists s',
    Customers.delete id s = (NoContent 204, s') /\
    find_customer_pk (committed s') (Fin id) = None /\
    Customers.delete id s' = (msg 404 "Customer not found", s') /\
    (forall email old,
       find_customer_email (committed s) email = Some old ->
       exists row, find_customer_email (committed s') email = Some row /\
                   c_id row = c_id old /\ c_email row = c_email old /\
                   c_isActive row = (c_isActive old && negb (Z.eqb (c_id old) (c_id customer)))) /\
    (forall k, pk_matches (c_id customer) k = false ->
               find_customer_pk (committed s') k = find_customer_pk (committed s) k) /\
    flowers (committed s') = flowers (committed s) /\
    orders (committed s') = orders (committed s) /\
    orderItems (committed s') = orderItems (committed s).
Proof.
  intros Hf. pose proof (find_some _ _ Hf) as [_ Hk]. apply andb_true_iff in Hk.
  destruct Hk as [Hk _].
  unfold Customers.delete at 1. rewrite Hf. eexists. split; [reflexivity|].
  assert (Hgone : find_customer_pk
                    (committed (commit_now s (deactivate_customer (committed s) (c_id customer))))
                    (Fin id) = None).
  { cbn [commit_now committed]. unfold find_customer_pk, deactivate_customer.
    cbn [customers].
    apply (find_off c_id c_isActive
             (fun c => mkCustomer (c_id c) (c_name c) (c_email c) false)); auto. }
  split; [exact Hgone|].
  split; [unfold Customers.delete; now rewrite Hgone|].
  cbn [commit_now committed]. split; [| split; [| repeat split]].
  - intros email old Hold. unfold find_customer_email, deactivate_customer in *.
    cbn [customers].
    rewrite (find_map_stable (fun c => String.eqb (c_email c) email)
               (fun c => if Z.eqb (c_id c) (c_id customer)
                         then mkCustomer (c_id c) (c_name c) (c_email c) false else c));
      [| intros c; destruct (Z.eqb (c_id c) (c_id customer)); reflexivity].
    rewrite Hold. cbn [option_map]. eexists. split; [reflexivity|].
    destruct (Z.eqb (c_id old) (c_id customer)); cbn [c_id c_email c_isActive negb];
      rewrite ?andb_false_r, ?andb_true_r; auto.
  - intros k Hne. unfold find_customer_pk, deactivate_customer. cbn [customers].
    apply (find_off_other c_id c_isActive
             (fun c => mkCustomer (c_id c) (c_name c) (c_email c) false)); auto.
Qed.

(** X25. Soft-deleting a customer hides the profile from the desk and keeps
    its row: the route answers 204; from then on the customer is not found by
    id, so that a second deletion answers 404; a lookup by email among all the
    rows, as the shop makes it, still finds the row, now inactive; the other
    customers are found as before; flowers, orders and lines are untouched. *)
Theorem customer_delete_effect (id : Q) (s : store) (customer : Customer) :
  find_customer_pk (committed s) (Fin id) = Some customer ->
  exists s',
    Customers.delete id s = (NoContent 204, s') /\
    find_customer_pk (committed s') (Fin id) = None /\
    Customers.delete id s' = (msg 404 "Customer not found", s') /\
    (forall email old,
       find_customer_email (committed s) email = Some old ->
       exists row, find_customer_email (committed s') email = Some row /\
                   c_id row = c_id old /\ c_email row = c_email old /\
                   c_isActive row = (c_isActive old && negb (Z.eqb (c_id old) (c_id customer)))) /\
    (forall k, pk_matches (c_id customer) k = false ->
               find_customer_pk (committed s') k = find_customer_pk (committed s) k) /\
    flowers (committed s') = flowers (committed s) /\
    orders (committed s') = orders (committed s) /\
    orderItems (committed s') = orderItems (committed s).
Proof. exact (customer_delete_tables id s customer). Qed.

(** X25 on an example: Alice is soft-deleted. *)
Lemma customer_delete_effect_witness :
  exists s',
    Customers.delete 1 Example.shop = (NoContent 204, s') /\
    find_customer_pk (committed s') (Fin 1) = None /\
    Customers.delete 1 s' = (msg 404 "Customer not found", s') /\
    (forall email old,
       find_customer_email (committed Example.shop) email = Some old ->
       exists row, find_customer_email (committed s') email = Some row /\
                   c_id row = c_id old /\ c_email row = c_email old /\
                   c_isActive row =
                     (c_isActive old && negb (Z.eqb (c_id old) (c_id Example.alice)))) /\
    (forall k, pk_matches (c_id Example.alice) k = false ->
               find_customer_pk (committed s') k =
               find_customer_pk (committed Example.shop) k) /\
    flowers (committed s') = flowers (committed Example.shop) /\
    orders (committed s') = orders (committed Example.shop) /\
    orderItems (committed s') = orderItems (committed Example.shop).
Proof.
  exact (customer_delete_effect 1 Example.shop Example.alice eq_refl).
Defined.

(** X26. A soft-deleted customer cannot be served at the desk: once [DELETE
    /customers/:id] has answered 204, a staff order for that customer is
    answered 400 [Invalid customer] and writes nothing. *)
Theorem deleted_customer_refused_at_desk (rq : staff_request) (customerId : Q)
    (items : list staff_item) (s s1 : store) :
  Customers.delete customerId s = (NoContent 204, s1) ->
  sr_customerId rq = Some customerId ->
  falsy (Fin customerId) = false ->
  sr_items rq = Some items -> items <> [] ->
  run (Orders.post rq) None s1 =
    (json 400 [("msg"%string, JString "Invalid customer")], None, s1).
Proof.
  intros Hd Hid Hz Hi Hne. unfold Customers.delete in Hd.
  destruct (find_customer_pk (committed s) (Fin customerId)) as [customer|] eqn:Hf;
    [| discriminate].
  destruct (customer_delete_tables _ s customer Hf) as (s' & Hd' & Hgone & _).
  unfold Customers.delete in Hd'. rewrite Hf in Hd'.
  assert (s' = s1) by congruence. subst s'.
  unfold Orders.post. rewrite Hid, Hi, Hz.
  destruct items as [| first others]; [contradiction|].
  step_run. unfold Orders.place. step_run.
  change (view s1 (Some [])) with (committed s1). rewrite Hgone. step_run. reflexivity.
Qed.

(** X26 on an example: Alice is soft-deleted, then the desk takes an order
    of a rose for her. *)
Lemma deleted_customer_refused_at_desk_witness :
  run (Orders.post (Example.staff_cart 1 [mkStaffItem 7 1])) None
      (snd (Customers.delete 1 Example.shop)) =
    (json 400 [("msg"%string, JString "Invalid customer")], None,
     snd (Customers.delete 1 Example.shop)).
Proof.
  refine (deleted_customer_refused_at_desk (Example.staff_cart 1 [mkStaffItem 7 1]) 1
            [mkStaffItem 7 1] Example.shop _ eq_refl eq_refl eq_refl eq_refl _).
  discriminate.
Defined.

Lemma count_email_none (email : string) (rows : list Customer) :
  find (fun c => String.eqb (c_email c) email) rows = None ->
  count_email email rows = 0%nat.
Proof.
  intros H. unfold count_email. rewrite filter_none; [reflexivity|].
  now apply find_none_forall.
Qed.

Lemma find_none_of {A : Type} (p : A -> bool) (l : list A) :
  Forall (fun a => p a = false) l -> find p l = None.
Proof. induction 1 as [| a l Ha _ IH]; simpl; auto. now rewrite Ha. Qed.

(** X27. Creating customers keeps the emails unique: if no email is held
    by two rows before [POST /customers], whatever the request, none is after
    it. *)
Theorem customer_emails_stay_unique (name email : option string) (s : store) :
  (forall e, (count_email e (customers (committed s)) <= 1)%nat) ->
  forall e,
    (count_email e (customers (committed (snd (Customers.create name email s)))) <= 1)%nat.
Proof.
  intros Hu e. unfold Customers.create.
  destruct (negb (present name) || negb (present email)); [apply Hu|]. cbv zeta.
  destruct (find_active_email (committed s) (or_else email "")); [apply Hu|].
  destruct (find_customer_email (committed s) (or_else email "")) eqn:Hf; [apply Hu|].
  cbn [snd committed apply_write customers]. unfold count_email.
  rewrite filter_app, length_app. cbn [filter c_email].
  destruct (String.eqb_spec (or_else email "") e) as [E | E]; cbn [List.length].
  - subst e. apply count_email_none in Hf. unfold count_email in Hf. rewrite Hf. lia.
  - specialize (Hu e). unfold count_email in Hu. lia.
Qed.

Lemma example_emails_unique (e : string) :
  (count_email e (customers (committed Example.shop)) <= 1)%nat.
Proof.
  unfold count_email, Example.shop, Example.alice, Example.bob.
  cbn [committed customers filter c_email].
  destruct (String.eqb "alice@example.com" e) eqn:Ea;
    destruct (String.eqb "bob@example.com" e) eqn:Eb; cbn [List.length]; try lia.
  apply String.eqb_eq in Ea, Eb. subst e. discriminate.
Qed.

(** X27 on an example: Carol is entered at the desk. *)
Lemma customer_emails_stay_unique_witness :
  (count_email "carol@example.com"
     (customers (committed (snd (Customers.create (Some "Carol"%string)
                                   (Some "carol@example.com"%string) Example.shop)))) <= 1)%nat.
Proof.
  exact (customer_emails_stay_unique (Some "Carol"%string) (Some "carol@example.com"%string)
           Example.shop example_emails_unique "carol@example.com").
Defined.

(** X28. The desk cannot enter a customer under the email of a soft-deleted
    profile: the lookup, which goes through the default scope, does not see
    the profile, the insert meets the unique index, and the route answers 500
    and adds nothing; only when the email is held by an active profile does
    it answer 400 [Customer already exists]. *)
Theorem create_meets_soft_deleted_profile (name : option string) (email : string)
    (s : store) (old : Customer) :
  present name = true -> email <> EmptyString ->
  find_customer_email (committed s) email = Some old ->
  (Forall (fun c => c_email c = email -> c_isActive c = false) (customers (committed s)) ->
   sent_status (fst (Customers.create name (Some email) s)) = 500%Z /\
   snd (Customers.create name (Some email) s) = s) /\
  (c_isActive old = true ->
   Customers.create name (Some email) s = (msg 400 "Customer already exists", s)).
Proof.
  intros Hn He Hold. unfold Customers.create. rewrite Hn. cbn [negb orb present].
  destruct (String.eqb_spec email "") as [E | _]; [contradiction|]. cbn [negb].
  cbv zeta. cbn [or_else]. destruct (String.eqb_spec email "") as [E | _]; [contradiction|].
  split.
  - intros Hoff.
    assert (Hnone : find_active_email (committed s) email = None).
    { unfold find_active_email. apply find_none_of.
      eapply Forall_impl; [| exact Hoff]. intros c Hc. cbn beta.
      destruct (String.eqb_spec (c_email c) email) as [Ec | Ec]; simpl; auto. }
    rewrite Hnone, Hold. split; reflexivity.
  - intros Hact.
    assert (Hsome : exists c, find_active_email (committed s) email = Some c).
    { unfold find_active_email.
      destruct (find (fun c => String.eqb (c_email c) email && c_isActive c)
                     (customers (committed s))) as [c|] eqn:Hc; [now exists c|].
      exfalso. apply find_none_forall in Hc. rewrite Forall_forall in Hc.
      apply find_some in Hold. destruct Hold as [Hin Hmail].
      specialize (Hc old Hin). cbn beta in Hc. rewrite Hmail, Hact in Hc. discriminate. }
    destruct Hsome as (c & ->). reflexivity.
Qed.

(** X28 on an example: the desk enters Bob, whose profile is soft-deleted. *)
Lemma create_meets_soft_deleted_profile_witness :
  sent_status (fst (Customers.create (Some "Bob"%string) (Some "bob@example.com"%string)
                      Example.shop)) = 500%Z /\
  snd (Customers.create (Some "Bob"%string) (Some "bob@example.com"%string) Example.shop)
  = Example.shop.
Proof.
  refine (proj1 (create_meets_soft_deleted_profile (Some "Bob"%string) "bob@example.com"
                   Example.shop Example.bob eq_refl _ eq_refl) _).
  - discriminate.
  - repeat constructor; simpl; intros; try reflexivity; discriminate.
Defined.

(** ** The orders of a customer *)

Lemma insert_desc_in (o x : Order) (rows : list Order) :
  In x (insert_desc o rows) <-> x = o \/ In x rows.
Proof.
  induction rows as [| r rest IH]; simpl.
  - intuition.
  - destruct (Z.leb (o_id r) (o_id o)); simpl; [intuition|]. rewrite IH. intuition.
Qed.

Lemma insert_desc_length (o : Order) (rows : list Order) :
  List.length (insert_desc o rows) = S (List.length rows).
Proof.
  induction rows as [| r rest IH]; simpl; auto.
  destruct (Z.leb (o_id r) (o_id o)); simpl; auto.
Qed.

Lemma insert_desc_descending (o : Order) (rows : list Order) :
  descending rows -> descending (insert_desc o rows).
Proof.
  induction rows as [| r rest IH]; simpl.
  - intros _. split; [constructor | exact I].
  - intros [Hr Hd]. destruct (Z.leb_spec (o_id r) (o_id o)) as [Hle | Hlt].
    + split; [| split; assumption]. constructor; [exact Hle|].
      eapply Forall_impl; [| exact Hr]. cbn beta. intros; lia.
    + cbn [descending]. split; [| exact (IH Hd)].
      rewrite Forall_forall in *. intros x Hx. apply insert_desc_in in Hx.
      destruct Hx as [-> | Hx]; [lia | exact (Hr x Hx)].
Qed.

Lemma by_id_desc_spec (l : list Order) :
  (forall o, In o (by_id_desc l) <-> In o l) /\
  descending (by_id_desc l) /\
  List.length (by_id_desc l) = List.length l.
Proof.
  induction l as [| r rest (Hin & Hd & Hl)]; simpl.
  - repeat split; auto.
  - split; [| split].
    + intros o. rewrite insert_desc_in, Hin. intuition.
    + now apply insert_desc_descending.
    + now rewrite insert_desc_length, Hl.
Qed.

(** X29. The orders of a customer are listed in full and alone, newest
    first: the route answers 200 with the rows whose [customerId] is the id
    asked for, each of them once, by falling id.  It reads the orders table
    only: the answer is the same whether the customer is active, soft-deleted
    or unknown. *)
Theorem customer_orders_listed (id : Q) (s : store) :
  exists rows,
    Customers.orders_of id s = OrderRows 200 rows /\
    (forall o, In o rows <->
               In o (orders (committed s)) /\ pk_matches (o_customerId o) (Fin id) = true) /\
    descending rows /\
    List.length rows =
      List.length (filter (fun o => pk_matches (o_customerId o) (Fin id)) (orders (committed s))).
Proof.
  unfold Customers.orders_of. eexists. split; [reflexivity|].
  destruct (by_id_desc_spec
              (filter (fun o => pk_matches (o_customerId o) (Fin id)) (orders (committed s))))
    as (Hin & Hd & Hl).
  split; [| split; assumption]. intros o. rewrite Hin. apply filter_In.
Qed.

(** ** The revenue of the sales report *)




